(** * Chat service, chat controller and client hooks: a shallow embedding

    The development follows the TypeScript sources:
    - [server/services/chat.service.ts]   (module [ChatService])
    - the chat controller                 (module [ChatController])
    - the Nim game page hook              (module [NimGamePage])
    - the users list page hook            (module [UsersListPage])
    - [client/src/hooks/useAuth.ts]       (module [Auth])

    Asynchronous functions are state-passing computations that may throw;
    the document store (Mongoose models) and the socket server are explicit
    state. *)

From Stdlib Require Import ZArith NArith String Ascii List Lia.
From stdpp Require Import base option list gmap strings.

Local Open Scope string_scope.
Local Open Scope N_scope.
Local Open Scope list_scope.

(** ** JavaScript values *)
Module Js.

(** A string is truthy unless it is empty. *)
Definition truthy (s : string) : bool := negb (String.eqb s "").

(** An optional (possibly [undefined]) string is truthy when it is present
    and not empty. *)
Definition truthy_opt (o : option string) : bool :=
  match o with
  | Some s => truthy s
  | None => false
  end.

(** A thrown [Error] value. *)
Record JsError := mkError { err_name : string; err_message : string }.

(** [new Error(m)] *)
Definition Error (m : string) : JsError := mkError "Error" m.

(** [String(e)], what a template literal makes of an error value. *)
Definition error_toString (e : JsError) : string :=
  if String.eqb (err_message e) "" then err_name e
  else err_name e +:+ ": " +:+ err_message e.

(** *** Computations over a state [S] that return or throw *)
Definition M (S A : Type) : Type := S -> S * (JsError + A).

#[global] Instance M_ret {S} : MRet (M S) :=
  fun A (a : A) s => (s, inr a).

#[global] Instance M_bind {S} : MBind (M S) :=
  fun A B (k : A -> M S B) (m : M S A) s =>
    match m s with
    | (s1, inr a) => k a s1
    | (s1, inl e) => (s1, inl e)
    end.

Definition throw {S A} (e : JsError) : M S A := fun s => (s, inl e).

(** [try { body } catch (error) { handler }] *)
Definition try_catch {S A} (body : M S A) (handler : JsError -> M S A) : M S A :=
  fun s =>
    match body s with
    | (s1, inr a) => (s1, inr a)
    | (s1, inl e) => handler e s1
    end.

(** A value that is there or a throw, as a computation. *)
Definition settled {S A} (r : JsError + A) : M S A := fun s => (s, r).

Definition get {S} : M S S := fun s => (s, inr s).
Definition modify {S} (f : S -> S) : M S unit := fun s => (f s, inr tt).

(** [Promise.all(xs.map(async x => ...))]: every callback is started, in
    order, before any of them settles, so every one runs to its end; the
    result is the list of values, or the first rejection.  The state
    returned is the one in which all of them have settled. *)
Fixpoint promiseAll {S A} (ps : list (M S A)) : M S (list A) :=
  fun s =>
    match ps with
    | [] => (s, inr [])
    | p :: rest =>
        let '(s1, r) := p s in
        let '(s2, rs) := promiseAll rest s1 in
        (s2, match r, rs with
             | inl e, _ => inl e
             | inr _, inl e => inl e
             | inr a, inr l => inr (a :: l)
             end)
    end.

End Js.

Import Js.

(** ** The document store *)
Module Store.

(** An [ObjectId] is twelve bytes; as a string it is 24 hexadecimal digits,
    in lower case. *)
Abbreviation ObjectId := string (only parsing).

(** [0-9], [a-f] or [A-F] *)
Definition isHexDigit (a : ascii) : bool :=
  let n := N_of_ascii a in
  (48 <=? n) && (n <=? 57) || (97 <=? n) && (n <=? 102) || (65 <=? n) && (n <=? 70).

(** The lower-case digit for [A-F]; any other character is kept. *)
Definition toLowerHex (a : ascii) : ascii :=
  let n := N_of_ascii a in
  if (65 <=? n) && (n <=? 70) then ascii_of_N (n + 32) else a.

Fixpoint allHex (s : string) : bool :=
  match s with
  | EmptyString => true
  | String a r => isHexDigit a && allHex r
  end.

Fixpoint lowerHex (s : string) : string :=
  match s with
  | EmptyString => EmptyString
  | String a r => String (toLowerHex a) (lowerHex r)
  end.

(** [new ObjectId(s)] for a string [s], as the driver (bson 5 and later)
    reads it: the id that [s] writes, when [s] is 24 hexadecimal digits, of
    either case; it throws otherwise, which is [None] here. *)
Definition toObjectId (s : string) : option ObjectId :=
  if Nat.eqb (String.length s) 24 && allHex s then Some (lowerHex s) else None.
#[global] Arguments toObjectId : simpl never.

(** The digit of a number below 16. *)
Definition hexDigit (n : N) : ascii :=
  if n <? 10 then ascii_of_N (48 + n) else ascii_of_N (87 + n).

(** The last [k] hexadecimal digits of [n], in front of [acc]. *)
Fixpoint hexDigits (k : nat) (n : N) (acc : string) : string :=
  match k with
  | O => acc
  | S k' => hexDigits k' (n / 16) (String (hexDigit (n mod 16)) acc)
  end.

Record User := mkUser { user_id : ObjectId; username : string }.

(** A message as a client sends it ([_id] is optional). *)
Record Message := mkMessage {
  m_id : option ObjectId;
  msg : string;
  msgFrom : string;
  msgDateTime : N;
  msgType : string
}.

(** A message document of the Message collection. *)
Record MessageDoc := mkMessageDoc {
  doc_id : ObjectId;
  doc_msg : string;
  doc_msgFrom : string;
  doc_msgDateTime : N;
  doc_type : string
}.

(** A chat document: participants and the ids of its messages, in order. *)
Record Chat := mkChat {
  chat_id : ObjectId;
  participants : list string;
  messages : list ObjectId
}.

(** The collections behind the Mongoose models [UserModel], [MessageModel]
    and [ChatModel], the id generator, and the outcomes of the coming store
    calls: [Some e] makes the next call throw [e] (a lost connection, a
    validation error), [None] lets it through; when the list is used up,
    every call goes through. *)
Record Db := mkDb {
  users : list User;
  messageDocs : list MessageDoc;
  chatDocs : list Chat;
  nextId : N;
  faults : list (option JsError)
}.

Definition set_messageDocs (f : list MessageDoc -> list MessageDoc) (d : Db) : Db :=
  mkDb (users d) (f (messageDocs d)) (chatDocs d) (nextId d) (faults d).

Definition set_chatDocs (f : list Chat -> list Chat) (d : Db) : Db :=
  mkDb (users d) (messageDocs d) (f (chatDocs d)) (nextId d) (faults d).

Definition set_nextId (n : N) (d : Db) : Db :=
  mkDb (users d) (messageDocs d) (chatDocs d) n (faults d).

Definition set_faults (fs : list (option JsError)) (d : Db) : Db :=
  mkDb (users d) (messageDocs d) (chatDocs d) (nextId d) fs.

(** The queries by key: the first document that matches. *)
Definition findUser (d : Db) (uname : string) : option User :=
  List.find (fun u => String.eqb (username u) uname) (users d).

Definition findMessage (d : Db) (id : ObjectId) : option MessageDoc :=
  List.find (fun m => String.eqb (doc_id m) id) (messageDocs d).

Definition findChat (d : Db) (id : ObjectId) : option Chat :=
  List.find (fun c => String.eqb (chat_id c) id) (chatDocs d).

(** Every model operation is one store call. *)
Definition storeCall : M Db unit :=
  fun d =>
    match faults d with
    | Some e :: fs => (set_faults fs d, inl e)
    | None :: fs => (set_faults fs d, inr tt)
    | [] => (d, inr tt)
    end.

(** The [ObjectId] the driver generates from its counter. *)
Definition freshId (n : N) : ObjectId := hexDigits 24 n "".
#[global] Arguments freshId : simpl never.

(** A new [ObjectId]: the counter, as 24 hexadecimal digits. *)
Definition newObjectId : M Db ObjectId :=
  fun d => (set_nextId (N.succ (nextId d)) d, inr (freshId (nextId d))).

(** [UserModel.findOne({ username })] *)
Definition UserModel_findOne (uname : string) : M Db (option User) :=
  storeCall;;
  d ← get;
  mret (findUser d uname).

(** [MessageModel.create(m)]: the document gets the id the caller gave, or
    a new one. *)
Definition MessageModel_create (m : Message) : M Db MessageDoc :=
  storeCall;;
  id ← match m_id m with
        | Some i => mret i
        | None => newObjectId
        end;
  let doc := mkMessageDoc id (msg m) (msgFrom m) (msgDateTime m) (msgType m) in
  modify (set_messageDocs (fun l => l ++ [doc]));;
  mret doc.

(** [ChatModel.create({ participants, messages })] *)
Definition ChatModel_create (ps : list string) (ms : list ObjectId) : M Db Chat :=
  storeCall;;
  id ← newObjectId;
  let c := mkChat id ps ms in
  modify (set_chatDocs (fun l => l ++ [c]));;
  mret c.

(** The first argument of [findByIdAndUpdate]: an id, or an object.
    Mongoose looks for [{ _id: id }] and casts [id] to an [ObjectId]; the
    cast of an object is the cast of its [_id] field, its other fields are
    dropped. *)
Record ChatFilter := mkChatFilter {
  filter_id : string;
  filter_participants_in : list string
}.

Inductive IdArg :=
| IdString (s : string)
| IdObject (q : ChatFilter).

(** The error of a failed cast.  Its message names the value, its type and
    the path; Mongoose's wording (quotes around the value, a suffix for the
    reason) is not reproduced: the statements of this development use the
    name of the error only. *)
Definition CastError (value type path : string) : JsError :=
  mkError "CastError"
          ("Cast to ObjectId failed for value " +:+ value +:+ " (type " +:+ type
           +:+ ") at path " +:+ path +:+ " for model Chat").

(** The cast of a query's [_id]: it is done before the query is sent, and
    a value that is no [ObjectId] makes the query reject with a
    [CastError]. *)
Definition castObjectId (a : IdArg) : JsError + ObjectId :=
  match a with
  | IdString s =>
      match toObjectId s with
      | Some id => inr id
      | None => inl (CastError s "string" "_id")
      end
  | IdObject q =>
      match toObjectId (filter_id q) with
      | Some id => inr id
      | None => inl (CastError ("{ _id: " +:+ filter_id q +:+ ", participants }")
                               "Object" "_id")
      end
  end.

(** [{ $push: { messages: id } }] and [{ $push: { participants: p } }] *)
Inductive ChatPush :=
| PushMessage (id : string)
| PushParticipant (p : string).

(** The cast of an update: the messages of a chat are [ObjectId]s, its
    participants are strings. *)
Definition castUpdate (u : ChatPush) : JsError + ChatPush :=
  match u with
  | PushMessage s =>
      match toObjectId s with
      | Some id => inr (PushMessage id)
      | None => inl (CastError s "string" "messages")
      end
  | PushParticipant p => inr (PushParticipant p)
  end.

Definition applyPush (u : ChatPush) (c : Chat) : Chat :=
  match u with
  | PushMessage id => mkChat (chat_id c) (participants c) (messages c ++ [id])
  | PushParticipant p => mkChat (chat_id c) (participants c ++ [p]) (messages c)
  end.

(** Update the first chat whose id is [id]; the updated document and the
    new collection, or [None] when there is none. *)
Fixpoint updateFirst (id : ObjectId) (u : ChatPush) (cs : list Chat)
  : option (Chat * list Chat) :=
  match cs with
  | [] => None
  | c :: rest =>
      if String.eqb (chat_id c) id then Some (applyPush u c, applyPush u c :: rest)
      else match updateFirst id u rest with
           | Some (c', rest') => Some (c', c :: rest')
           | None => None
           end
  end.

(** [ChatModel.findByIdAndUpdate(id, update, { new: true })]: the filter
    and the update are cast, then the store is called. *)
Definition ChatModel_findByIdAndUpdate (a : IdArg) (u : ChatPush) : M Db (option Chat) :=
  id ← settled (castObjectId a);
  u' ← settled (castUpdate u);
  storeCall;;
  d ← get;
  match updateFirst id u' (chatDocs d) with
  | Some (c', cs') => modify (set_chatDocs (fun _ => cs'));; mret (Some c')
  | None => mret None
  end.

(** [ChatModel.findById(id)]: the id is cast, then the store is called. *)
Definition ChatModel_findById (id : string) : M Db (option Chat) :=
  id' ← settled (castObjectId (IdString id));
  storeCall;;
  d ← get;
  mret (findChat d id').

End Store.

Import Store.

(** ** server/services/chat.service.ts *)
Module ChatService.

(** [T | { error: string }] *)
Inductive OrError (A : Type) :=
| Doc (a : A)
| ErrorObj (error : string).
Arguments Doc {A} a.
Arguments ErrorObj {A} error.

Definition ChatResponse := OrError Chat.
Definition MessageResponse := OrError MessageDoc.

Record CreateChatPayload := mkCreateChatPayload {
  payload_participants : list string;
  payload_messages : list Message
}.

(** The text a [catch] block builds: the template literal ends in the
    letters [.message], after the error printed as a string. *)
Definition caught (prefix : string) (e : JsError) : string :=
  prefix +:+ error_toString e +:+ ".message".

(** [saveChat] also looks for an [error] field in each created message;
    a created document has none, so that branch is never taken. *)
Definition saveChat (chatPayload : CreateChatPayload) : M Db ChatResponse :=
  try_catch
    (messageIds ← promiseAll
        (map (fun m => savedMessage ← MessageModel_create m;
                       mret (doc_id savedMessage))
             (payload_messages chatPayload));
     response ← ChatModel_create (payload_participants chatPayload) messageIds;
     mret (Doc response))
    (fun e => mret (ErrorObj (caught "Error occurred while saving chat: " e))).

Definition createMessage (messageData : Message) : M Db MessageResponse :=
  try_catch
    (user ← UserModel_findOne (msgFrom messageData);
     match user with
     | None => throw (Error "User not found")
     | Some _ =>
         response ← MessageModel_create messageData;
         mret (Doc response)
     end)
    (fun e => mret (ErrorObj (caught "Error occurred while creating message: " e))).

Definition addMessageToChat (chatId messageId : string) : M Db ChatResponse :=
  try_catch
    (chat ← ChatModel_findByIdAndUpdate (IdString chatId) (PushMessage messageId);
     match chat with
     | None => throw (Error "Chat not found")
     | Some c => mret (Doc c)
     end)
    (fun e => mret (ErrorObj (caught "Error occurred while adding the message to chat: " e))).

Definition getChat (chatId : string) : M Db ChatResponse :=
  try_catch
    (chat ← ChatModel_findById chatId;
     match chat with
     | None => throw (Error "Chat not found")
     | Some c => mret (Doc c)
     end)
    (fun e => mret (ErrorObj (caught "Error occurred while retrieving chat: " e))).

Definition addParticipantToChat (chatId userId : string) : M Db ChatResponse :=
  try_catch
    (user ← UserModel_findOne userId;
     match user with
     | None => throw (Error "User not found")
     | Some u =>
         chat ← ChatModel_findByIdAndUpdate
                   (IdObject (mkChatFilter chatId [user_id u]))
                   (PushParticipant (user_id u));
         match chat with
         | None => throw (Error "Chat not found")
         | Some c => mret (Doc c)
         end
     end)
    (fun e => mret (ErrorObj (caught "Error occurred while adding participant to chat: " e))).

End ChatService.

Import ChatService.

(** ** The chat controller *)
Module ChatController.

(** *** What goes over the wire *)

(** A message of a populated chat: the document and its sender, when the
    sender is still a user. *)
Record PopulatedMessage := mkPopulatedMessage {
  pm_doc : MessageDoc;
  pm_user : option User
}.

(** In the JSON of a chat a message is its id (the stored document) or the
    message itself (the populated document). *)
Inductive MessageJson :=
| MessageRef (id : ObjectId)
| MessageFull (m : PopulatedMessage).

Record ChatJson := mkChatJson {
  json_id : ObjectId;
  json_participants : list string;
  json_messages : list MessageJson
}.

(** A chat document as [res.json] and [emit] serialise it. *)
Definition toJson (c : Chat) : ChatJson :=
  mkChatJson (chat_id c) (participants c) (map MessageRef (messages c)).

Definition isFull (m : MessageJson) : bool :=
  match m with
  | MessageFull _ => true
  | MessageRef _ => false
  end.

(** A chat is populated when none of its messages is a bare id. *)
Definition populated (j : ChatJson) : bool := forallb isFull (json_messages j).

Definition populateMessages (d : Db) (ids : list ObjectId) : list MessageJson :=
  omap (fun id =>
          match findMessage d id with
          | Some m => Some (MessageFull (mkPopulatedMessage m (findUser d (doc_msgFrom m))))
          | None => None
          end) ids.

(** Modelled from the spec: [populateDocument] of [utils/database.util],
    which is not among the sources.  The controller and its tests show its
    contract: given the id of a chat and the kind ['chat'] it resolves to
    the populated entity, the chat with each message id replaced by the
    message and its sender, or to an [{ error }] object; it does not
    throw.  It reads the store in one call. *)
Definition populateDocument (id : option string) (kind : string)
  : M Db (OrError ChatJson) :=
  try_catch
    (match id with
     | None => throw (Error "Provided ID is undefined.")
     | Some i =>
         if negb (String.eqb kind "chat") then throw (Error "Invalid type provided.")
         else
           chat ← ChatModel_findById i;
           d ← get;
           match chat with
           | None => throw (Error "Chat not found")
           | Some c =>
               mret (Doc (mkChatJson (chat_id c) (participants c)
                                     (populateMessages d (messages c))))
           end
     end)
    (fun e => mret (ErrorObj ("Error when fetching and populating a document: "
                              +:+ err_message e))).

(** *** The socket server

    The controller's [socket] is the server: [socket.emit] reaches every
    connection, [socket.to(room).emit] the connections joined to [room].
    Rooms are sets of connections; [join] and [leave] add and remove one. *)

Inductive Scope :=
| ToAll
| ToRoom (room : string).

Record ChatUpdatePayload := mkChatUpdate {
  update_chat : OrError ChatJson;
  update_type : string
}.

(** One [emit]: the event, its payload, the scope it was addressed to and
    the connections it was delivered to. *)
Record Emission := mkEmission {
  em_event : string;
  em_payload : ChatUpdatePayload;
  em_scope : Scope;
  em_to : gset N
}.

(** The connections, the rooms (a room is the set of connections joined to
    it) and the emissions so far, oldest first. *)
Record Io := mkIo {
  conns : gset N;
  rooms : gmap string (gset N);
  emitted : list Emission
}.

Definition subscribers (room : string) (io : Io) : gset N :=
  default ∅ (rooms io !! room).

(** [conn.join(room)] *)
Definition join (conn : N) (room : string) (io : Io) : Io :=
  mkIo (conns io) (<[room := {[conn]} ∪ subscribers room io]> (rooms io)) (emitted io).

(** [conn.leave(room)] *)
Definition leave (conn : N) (room : string) (io : Io) : Io :=
  match rooms io !! room with
  | Some s => mkIo (conns io) (<[room := s ∖ {[conn]}]> (rooms io)) (emitted io)
  | None => io
  end.

Definition recipients (sc : Scope) (io : Io) : gset N :=
  match sc with
  | ToAll => conns io
  | ToRoom r => subscribers r io
  end.

(** [socket.emit(ev, p)] is [emit ToAll ev p], [socket.to(room).emit(ev, p)]
    is [emit (ToRoom room) ev p]. *)
Definition emit (sc : Scope) (ev : string) (p : ChatUpdatePayload) (io : Io) : Io :=
  mkIo (conns io) (rooms io) (emitted io ++ [mkEmission ev p sc (recipients sc io)]).

(** The events a connection has received, oldest first. *)
Definition inbox (conn : N) (io : Io) : list Emission :=
  List.filter (fun e => bool_decide (conn ∈ em_to e)) (emitted io).

(** The listeners registered on every connection. *)
Definition on_joinChat (conn : N) (chatID : string) (io : Io) : Io :=
  join conn chatID io.

Definition on_leaveChat (conn : N) (chatID : option string) (io : Io) : Io :=
  match chatID with
  | Some id => if truthy id then leave conn id io else io
  | None => io
  end.

(** *** The server: store, sockets and clock *)
Record World := mkWorld {
  db : Db;
  io : Io;
  now : N
}.

Definition liftDb {A} (m : M Db A) : M World A :=
  fun w =>
    let '(d, r) := m (db w) in
    (mkWorld d (io w) (now w), r).

Definition socket_emit (sc : Scope) (ev : string) (p : ChatUpdatePayload) : M World unit :=
  modify (fun w => mkWorld (db w) (emit sc ev p (io w)) (now w)).

(** *** Requests and responses

    The JSON body parser hands every route a body object; a field that the
    client left out is [None]. *)
Inductive Body :=
| Text (s : string)
| Json (j : OrError ChatJson).

Record Response := mkResponse {
  status : N;
  body : Body
}.

(** [res.status(n).send(s)] and [res.json(j)] *)
Definition send (n : N) (s : string) : Response := mkResponse n (Text s).
Definition json (j : OrError ChatJson) : Response := mkResponse 200 (Json j).

(** The body of a create-chat request: [participants] is [None] when the
    field is missing or not an array, [messages] is [None] when the field
    is missing. *)
Record CreateChatRequest := mkCreateChatRequest {
  cc_participants : option (list string);
  cc_messages : option (list Message)
}.

Record AddMessageRequestToChat := mkAddMessageRequest {
  am_chatId : string;
  am_msg : option string;
  am_msgFrom : option string;
  am_msgDateTime : option N
}.

Record AddParticipantRequest := mkAddParticipantRequest {
  ap_chatId : string;
  ap_participant : option string
}.

Definition isCreateChatRequestValid (req : CreateChatRequest) : bool :=
  match cc_participants req with
  | Some ps => negb (Nat.eqb (length ps) 0) && bool_decide (is_Some (cc_messages req))
  | None => false
  end.

Definition isAddMessageRequestValid (req : AddMessageRequestToChat) : bool :=
  truthy (am_chatId req) && truthy_opt (am_msg req) && truthy_opt (am_msgFrom req).

Definition isAddParticipantRequestValid (req : AddParticipantRequest) : bool :=
  truthy (ap_chatId req) && truthy_opt (ap_participant req).

(** [throw new Error(r.error)] when [r] is an error object *)
Definition orThrow {S A} (r : OrError A) : M S A :=
  match r with
  | Doc a => mret a
  | ErrorObj e => throw (Error e)
  end.

Definition createChatRoute (req : CreateChatRequest) : M World Response :=
  if negb (isCreateChatRequestValid req) then
    mret (send 400 "Invalid request for creating chat")
  else
    try_catch
      (r ← liftDb (saveChat (mkCreateChatPayload (default [] (cc_participants req))
                                                 (default [] (cc_messages req))));
       createdChat ← orThrow r;
       populatedChat ← liftDb (populateDocument (Some (chat_id createdChat)) "chat");
       socket_emit ToAll "chatUpdate" (mkChatUpdate populatedChat "created");;
       mret (json populatedChat))
      (fun err => mret (send 500 ("Error occurred while creating a chat: "
                                  +:+ err_message err))).

Definition addMessageToChatRoute (req : AddMessageRequestToChat) : M World Response :=
  if negb (isAddMessageRequestValid req) then
    mret (send 400 "Invalid request body")
  else
    let chatId := am_chatId req in
    try_catch
      (w ← get;
       r ← liftDb (createMessage
                     (mkMessage None (default "" (am_msg req)) (default "" (am_msgFrom req))
                                (default (now w) (am_msgDateTime req)) "direct"));
       newMessage ← orThrow r;
       (if negb (truthy (doc_id newMessage))
        then throw (Error "_id missing from new message") else mret tt);;
       r' ← liftDb (addMessageToChat chatId (doc_id newMessage));
       updatedChat ← orThrow r';
       populatedChat ← liftDb (populateDocument (Some (chat_id updatedChat)) "chat");
       socket_emit (ToRoom chatId) "chatUpdate" (mkChatUpdate populatedChat "newMessage");;
       mret (json populatedChat))
      (fun err => mret (send 500 ("Error occurred while adding a message to the chat: "
                                  +:+ err_message err))).

Definition addParticipantToChatRoute (req : AddParticipantRequest) : M World Response :=
  if negb (isAddParticipantRequestValid req) then
    mret (send 400 "Invalid request body")
  else
    try_catch
      (r ← liftDb (addParticipantToChat (ap_chatId req) (default "" (ap_participant req)));
       chat ← orThrow r;
       socket_emit ToAll "chatUpdate" (mkChatUpdate (Doc (toJson chat)) "newParticipant");;
       mret (json (Doc (toJson chat))))
      (fun err => mret (send 500 ("Error occurred while adding participant to chat: "
                                  +:+ err_message err))).

End ChatController.

(** ** The Nim game page hook ([useNimGamePage]) *)
Module NimGamePage.

Local Open Scope Z_scope.

(** The text of the input field, as JavaScript has it: a sequence of UTF-16
    code units. *)
Definition JsString := list N.

(** The code units of a string of one-byte characters. *)
Definition units (s : string) : JsString :=
  map N_of_ascii (list_ascii_of_string s).

(** [s.slice(-1)]: the last code unit of [s], none when [s] is empty. *)
Fixpoint slice_last (s : JsString) : option N :=
  match s with
  | [] => None
  | [c] => Some c
  | _ :: rest => slice_last rest
  end.

Definition between (lo hi c : N) : bool := N.leb lo c && N.leb c hi.

(** White space and line terminators, which [Number] strips. *)
Definition isWhiteSpace (c : N) : bool :=
  between 9 13 c || N.eqb c 32 || N.eqb c 160 || N.eqb c 5760
  || between 8192 8202 c || N.eqb c 8232 || N.eqb c 8233 || N.eqb c 8239
  || N.eqb c 8287 || N.eqb c 12288 || N.eqb c 65279.

Definition isDigit (c : N) : bool := between 48 57 c.

(** [Number(s)] for a string of at most one code unit: the empty string
    and white space are 0, a digit is its value, anything else is [NaN]
    (here [None]). *)
Definition Number (s : option N) : option Z :=
  match s with
  | None => Some 0
  | Some c =>
      if isDigit c then Some (Z.of_N c - 48)
      else if isWhiteSpace c then Some 0
      else None
  end.

(** Comparisons with [NaN] are false. *)
Definition geq (x : option Z) (n : Z) : bool :=
  match x with Some v => Z.leb n v | None => false end.

Definition leq (x : option Z) (n : Z) : bool :=
  match x with Some v => Z.leb v n | None => false end.

(** The game and the user the page is rendered for. *)
Record Props := mkProps {
  gameID : string;
  user_username : string
}.

Record GameMove := mkGameMove {
  playerID : string;
  move_gameID : string;
  numObjects : option Z
}.

Record MakeMovePayload := mkMakeMove {
  payload_gameID : string;
  payload_move : GameMove
}.

(** The state of the hook, [move : number | null], and the [makeMove]
    events emitted on the socket so far, oldest first.  A stored number is
    [Some (Some n)], a stored [NaN] would be [Some None]. *)
Record Page := mkPage {
  move : option (option Z);
  sent : list MakeMovePayload
}.

(** [useState<number | null>(null)] *)
Definition initial : Page := mkPage None [].

(** [if (move)]: [null], [0] and [NaN] are falsy. *)
Definition truthy_move (m : option (option Z)) : bool :=
  match m with
  | Some (Some n) => negb (Z.eqb n 0)
  | _ => false
  end.

Definition handleMakeMove (p : Props) (st : Page) : Page :=
  if truthy_move (move st) then
    mkPage (move st)
           (sent st ++ [mkMakeMove (gameID p)
                          (mkGameMove (user_username p) (gameID p)
                                      (default None (move st)))])
  else st.

(** [value === '']: a string is empty when it has no code unit. *)
Definition isEmpty (s : JsString) : bool :=
  match s with
  | [] => true
  | _ => false
  end.

Definition handleInputChange (value : JsString) (st : Page) : Page :=
  let numObjects := Number (slice_last value) in
  if negb (isEmpty value) && geq numObjects 1 && leq numObjects 3 then
    mkPage (Some (if isEmpty value then Some 1 else numObjects)) (sent st)
  else st.

(** What the user does on the page. *)
Inductive Action :=
| InputChange (value : JsString)
| MakeMove.

Definition step (p : Props) (st : Page) (a : Action) : Page :=
  match a with
  | InputChange v => handleInputChange v st
  | MakeMove => handleMakeMove p st
  end.

Definition run (p : Props) (acts : list Action) : Page :=
  fold_left (step p) acts initial.

(** [numObjects] is a number of the closed range 1..3. *)
Definition inRange (m : GameMove) : Prop :=
  exists n, numObjects m = Some n /\ 1 <= n <= 3.

End NimGamePage.

(** ** The users list page hook ([useUsersListPage]) *)
Module UsersListPage.

Record User := mkUser {
  username : string;
  biography : string;
  dateJoined : N
}.

Record UserUpdatePayload := mkUserUpdate {
  update_user : User;
  update_type : string
}.

Definition removeUserFromList (prevUserList : list User) (user : User) : list User :=
  List.filter (fun currUser => negb (String.eqb (username user) (username currUser)))
              prevUserList.

Definition addUserToList (prevUserList : list User) (user : User) : list User :=
  let userExists :=
    existsb (fun currUser => String.eqb (username currUser) (username user)) prevUserList in
  if userExists then
    map (fun currUser =>
           if String.eqb (username currUser) (username user) then user else currUser)
        prevUserList
  else user :: prevUserList.

(** The state is the users list ([setUserList] with an updater). *)
Definition handleModifiedUserUpdate (userUpdate : UserUpdatePayload) : M (list User) unit :=
  if String.eqb (update_type userUpdate) "created" then
    modify (fun prevUserList => addUserToList prevUserList (update_user userUpdate))
  else if String.eqb (update_type userUpdate) "deleted" then
    modify (fun prevUserList => removeUserFromList prevUserList (update_user userUpdate))
  else throw (Error "Invalid user update type").

End UsersListPage.

(** ** client/src/hooks/useAuth.ts *)
Module Auth.

Inductive AuthType := login | signup.

Record Credentials := mkCredentials {
  cred_username : string;
  cred_password : string
}.

(** The calls of the user service. *)
Inductive ApiCall :=
| loginUser (c : Credentials)
| createUser (c : Credentials).

(** The state of the hook, and around it what [handleSubmit] acts on: the
    calls made to the user service (oldest first), the logged-in user and
    the route navigated to. *)
Record Form := mkForm {
  username : string;
  password : string;
  passwordConfirmation : string;
  showPassword : bool;
  err : string;
  calls : list ApiCall;
  user : option Store.User;
  location : option string
}.

Definition setErr (e : string) (f : Form) : Form :=
  mkForm (username f) (password f) (passwordConfirmation f) (showPassword f) e
         (calls f) (user f) (location f).

Definition call (c : ApiCall) (f : Form) : Form :=
  mkForm (username f) (password f) (passwordConfirmation f) (showPassword f) (err f)
         (calls f ++ [c]) (user f) (location f).

Definition setUser_navigate (u : Store.User) (path : string) (f : Form) : Form :=
  mkForm (username f) (password f) (passwordConfirmation f) (showPassword f) (err f)
         (calls f) (Some u) (Some path).

Definition validateInputs (authType : AuthType) (f : Form) : Form * bool :=
  if String.eqb (username f) "" || String.eqb (password f) "" then
    (setErr "Please enter a valid username and passsword" f, false)
  else
    ((match authType with
      | signup =>
          if negb (String.eqb (password f) (passwordConfirmation f))
          then setErr "Password and Password confirmation do not match" f
          else f
      | login => f
      end), true).

(** [api] is the user service: what each call resolves to or throws. *)
Definition handleSubmit (authType : AuthType) (api : ApiCall -> JsError + Store.User)
    (f : Form) : Form :=
  let '(f1, ok) := validateInputs authType f in
  if negb ok then f1
  else
    let c := match authType with
             | login => loginUser (mkCredentials (username f) (password f))
             | signup => createUser (mkCredentials (username f) (password f))
             end in
    let f2 := call c f1 in
    match api c with
    | inr u => setUser_navigate u "/home" f2
    | inl error => setErr (err_message error) f2
    end.

End Auth.

(** ** The read paths of the chat service and controller *)
Module ChatReads.

Import ChatController.

(** [{ participants: { $all: p } }]: the chat lists every element of [p];
    an empty [$all] matches no document. *)
Definition matchesAll (p : list string) (c : Chat) : bool :=
  match p with
  | [] => false
  | _ => forallb (fun x => existsb (String.eqb x) (participants c)) p
  end.

(** [ChatModel.find({ participants: { $all: p } }).lean()] *)
Definition ChatModel_find_all (p : list string) : M Db (list Chat) :=
  storeCall;;
  d ← get;
  mret (List.filter (matchesAll p) (chatDocs d)).

(** [getChatsByParticipants] also throws when [find] gives a falsy value;
    [find] gives an array, which never is. *)
Definition getChatsByParticipants (p : list string) : M Db (list Chat) :=
  try_catch
    (chats ← ChatModel_find_all p;
     mret chats)
    (fun _ => mret []).

Definition getChatRoute (chatId : string) : M World Response :=
  try_catch
    (r ← liftDb (getChat chatId);
     chat ← orThrow r;
     populatedChat ← liftDb (populateDocument (Some (chat_id chat)) "chat");
     p ← orThrow populatedChat;
     mret (json (Doc p)))
    (fun err => mret (send 500 ("Error occurred while retrieving the chat: "
                                +:+ err_message err))).

(** The answer of the route that lists chats: a text, or the JSON of a list
    of chats. *)
Inductive ListBody :=
| ListText (s : string)
| JsonList (l : list (OrError ChatJson)).

Record ListResponse := mkListResponse {
  list_status : N;
  list_body : ListBody
}.

Definition isErrorObj {A} (r : OrError A) : bool :=
  match r with
  | ErrorObj _ => true
  | Doc _ => false
  end.

Definition getChatsByUserRoute (username : string) : M World ListResponse :=
  try_catch
    (chats ← liftDb (getChatsByParticipants [username]);
     populatedChats ← liftDb (promiseAll
        (map (fun chat => populateDocument (Some (chat_id chat)) "chat") chats));
     if existsb isErrorObj populatedChats
     then throw (Error "Failed to populate all fetched chats")
     else mret (mkListResponse 200 (JsonList populatedChats)))
    (fun err => mret (mkListResponse 500
                        (ListText ("Error occurred while retrieving chats: "
                                   +:+ err_message err)))).

End ChatReads.

(** ** The users list page, what it displays *)
Module UsersListView.

Import UsersListPage.

(** [s.includes(sub)]: [sub] occurs somewhere in [s]. *)
Definition includes (s sub : string) : bool :=
  match String.index 0 sub s with
  | Some _ => true
  | None => false
  end.

(** The list the hook returns: the users whose username includes the
    filter text. *)
Definition filteredUserlist (userFilter : string) (userList : list User) : list User :=
  List.filter (fun user => includes (username user) userFilter) userList.

(** [fetchData]: the list becomes what [getUsers] resolves to ([res || []]);
    when it throws the error is logged and the list stays. *)
Definition fetchData (res : JsError + option (list User)) (userList : list User) : list User :=
  match res with
  | inr (Some l) => l
  | inr None => []
  | inl _ => userList
  end.

End UsersListView.

(** ** [String.prototype.trim] *)
Module JsText.

(** White space and line terminators among the characters of a string
    (code units below 256). *)
Definition isSpace (c : ascii) : bool :=
  let n := N_of_ascii c in
  (N.leb 9 n && N.leb n 13) || N.eqb n 32 || N.eqb n 160.

Fixpoint trimStart (s : string) : string :=
  match s with
  | EmptyString => EmptyString
  | String c rest => if isSpace c then trimStart rest else s
  end.

Fixpoint trimEnd (s : string) : string :=
  match s with
  | EmptyString => EmptyString
  | String c rest =>
      match trimEnd rest with
      | EmptyString => if isSpace c then EmptyString else String c EmptyString
      | rest' => String c rest'
      end
  end.

(** [s.trim()] *)
Definition trim (s : string) : string := trimEnd (trimStart s).

(** A string of white space only. *)
Fixpoint blank (s : string) : bool :=
  match s with
  | EmptyString => true
  | String c rest => isSpace c && blank rest
  end.

End JsText.

(** ** client/src/hooks/useAuth.ts, the input handlers *)
Module AuthInput.

Import Auth.

Inductive Field := usernameField | passwordField | confirmPasswordField.

Definition togglePasswordVisibility (f : Form) : Form :=
  mkForm (username f) (password f) (passwordConfirmation f) (negb (showPassword f)) (err f)
         (calls f) (user f) (location f).

(** [value] is [e.target.value]. *)
Definition handleInputChange (value : string) (field : Field) (f : Form) : Form :=
  let fieldValue := JsText.trim value in
  match field with
  | usernameField =>
      mkForm fieldValue (password f) (passwordConfirmation f) (showPassword f) (err f)
             (calls f) (user f) (location f)
  | passwordField =>
      mkForm (username f) fieldValue (passwordConfirmation f) (showPassword f) (err f)
             (calls f) (user f) (location f)
  | confirmPasswordField =>
      mkForm (username f) (password f) fieldValue (showPassword f) (err f)
             (calls f) (user f) (location f)
  end.

End AuthInput.

(** ** The profile settings hook ([useProfileSettings]) *)
Module ProfileSettings.

Import UsersListPage.

(** The calls of the user service. *)
Inductive ApiCall :=
| getUserByUsername (username : string)
| deleteUser (username : string)
| resetPassword (username : string) (password : string)
| updateBiography (username : string) (bio : string).

(** What the hook is rendered with: the username of the URL, if any, and
    the username of the user logged in. *)
Record Ctx := mkCtx {
  url_username : option string;
  currentUser : string
}.

(** The state of the hook; the stored pending action is the deletion of the
    user it names.  Around it, the calls made to the user service (oldest
    first) and the route navigated to. *)
Record Settings := mkSettings {
  userData : option User;
  newPassword : string;
  confirmNewPassword : string;
  loading : bool;
  editBioMode : bool;
  newBio : string;
  successMessage : option string;
  errorMessage : option string;
  showConfirmation : bool;
  pendingAction : option string;
  showPassword : bool;
  calls : list ApiCall;
  location : option string
}.

Definition setUserData (u : option User) (s : Settings) : Settings :=
  mkSettings u (newPassword s) (confirmNewPassword s) (loading s) (editBioMode s) (newBio s)
             (successMessage s) (errorMessage s) (showConfirmation s) (pendingAction s)
             (showPassword s) (calls s) (location s).

Definition setNewPassword (p : string) (s : Settings) : Settings :=
  mkSettings (userData s) p (confirmNewPassword s) (loading s) (editBioMode s) (newBio s)
             (successMessage s) (errorMessage s) (showConfirmation s) (pendingAction s)
             (showPassword s) (calls s) (location s).

Definition setConfirmNewPassword (p : string) (s : Settings) : Settings :=
  mkSettings (userData s) (newPassword s) p (loading s) (editBioMode s) (newBio s)
             (successMessage s) (errorMessage s) (showConfirmation s) (pendingAction s)
             (showPassword s) (calls s) (location s).

Definition setLoading (b : bool) (s : Settings) : Settings :=
  mkSettings (userData s) (newPassword s) (confirmNewPassword s) b (editBioMode s) (newBio s)
             (successMessage s) (errorMessage s) (showConfirmation s) (pendingAction s)
             (showPassword s) (calls s) (location s).

Definition setEditBioMode (b : bool) (s : Settings) : Settings :=
  mkSettings (userData s) (newPassword s) (confirmNewPassword s) (loading s) b (newBio s)
             (successMessage s) (errorMessage s) (showConfirmation s) (pendingAction s)
             (showPassword s) (calls s) (location s).

Definition setSuccessMessage (m : option string) (s : Settings) : Settings :=
  mkSettings (userData s) (newPassword s) (confirmNewPassword s) (loading s) (editBioMode s)
             (newBio s) m (errorMessage s) (showConfirmation s) (pendingAction s)
             (showPassword s) (calls s) (location s).

Definition setErrorMessage (m : option string) (s : Settings) : Settings :=
  mkSettings (userData s) (newPassword s) (confirmNewPassword s) (loading s) (editBioMode s)
             (newBio s) (successMessage s) m (showConfirmation s) (pendingAction s)
             (showPassword s) (calls s) (location s).

Definition setShowConfirmation (b : bool) (s : Settings) : Settings :=
  mkSettings (userData s) (newPassword s) (confirmNewPassword s) (loading s) (editBioMode s)
             (newBio s) (successMessage s) (errorMessage s) b (pendingAction s)
             (showPassword s) (calls s) (location s).

Definition setPendingAction (a : option string) (s : Settings) : Settings :=
  mkSettings (userData s) (newPassword s) (confirmNewPassword s) (loading s) (editBioMode s)
             (newBio s) (successMessage s) (errorMessage s) (showConfirmation s) a
             (showPassword s) (calls s) (location s).

Definition setShowPassword (b : bool) (s : Settings) : Settings :=
  mkSettings (userData s) (newPassword s) (confirmNewPassword s) (loading s) (editBioMode s)
             (newBio s) (successMessage s) (errorMessage s) (showConfirmation s)
             (pendingAction s) b (calls s) (location s).

Definition call (c : ApiCall) (s : Settings) : Settings :=
  mkSettings (userData s) (newPassword s) (confirmNewPassword s) (loading s) (editBioMode s)
             (newBio s) (successMessage s) (errorMessage s) (showConfirmation s)
             (pendingAction s) (showPassword s) (calls s ++ [c]) (location s).

Definition navigate (path : string) (s : Settings) : Settings :=
  mkSettings (userData s) (newPassword s) (confirmNewPassword s) (loading s) (editBioMode s)
             (newBio s) (successMessage s) (errorMessage s) (showConfirmation s)
             (pendingAction s) (showPassword s) (calls s) (Some path).

(** The user service: what each call resolves to or throws. *)
Definition Api := ApiCall -> JsError + User.

Definition canEditProfile (ctx : Ctx) (s : Settings) : bool :=
  match userData s with
  | Some u =>
      if truthy (currentUser ctx) && truthy (username u)
      then String.eqb (currentUser ctx) (username u)
      else false
  | None => false
  end.

(** The effect that runs when the username of the URL changes. *)
Definition fetchUserData (ctx : Ctx) (api : Api) (s : Settings) : Settings :=
  match url_username ctx with
  | Some uname =>
      if truthy uname then
        let s1 := call (getUserByUsername uname) (setLoading true s) in
        let s2 := match api (getUserByUsername uname) with
                  | inr data => setUserData (Some data) s1
                  | inl _ =>
                      setUserData None (setErrorMessage (Some "Error fetching user profile") s1)
                  end in
        setLoading false s2
      else s
  | None => s
  end.

Definition togglePasswordVisibility (s : Settings) : Settings :=
  setShowPassword (negb (showPassword s)) s.

Definition validatePasswords (s : Settings) : Settings * bool :=
  if String.eqb (JsText.trim (newPassword s)) ""
     || String.eqb (JsText.trim (confirmNewPassword s)) "" then
    (setErrorMessage (Some "Please enter Password and confirm it.") s, false)
  else if negb (String.eqb (newPassword s) (confirmNewPassword s)) then
    (setErrorMessage (Some "Password and Confirm Password fields do not match.") s, false)
  else (s, true).

Definition handleResetPassword (ctx : Ctx) (api : Api) (s : Settings) : Settings :=
  if negb (truthy_opt (url_username ctx)) then s
  else
    let username := default "" (url_username ctx) in
    let '(s1, ok) := validatePasswords s in
    if negb ok then s1
    else
      let s2 := call (resetPassword username (newPassword s)) s1 in
      match api (resetPassword username (newPassword s)) with
      | inr _ =>
          setSuccessMessage (Some "The password has been reset successfully!")
            (setErrorMessage None (setConfirmNewPassword "" (setNewPassword "" s2)))
      | inl _ =>
          setSuccessMessage None (setErrorMessage (Some "Password reset failed.") s2)
      end.

Definition handleUpdateBiography (ctx : Ctx) (api : Api) (s : Settings) : Settings :=
  if negb (truthy_opt (url_username ctx)) then s
  else
    let username := default "" (url_username ctx) in
    let s1 := call (updateBiography username (newBio s)) s in
    match api (updateBiography username (newBio s)) with
    | inr updatedUser =>
        setSuccessMessage (Some "Updated user's biography successfully!")
          (setErrorMessage None (setEditBioMode false (setUserData (Some updatedUser) s1)))
    | inl _ =>
        setSuccessMessage None (setErrorMessage (Some "Failed to update user's biography.") s1)
    end.

Definition handleDeleteUser (ctx : Ctx) (s : Settings) : Settings :=
  if negb (truthy_opt (url_username ctx)) then s
  else setPendingAction (Some (default "" (url_username ctx))) (setShowConfirmation true s).

(** The stored pending action, run. *)
Definition runPendingAction (api : Api) (s : Settings) : Settings :=
  match pendingAction s with
  | None => s
  | Some username =>
      let s1 := call (deleteUser username) s in
      let s2 := match api (deleteUser username) with
                | inr _ =>
                    navigate "/"
                      (setSuccessMessage
                         (Some ("User '" +:+ username +:+ "' deleted successfully!"))
                         (setErrorMessage None s1))
                | inl _ =>
                    setSuccessMessage None (setErrorMessage (Some "Failed to delete user.") s1)
                end in
      setShowConfirmation false s2
  end.

End ProfileSettings.

(** ** client/src/hooks/useGamePage.ts *)
Module GamePage.

(** A game as the page uses it: its id, the status of its state, and the
    rest. *)
Record GameInstance := mkGame {
  gameID : string;
  status : string;
  players : list string;
  rest : N
}.

Record GameUpdatePayload := mkGameUpdate { update_gameState : GameInstance }.

Record GameErrorPayload := mkGameError { error_player : string; error_text : string }.

(** The calls of the games service and the events sent on the socket. *)
Inductive ApiCall :=
| joinGame (gameID : string) (username : string)
| leaveGame (gameID : string) (username : string).

Inductive SocketEmit :=
| emit_joinGame (gameID : string)
| emit_leaveGame (gameID : string).

Definition Api := ApiCall -> JsError + GameInstance.

(** The state of the hook; around it, the calls made, the events sent
    (oldest first) and the route navigated to. *)
Record Page := mkPage {
  gameState : option GameInstance;
  joinedGameID : string;
  error : option string;
  calls : list ApiCall;
  sent : list SocketEmit;
  location : option string
}.

Definition setGameState (g : option GameInstance) (p : Page) : Page :=
  mkPage g (joinedGameID p) (error p) (calls p) (sent p) (location p).

Definition setJoinedGameID (id : string) (p : Page) : Page :=
  mkPage (gameState p) id (error p) (calls p) (sent p) (location p).

Definition setError (e : option string) (p : Page) : Page :=
  mkPage (gameState p) (joinedGameID p) e (calls p) (sent p) (location p).

Definition call (c : ApiCall) (p : Page) : Page :=
  mkPage (gameState p) (joinedGameID p) (error p) (calls p ++ [c]) (sent p) (location p).

Definition socket_emit (e : SocketEmit) (p : Page) : Page :=
  mkPage (gameState p) (joinedGameID p) (error p) (calls p) (sent p ++ [e]) (location p).

Definition navigate (path : string) (p : Page) : Page :=
  mkPage (gameState p) (joinedGameID p) (error p) (calls p) (sent p) (Some path).

(** [gameState?.state.status !== 'OVER'] *)
Definition notOver (g : option GameInstance) : bool :=
  match g with
  | Some game => negb (String.eqb (status game) "OVER")
  | None => true
  end.

(** [username] is the user of the page.  Nothing catches a failure of
    [leaveGame]: the handler stops there. *)
Definition handleLeaveGame (username : string) (api : Api) : M Page unit :=
  p ← get;
  (if truthy (joinedGameID p) && notOver (gameState p) then
     modify (call (leaveGame (joinedGameID p) username));;
     match api (leaveGame (joinedGameID p) username) with
     | inl e => throw e
     | inr _ => modify (fun q => setJoinedGameID "" (setGameState None q))
     end
   else mret tt);;
  modify (socket_emit (emit_leaveGame (joinedGameID p)));;
  modify (navigate "/games").

Definition handleJoinGame (username : string) (api : Api) (id : string) : M Page unit :=
  try_catch
    (modify (call (joinGame id username));;
     match api (joinGame id username) with
     | inl e => throw e
     | inr game =>
         modify (fun q => setJoinedGameID (gameID game) (setGameState (Some game) q));;
         modify (socket_emit (emit_joinGame (gameID game)))
     end)
    (fun err => modify (setError (Some (error_toString err +:+ ".message")))).

(** The effect: join the game of the URL, if the URL names one. *)
Definition onMount (username : string) (api : Api) (url_gameID : option string)
  : M Page unit :=
  match url_gameID with
  | Some id => if truthy id then handleJoinGame username api id else mret tt
  | None => mret tt
  end.

Definition handleGameUpdate (updatedState : GameUpdatePayload) (p : Page) : Page :=
  setGameState (match gameState p with
                | Some _ => Some (update_gameState updatedState)
                | None => None
                end) p.

Definition handleGameError (username : string) (gameError : GameErrorPayload) (p : Page)
  : Page :=
  if String.eqb (error_player gameError) username
  then setError (Some (error_text gameError)) p
  else p.

(** What the socket delivers to the page. *)
Inductive SocketEvent :=
| gameUpdate (u : GameUpdatePayload)
| gameError (e : GameErrorPayload).

Definition receive (username : string) (p : Page) (ev : SocketEvent) : Page :=
  match ev with
  | gameUpdate u => handleGameUpdate u p
  | gameError e => handleGameError username e p
  end.

(** [useState] initial values. *)
Definition initial : Page := mkPage None "" None [] [] None.

End GamePage.

(** ** client/src/hooks/useAllGamesPage.ts *)
Module AllGamesPage.

Import GamePage.

(** The calls of the games service. *)
Inductive ApiCall :=
| getGames
| createGame (gameType : string).

Record Page := mkPage {
  availableGames : list GameInstance;
  isModalOpen : bool;
  calls : list ApiCall;
  location : option string
}.

(** The games service: what creating a game and fetching the games resolve
    to or throw. *)
Record Api := mkApi {
  api_createGame : string -> JsError + string;
  api_getGames : JsError + list GameInstance
}.

Definition fetchGames (api : Api) : M Page unit :=
  modify (fun p => mkPage (availableGames p) (isModalOpen p) (calls p ++ [getGames])
                          (location p));;
  match api_getGames api with
  | inl e => throw e
  | inr allGames =>
      modify (fun p => mkPage allGames (isModalOpen p) (calls p) (location p))
  end.

(** [fetchGames()] is not awaited: its rejection does not reject
    [handleCreateGame]. *)
Definition handleCreateGame (api : Api) (gameType : string) : M Page unit :=
  modify (fun p => mkPage (availableGames p) (isModalOpen p)
                          (calls p ++ [createGame gameType]) (location p));;
  match api_createGame api gameType with
  | inl e => throw e
  | inr _ => fun p => (fst (fetchGames api p), inr tt)
  end.

Definition handleJoin (gameID : string) (p : Page) : Page :=
  mkPage (availableGames p) (isModalOpen p) (calls p) (Some ("/games/" +:+ gameID)).

Definition handleToggleModal (p : Page) : Page :=
  mkPage (availableGames p) (negb (isModalOpen p)) (calls p) (location p).

(** The promise of [handleCreateGame] is not awaited: whether it settles
    or rejects, the modal is toggled. *)
Definition handleSelectGameType (api : Api) (gameType : string) (p : Page) : Page :=
  handleToggleModal (fst (handleCreateGame api gameType p)).

End AllGamesPage.

(** * Sample states *)

(** Two connections; connection 2 has joined the room of chat [c1]. *)
Definition io_one_room : ChatController.Io :=
  ChatController.mkIo {[1; 2]} {["c1" := {[2]}]} [].

(** A sign-up form whose confirmation differs from the password. *)
Definition form_mismatch : Auth.Form :=
  Auth.mkForm "alice" "secret" "sacred" false "" [] None None.

(** A user service that accepts every call. *)
Definition api_accepts (c : Auth.ApiCall) : JsError + Store.User :=
  match c with
  | Auth.loginUser cr | Auth.createUser cr =>
      inr (Store.mkUser "u1" (Auth.cred_username cr))
  end.

(** A users list of three. *)
Definition users_three : list UsersListPage.User :=
  [UsersListPage.mkUser "ann" "a" 1; UsersListPage.mkUser "bob" "b" 2;
   UsersListPage.mkUser "cat" "c" 3].

(** Sample [ObjectId]s, 24 hexadecimal digits each: of users, of messages
    and of chats; no chat has the id [id_c2] or [id_c9]. *)
Abbreviation id_u1 := "a00000000000000000000001" (only parsing).
Abbreviation id_u2 := "a00000000000000000000002" (only parsing).
Abbreviation id_u3 := "a00000000000000000000003" (only parsing).
Abbreviation id_m1 := "b00000000000000000000001" (only parsing).
Abbreviation id_m7 := "b00000000000000000000007" (only parsing).
Abbreviation id_m9 := "b00000000000000000000009" (only parsing).
Abbreviation id_c1 := "c00000000000000000000001" (only parsing).
Abbreviation id_c2 := "c00000000000000000000002" (only parsing).
Abbreviation id_c9 := "c00000000000000000000009" (only parsing).

(** A store with three users and one chat, [c1].  Its participants are
    alice, entered by username when the chat was created, and carol, entered
    by [addParticipantToChat] as her user id [u3]; bob is not in it.  The
    chat has one message. *)
Definition db_sample : Db :=
  mkDb [mkUser id_u1 "alice"; mkUser id_u2 "bob"; mkUser id_u3 "carol"]
       [mkMessageDoc id_m1 "hello" "alice" 10 "direct"]
       [mkChat id_c1 ["alice"; id_u3] [id_m1]]
       0 [].

(** Three connections; 1 and 2 have joined the room of chat [c1]. *)
Definition io_sample : ChatController.Io :=
  ChatController.mkIo {[1; 2; 3]} {[id_c1 := {[1; 2]}]} [].

Definition world_sample : ChatController.World :=
  ChatController.mkWorld db_sample io_sample 100.

(** The same server with a store whose third call from now fails. *)
Definition world_failing : ChatController.World :=
  ChatController.mkWorld
    (mkDb (users db_sample) (messageDocs db_sample) (chatDocs db_sample) 0
          [None; None; Some (mkError "MongoNetworkError" "connection closed")])
    io_sample 100.

(** The same server with a store whose fourth call from now fails. *)
Definition world_failing_late : ChatController.World :=
  ChatController.mkWorld
    (mkDb (users db_sample) (messageDocs db_sample) (chatDocs db_sample) 0
          [None; None; None; Some (mkError "MongoNetworkError" "connection closed")])
    io_sample 100.

(** Two messages for a new chat. *)
Definition two_messages : list Message :=
  [mkMessage None "hi" "alice" 1 "direct"; mkMessage None "ho" "bob" 2 "direct"].

(** A store whose next call fails. *)
Definition db_down : Db :=
  mkDb (users db_sample) (messageDocs db_sample) (chatDocs db_sample) 0
       [Some (mkError "MongoNetworkError" "connection closed")].

Definition world_down : ChatController.World :=
  ChatController.mkWorld db_down io_sample 100.


(** The profile page of bob, seen by bob, with a new password typed twice. *)
Definition ctx_bob : ProfileSettings.Ctx := ProfileSettings.mkCtx (Some "bob") "bob".

Definition settings_bob : ProfileSettings.Settings :=
  ProfileSettings.mkSettings (Some (UsersListPage.mkUser "bob" "b" 2)) "hunter2" "hunter2"
                             false false "new bio" None None false None false [] None.

(** A user service that accepts every call and answers with bob. *)
Definition profile_api_accepts (c : ProfileSettings.ApiCall) : JsError + UsersListPage.User :=
  inr (UsersListPage.mkUser "bob" "new bio" 2).

(** A user service that is down. *)
Definition profile_api_down (c : ProfileSettings.ApiCall) : JsError + UsersListPage.User :=
  inl (Error "Network Error").

(** A game of Nim waiting for players, and bob's page on it. *)
Definition game_nim : GamePage.GameInstance :=
  GamePage.mkGame "g1" "WAITING_TO_START" ["bob"] 21.

Definition game_nim_over : GamePage.GameInstance :=
  GamePage.mkGame "g1" "OVER" ["bob"; "ann"] 0.

(** A games service that answers every call with [game_nim]. *)
Definition games_api_accepts (c : GamePage.ApiCall) : JsError + GamePage.GameInstance :=
  inr game_nim.

(** A games service that is down. *)
Definition games_api_down (c : GamePage.ApiCall) : JsError + GamePage.GameInstance :=
  inl (Error "Network Error").

(** What the socket delivers: an error of ann, a game update, an error of
    bob. *)
Definition events_sample : list GamePage.SocketEvent :=
  [GamePage.gameError (GamePage.mkGameError "ann" "Not your turn");
   GamePage.gameUpdate (GamePage.mkGameUpdate game_nim_over);
   GamePage.gameError (GamePage.mkGameError "bob" "Game is over")].

(** The page of all games, with one game listed. *)
Definition games_page : AllGamesPage.Page := AllGamesPage.mkPage [game_nim_over] true [] None.

Definition all_games_api : AllGamesPage.Api :=
  AllGamesPage.mkApi (fun _ => inr "g1") (inr [game_nim]).

Definition all_games_api_down : AllGamesPage.Api :=
  AllGamesPage.mkApi (fun _ => inl (Error "Network Error")) (inr [game_nim]).

(** * Vocabulary of the statements *)

(** The chat that the id of a request names: the string is cast to an
    [ObjectId], which is looked up. *)
Definition chatNamed (d : Db) (chatId : string) : option Chat :=
  match toObjectId chatId with
  | Some id => findChat d id
  | None => None
  end.

(** A sender is a participant of a chat when the chat lists the sender's
    username or the sender's user id. *)
Definition isParticipant (d : Db) (sender : string) (c : Chat) : Prop :=
  sender ∈ participants c
  \/ exists u, findUser d sender = Some u /\ user_id u ∈ participants c.

(** The [i]-th store call from now fails. *)
Definition failsAt (d : Db) (i : nat) : Prop :=
  match faults d !! i with
  | Some (Some _) => True
  | _ => False
  end.

Section NimVocabulary.
Import NimGamePage.
Local Open Scope Z_scope.

(** What the hook keeps in [move]: nothing yet, or a number of 1..3. *)
Definition move_ok (m : option (option Z)) : Prop :=
  m = None \/ exists n, m = Some (Some n) /\ 1 <= n <= 3.

Definition page_ok (st : Page) : Prop :=
  move_ok (move st) /\ Forall (fun e => inRange (payload_move e)) (sent st).

End NimVocabulary.

Section RouteVocabulary.
Import ChatController.

(** The message an add-message request asks to create. *)
Definition requestedMessage (req : AddMessageRequestToChat) (w : World) : Message :=
  mkMessage None (default "" (am_msg req)) (default "" (am_msgFrom req))
            (default (now w) (am_msgDateTime req)) "direct".

Definition withDb (d : Db) (w : World) : World := mkWorld d (io w) (now w).

(** The payload a create-chat request hands to [saveChat]. *)
Definition requestedChat (req : CreateChatRequest) : CreateChatPayload :=
  mkCreateChatPayload (default [] (cc_participants req)) (default [] (cc_messages req)).

(** The message of a route's 500 response. *)
Definition addMessageFailure (e : string) : Response :=
  send 500 ("Error occurred while adding a message to the chat: " +:+ e).

(** The ways an add-message request can go. *)
Inductive AddMessageOutcome (req : AddMessageRequestToChat) (w : World)
  : World -> Response -> Prop :=
| AddMessageInvalid :
    isAddMessageRequestValid req = false ->
    AddMessageOutcome req w w (send 400 "Invalid request body")
| AddMessageNotCreated d1 e :
    isAddMessageRequestValid req = true ->
    createMessage (requestedMessage req w) (db w) = (d1, inr (ErrorObj e)) ->
    AddMessageOutcome req w (withDb d1 w) (addMessageFailure e)
| AddMessageNoId d1 doc :
    isAddMessageRequestValid req = true ->
    createMessage (requestedMessage req w) (db w) = (d1, inr (Doc doc)) ->
    truthy (doc_id doc) = false ->
    AddMessageOutcome req w (withDb d1 w) (addMessageFailure "_id missing from new message")
| AddMessageNotAdded d1 d2 doc e :
    isAddMessageRequestValid req = true ->
    createMessage (requestedMessage req w) (db w) = (d1, inr (Doc doc)) ->
    truthy (doc_id doc) = true ->
    addMessageToChat (am_chatId req) (doc_id doc) d1 = (d2, inr (ErrorObj e)) ->
    AddMessageOutcome req w (withDb d2 w) (addMessageFailure e)
| AddMessageDone d1 d2 d3 doc chat pc :
    isAddMessageRequestValid req = true ->
    createMessage (requestedMessage req w) (db w) = (d1, inr (Doc doc)) ->
    truthy (doc_id doc) = true ->
    addMessageToChat (am_chatId req) (doc_id doc) d1 = (d2, inr (Doc chat)) ->
    populateDocument (Some (chat_id chat)) "chat" d2 = (d3, inr pc) ->
    AddMessageOutcome req w
      (mkWorld d3
         (emit (ToRoom (am_chatId req)) "chatUpdate" (mkChatUpdate pc "newMessage") (io w))
         (now w))
      (json pc).

End RouteVocabulary.

#[global] Instance failsAt_dec (d : Db) (i : nat) : Decision (failsAt d i).
Proof. unfold failsAt. destruct (faults d !! i) as [[e|]|]; [left; exact I|right; tauto..]. Defined.

(** The document that [MessageModel.create] makes of a message: the same
    fields, and the id the message came with, if any. *)
Definition storedFrom (m : Message) (doc : MessageDoc) : Prop :=
  doc_msg doc = msg m /\ doc_msgFrom doc = msgFrom m
  /\ doc_msgDateTime doc = msgDateTime m /\ doc_type doc = msgType m
  /\ forall i, m_id m = Some i -> doc_id doc = i.

(** The messages of a payload that [saveChat] gets created, given the
    outcomes of the coming store calls: the first call creates the first
    message, and so on; a message whose call fails is not created, the
    others are. *)
Fixpoint createdOf (fs : list (option JsError)) (msgs : list Message) {struct msgs}
  : list Message :=
  match msgs with
  | [] => []
  | m :: rest =>
      match fs with
      | Some _ :: fs' => createdOf fs' rest
      | None :: fs' => m :: createdOf fs' rest
      | [] => m :: rest
      end
  end.

(** The clicks among the actions of the Nim page. *)
Definition clicks (acts : list NimGamePage.Action) : nat :=
  length (List.filter (fun a => match a with
                               | NimGamePage.MakeMove => true
                               | NimGamePage.InputChange _ => false
                               end) acts).

(** A [makeMove] event of the page rendered with [p]: the game id twice and
    the user as the player. *)
Definition addressedBy (p : NimGamePage.Props) (e : NimGamePage.MakeMovePayload) : Prop :=
  NimGamePage.payload_gameID e = NimGamePage.gameID p
  /\ NimGamePage.move_gameID (NimGamePage.payload_move e) = NimGamePage.gameID p
  /\ NimGamePage.playerID (NimGamePage.payload_move e) = NimGamePage.user_username p.

(** A text with no white space at its first and at its last character. *)
Definition noSpaceAtEnds (t : string) : Prop :=
  (forall c r, t = String c r -> JsText.isSpace c = false)
  /\ (forall r c, t = r +:+ String c "" -> JsText.isSpace c = false).

(** The value a field of the form holds. *)
Definition fieldValue (field : AuthInput.Field) (f : Auth.Form) : string :=
  match field with
  | AuthInput.usernameField => Auth.username f
  | AuthInput.passwordField => Auth.password f
  | AuthInput.confirmPasswordField => Auth.passwordConfirmation f
  end.

(** The call [handleSubmit] makes for the two kinds of form. *)
Definition submitCall (authType : Auth.AuthType) (f : Auth.Form) : Auth.ApiCall :=
  match authType with
  | Auth.login => Auth.loginUser (Auth.mkCredentials (Auth.username f) (Auth.password f))
  | Auth.signup => Auth.createUser (Auth.mkCredentials (Auth.username f) (Auth.password f))
  end.

(** The games of the [gameUpdate] events of [evs], oldest first. *)
Definition updatesOf (evs : list GamePage.SocketEvent) : list GamePage.GameInstance :=
  flat_map (fun ev => match ev with
                      | GamePage.gameUpdate u => [GamePage.update_gameState u]
                      | GamePage.gameError _ => []
                      end) evs.

(** The texts of the [gameError] events of [evs] caused by [username]. *)
Definition errorsOf (username : string) (evs : list GamePage.SocketEvent) : list string :=
  flat_map (fun ev => match ev with
                      | GamePage.gameUpdate _ => []
                      | GamePage.gameError e =>
                          if String.eqb (GamePage.error_player e) username
                          then [GamePage.error_text e] else []
                      end) evs.

(** The page after the socket events [evs]. *)
Definition received (username : string) (evs : list GamePage.SocketEvent)
    (p : GamePage.Page) : GamePage.Page :=
  fold_left (GamePage.receive username) evs p.

(** * Tactics *)

Ltac unfold_m :=
  unfold try_catch, throw, settled, get, modify, mbind, M_bind, mret, M_ret in *.

(** The innermost scrutinee of the matches of [t]. *)
Ltac inner_match t k :=
  lazymatch t with
  | context [match ?x with _ => _ end] => inner_match x k
  | _ => k t
  end.

(** Case analysis on what the computation in the goal looks at next. *)
Ltac case_step :=
  match goal with
  | |- context [match ?x with _ => _ end] =>
      inner_match x ltac:(fun y => destruct y eqn:?; simpl in *)
  end.

(** * Properties *)

(** ** Rooms: joinChat and leaveChat *)
Section Rooms.
Import ChatController.

Lemma subscribers_join (c : N) (s r : string) (i : Io) :
  subscribers r (join c s i) =
  if decide (s = r) then {[c]} ∪ subscribers s i else subscribers r i.
Proof.
  unfold subscribers, join; simpl.
  rewrite lookup_insert. destruct (decide (s = r)); subst; reflexivity.
Qed.

Lemma join_join (c : N) (s : string) (i : Io) :
  join c s (join c s i) = join c s i.
Proof.
  unfold join at 1 3. rewrite subscribers_join. simpl.
  rewrite decide_True by reflexivity.
  rewrite insert_insert_eq. f_equal. f_equal. set_solver.
Qed.

Lemma leave_not_member (c : N) (s : string) (i : Io) :
  c ∉ subscribers s i -> leave c s i = i.
Proof.
  unfold subscribers, leave. intros Hc.
  destruct (rooms i !! s) as [S|] eqn:E; [|reflexivity].
  simpl in Hc. replace (S ∖ {[c]}) with S by set_solver.
  rewrite insert_id by assumption. destruct i; reflexivity.
Qed.

Lemma subscribers_leave_join (c : N) (s : string) (i : Io) :
  c ∉ subscribers s (leave c s (join c s i)).
Proof.
  unfold leave, join, subscribers; simpl.
  rewrite lookup_insert_eq; simpl. rewrite lookup_insert_eq; simpl.
  set_solver.
Qed.

End Rooms.

(** C7, as the claim has it: join then leave takes the connection out of
    the room, for every chat id.  It fails for the empty chat id: the
    guard of the [leaveChat] listener skips [conn.leave] for a falsy id,
    while the [joinChat] listener joins whatever it is given. *)
Lemma joinChat_leaveChat_empty_id_stays :
  ~ (forall (c : N) (s : string) (i : ChatController.Io),
        c ∉ ChatController.subscribers s
              (ChatController.on_leaveChat c (Some s) (ChatController.on_joinChat c s i))).
Proof.
  intros H.
  apply (H 1 "" (ChatController.mkIo ∅ ∅ [])).
  vm_compute. set_solver.
Qed.

(** C7 (amended): joining twice is joining once; leaving a room one is not
    in changes nothing; after joinChat then leaveChat with a non-empty chat
    id the connection is not in the room; leaveChat with an undefined or
    empty chat id changes nothing. *)
Theorem joinChat_leaveChat_rooms (c : N) (s : string) (i : ChatController.Io) :
  ChatController.on_joinChat c s (ChatController.on_joinChat c s i)
    = ChatController.on_joinChat c s i
  /\ (c ∉ ChatController.subscribers s i ->
      ChatController.on_leaveChat c (Some s) i = i)
  /\ (s <> "" ->
      c ∉ ChatController.subscribers s
            (ChatController.on_leaveChat c (Some s) (ChatController.on_joinChat c s i)))
  /\ ChatController.on_leaveChat c None i = i
  /\ ChatController.on_leaveChat c (Some "") i = i.
Proof.
  unfold ChatController.on_joinChat, ChatController.on_leaveChat.
  split; [apply join_join|].
  split.
  { intros Hc. destruct (truthy s); [apply leave_not_member; assumption|reflexivity]. }
  split; [|split; reflexivity].
  intros Hs. unfold truthy.
  destruct (String.eqb_spec s ""); [contradiction|]. simpl.
  apply subscribers_leave_join.
Qed.

Lemma joinChat_leaveChat_rooms_witness :
  (1 ∉ ChatController.subscribers "c1" io_one_room)
  /\ "c1" <> ""
  /\ ChatController.on_leaveChat 1 (Some "c1") io_one_room = io_one_room
  /\ (1 ∉ ChatController.subscribers "c1"
             (ChatController.on_leaveChat 1 (Some "c1")
                (ChatController.on_joinChat 1 "c1" io_one_room))).
Proof.
  assert (H1 : 1 ∉ ChatController.subscribers "c1" io_one_room).
  { unfold ChatController.subscribers, io_one_room; simpl.
    rewrite lookup_singleton_eq; simpl. set_solver. }
  assert (H2 : "c1" <> "") by discriminate.
  pose proof (joinChat_leaveChat_rooms 1 "c1" io_one_room) as (_ & Hl & Hjl & _).
  exact (conj H1 (conj H2 (conj (Hl H1) (Hjl H2)))).
Defined.

(** ** The Nim game page *)
Section NimPage.
Import NimGamePage.
Local Open Scope Z_scope.

Lemma handleInputChange_stores (value : JsString) (st : Page) :
  handleInputChange value st = st
  \/ exists n, 1 <= n <= 3 /\ handleInputChange value st = mkPage (Some (Some n)) (sent st).
Proof.
  unfold handleInputChange.
  destruct (isEmpty value) eqn:Ev; simpl; [left; reflexivity|].
  destruct (Number (slice_last value)) as [n|]; simpl; [|left; reflexivity].
  destruct (Z.leb_spec 1 n); simpl; [|left; reflexivity].
  destruct (Z.leb_spec n 3); simpl; [|left; reflexivity].
  right. exists n. split; [lia|reflexivity].
Qed.

Lemma handleInputChange_ok (value : JsString) (st : Page) :
  page_ok st -> page_ok (handleInputChange value st).
Proof.
  intros [Hm Hs].
  destruct (handleInputChange_stores value st) as [->|(n & Hn & ->)].
  - split; assumption.
  - split; simpl; [right; exists n; auto|assumption].
Qed.

Lemma handleMakeMove_null (p : Props) (s : list MakeMovePayload) :
  handleMakeMove p (mkPage None s) = mkPage None s.
Proof. reflexivity. Qed.

Lemma handleMakeMove_ok (p : Props) (st : Page) :
  page_ok st -> page_ok (handleMakeMove p st).
Proof.
  intros [Hm Hs]. unfold handleMakeMove.
  destruct Hm as [Hm|(n & Hm & Hn)]; rewrite Hm; simpl.
  - split; [left; assumption|assumption].
  - destruct (Z.eqb_spec n 0); simpl.
    + split; [right; exists n; rewrite Hm; auto|assumption].
    + split; [right; exists n; auto|].
      apply Forall_app; split; [assumption|].
      constructor; [|constructor]. exists n; simpl; auto.
Qed.

Lemma run_ok (p : Props) (acts : list Action) (st : Page) :
  page_ok st -> page_ok (fold_left (step p) acts st).
Proof.
  revert st. induction acts as [|a acts IH]; intros st Hst; simpl; [assumption|].
  apply IH. destruct a; simpl; [apply handleInputChange_ok|apply handleMakeMove_ok];
    assumption.
Qed.

End NimPage.

(** C8: whatever the user types and clicks, every [makeMove] event the Nim
    page has emitted carries a [numObjects] of 1..3; [handleInputChange]
    leaves the state alone or stores a number of 1..3, and [handleMakeMove]
    emits nothing while no move is stored. *)
Theorem makeMove_numObjects_in_range
    (p : NimGamePage.Props) (acts : list NimGamePage.Action)
    (value : NimGamePage.JsString) (st : NimGamePage.Page) :
  Forall (fun e => NimGamePage.inRange (NimGamePage.payload_move e))
         (NimGamePage.sent (NimGamePage.run p acts))
  /\ (NimGamePage.handleInputChange value st = st
      \/ exists n, (1 <= n <= 3)%Z
           /\ NimGamePage.handleInputChange value st
              = NimGamePage.mkPage (Some (Some n)) (NimGamePage.sent st))
  /\ NimGamePage.handleMakeMove p (NimGamePage.mkPage None (NimGamePage.sent st))
     = NimGamePage.mkPage None (NimGamePage.sent st).
Proof.
  split; [|split].
  - apply (run_ok p acts NimGamePage.initial).
    split; [left; reflexivity|constructor].
  - apply handleInputChange_stores.
  - apply handleMakeMove_null.
Qed.

(** A run of the page: "2" typed, a click, "27" typed (not stored, 7 is out
    of range), a click, "13" typed, a click. *)
Example nim_page_run :
  map (fun e => NimGamePage.numObjects (NimGamePage.payload_move e))
      (NimGamePage.sent
         (NimGamePage.run (NimGamePage.mkProps "g1" "alice")
            [NimGamePage.MakeMove;
             NimGamePage.InputChange (NimGamePage.units "2"); NimGamePage.MakeMove;
             NimGamePage.InputChange (NimGamePage.units "27"); NimGamePage.MakeMove;
             NimGamePage.InputChange (NimGamePage.units "13"); NimGamePage.MakeMove]))
  = [Some 2%Z; Some 2%Z; Some 3%Z].
Proof. reflexivity. Qed.

(** ** Sign-up *)

(** C9: in signup mode [validateInputs] answers [true] as soon as username
    and password are not empty; when the confirmation differs it only sets
    the error message, and [handleSubmit] goes on to call [createUser] with
    the password as typed. *)
Theorem signup_unconfirmed_password_submitted
    (f : Auth.Form) (api : Auth.ApiCall -> JsError + Store.User) :
  Auth.username f <> "" ->
  Auth.password f <> "" ->
  snd (Auth.validateInputs Auth.signup f) = true
  /\ (Auth.password f <> Auth.passwordConfirmation f ->
      fst (Auth.validateInputs Auth.signup f)
      = Auth.setErr "Password and Password confirmation do not match" f)
  /\ Auth.calls (Auth.handleSubmit Auth.signup api f)
     = Auth.calls f
       ++ [Auth.createUser (Auth.mkCredentials (Auth.username f) (Auth.password f))].
Proof.
  intros Hu Hp.
  assert (Hv : Auth.validateInputs Auth.signup f
               = (if negb (String.eqb (Auth.password f) (Auth.passwordConfirmation f))
                  then Auth.setErr "Password and Password confirmation do not match" f
                  else f, true)).
  { unfold Auth.validateInputs.
    destruct (String.eqb_spec (Auth.username f) ""); [contradiction|].
    destruct (String.eqb_spec (Auth.password f) ""); [contradiction|].
    reflexivity. }
  split; [rewrite Hv; reflexivity|]. split.
  - intros Hne. rewrite Hv; simpl.
    destruct (String.eqb_spec (Auth.password f) (Auth.passwordConfirmation f));
      [contradiction|reflexivity].
  - unfold Auth.handleSubmit. rewrite Hv; simpl.
    destruct (api _); simpl;
      destruct (negb (String.eqb (Auth.password f) (Auth.passwordConfirmation f)));
      reflexivity.
Qed.

Lemma signup_unconfirmed_password_submitted_witness :
  Auth.username form_mismatch <> ""
  /\ Auth.password form_mismatch <> ""
  /\ Auth.password form_mismatch <> Auth.passwordConfirmation form_mismatch
  /\ snd (Auth.validateInputs Auth.signup form_mismatch) = true
  /\ Auth.err (fst (Auth.validateInputs Auth.signup form_mismatch))
     = "Password and Password confirmation do not match"
  /\ Auth.calls (Auth.handleSubmit Auth.signup api_accepts form_mismatch)
     = [Auth.createUser (Auth.mkCredentials "alice" "secret")].
Proof.
  assert (Hu : Auth.username form_mismatch <> "") by discriminate.
  assert (Hp : Auth.password form_mismatch <> "") by discriminate.
  assert (Hc : Auth.password form_mismatch <> Auth.passwordConfirmation form_mismatch)
    by discriminate.
  pose proof (signup_unconfirmed_password_submitted form_mismatch api_accepts Hu Hp)
    as (Hv & He & Hs).
  refine (conj Hu (conj Hp (conj Hc (conj Hv (conj _ Hs))))).
  rewrite (He Hc). reflexivity.
Defined.

(** ** The users list *)
Section UsersList.
Import UsersListPage.

Lemma existsb_username (l : list User) (u : User) :
  existsb (fun currUser => String.eqb (username currUser) (username u)) l = true
  <-> exists x, x ∈ l /\ username x = username u.
Proof.
  rewrite existsb_exists. split; intros (x & Hx & He); exists x.
  - split; [apply list_elem_of_In; assumption|apply String.eqb_eq; assumption].
  - split; [apply list_elem_of_In; assumption|apply String.eqb_eq; assumption].
Qed.

Lemma addUserToList_present (l : list User) (u : User) :
  (exists x, x ∈ l /\ username x = username u) ->
  length (addUserToList l u) = length l
  /\ forall (i : nat) (x : User), l !! i = Some x ->
       addUserToList l u !! i
       = Some (if decide (username x = username u) then u else x).
Proof.
  intros H. apply existsb_username in H. unfold addUserToList. rewrite H.
  split; [apply length_map|].
  intros i x Hi. rewrite list_lookup_fmap, Hi; simpl.
  destruct (String.eqb_spec (username x) (username u)), (decide (username x = username u));
    congruence.
Qed.

Lemma addUserToList_absent (l : list User) (u : User) :
  (forall x, x ∈ l -> username x <> username u) ->
  addUserToList l u = u :: l.
Proof.
  intros H. unfold addUserToList.
  destruct (existsb _ l) eqn:E; [|reflexivity].
  apply existsb_username in E. destruct E as (x & Hx & He).
  exfalso. exact (H x Hx He).
Qed.

Lemma removeUserFromList_spec (l : list User) (u : User) :
  sublist (removeUserFromList l u) l
  /\ forall x, x ∈ removeUserFromList l u <-> x ∈ l /\ username x <> username u.
Proof.
  unfold removeUserFromList. split.
  - induction l as [|a l IH]; simpl; [constructor|].
    destruct (negb _); [apply sublist_skip|apply sublist_cons]; assumption.
  - intros x. rewrite !list_elem_of_In, filter_In, negb_true_iff.
    split; intros [Hx Hn]; (split; [assumption|]).
    + intros He. rewrite He, String.eqb_refl in Hn. discriminate.
    + apply String.eqb_neq. congruence.
Qed.

End UsersList.

(** C10: a ['created'] update replaces, in place, the entries that have the
    user's username when there is one, and otherwise puts the user in
    front; a ['deleted'] update removes every entry with that username and
    keeps the others in order; any other type throws and leaves the list as
    it was. *)
Theorem userUpdate_updates_list
    (l : list UsersListPage.User) (upd : UsersListPage.UserUpdatePayload) :
  (UsersListPage.update_type upd = "created" ->
   (exists x, x ∈ l
      /\ UsersListPage.username x = UsersListPage.username (UsersListPage.update_user upd)) ->
   exists l', UsersListPage.handleModifiedUserUpdate upd l = (l', inr tt)
     /\ length l' = length l
     /\ forall (i : nat) (x : UsersListPage.User), l !! i = Some x ->
          l' !! i = Some (if decide (UsersListPage.username x
                                     = UsersListPage.username (UsersListPage.update_user upd))
                          then UsersListPage.update_user upd else x))
  /\ (UsersListPage.update_type upd = "created" ->
      (forall x, x ∈ l ->
         UsersListPage.username x <> UsersListPage.username (UsersListPage.update_user upd)) ->
      UsersListPage.handleModifiedUserUpdate upd l
      = (UsersListPage.update_user upd :: l, inr tt))
  /\ (UsersListPage.update_type upd = "deleted" ->
      exists l', UsersListPage.handleModifiedUserUpdate upd l = (l', inr tt)
        /\ sublist l' l
        /\ forall x, x ∈ l' <->
             x ∈ l /\ UsersListPage.username x
                      <> UsersListPage.username (UsersListPage.update_user upd))
  /\ (UsersListPage.update_type upd <> "created" ->
      UsersListPage.update_type upd <> "deleted" ->
      UsersListPage.handleModifiedUserUpdate upd l
      = (l, inl (Error "Invalid user update type"))).
Proof.
  unfold UsersListPage.handleModifiedUserUpdate.
  split; [|split; [|split]].
  - intros Ht Hx. rewrite Ht; simpl.
    eexists; split; [reflexivity|]. apply addUserToList_present; assumption.
  - intros Ht Hx. rewrite Ht; simpl. unfold modify.
    rewrite addUserToList_absent by assumption. reflexivity.
  - intros Ht. rewrite Ht; simpl.
    eexists; split; [reflexivity|]. apply removeUserFromList_spec.
  - intros Hc Hd.
    destruct (String.eqb_spec (UsersListPage.update_type upd) "created"); [contradiction|].
    destruct (String.eqb_spec (UsersListPage.update_type upd) "deleted"); [contradiction|].
    reflexivity.
Qed.

Lemma userUpdate_updates_list_witness :
  (exists l', UsersListPage.handleModifiedUserUpdate
                (UsersListPage.mkUserUpdate (UsersListPage.mkUser "bob" "new bio" 7) "created")
                users_three = (l', inr tt)
              /\ length l' = 3%nat
              /\ l' !! 1%nat = Some (UsersListPage.mkUser "bob" "new bio" 7))
  /\ UsersListPage.handleModifiedUserUpdate
       (UsersListPage.mkUserUpdate (UsersListPage.mkUser "dan" "d" 4) "created")
       users_three
     = (UsersListPage.mkUser "dan" "d" 4 :: users_three, inr tt)
  /\ (exists l', UsersListPage.handleModifiedUserUpdate
                   (UsersListPage.mkUserUpdate (UsersListPage.mkUser "bob" "" 0) "deleted")
                   users_three = (l', inr tt)
                 /\ sublist l' users_three
                 /\ UsersListPage.mkUser "bob" "b" 2 ∉ l')
  /\ UsersListPage.handleModifiedUserUpdate
       (UsersListPage.mkUserUpdate (UsersListPage.mkUser "bob" "" 0) "renamed")
       users_three
     = (users_three, inl (Error "Invalid user update type")).
Proof.
  split; [|split; [|split]].
  - destruct (userUpdate_updates_list users_three
                (UsersListPage.mkUserUpdate (UsersListPage.mkUser "bob" "new bio" 7) "created"))
      as (H & _).
    destruct H as (l' & Hl & Hlen & Hi); [reflexivity| |].
    + exists (UsersListPage.mkUser "bob" "b" 2). split; [|reflexivity].
      unfold users_three. apply elem_of_cons. right. apply elem_of_cons. left. reflexivity.
    + exists l'. split; [assumption|]. split; [assumption|].
      exact (Hi 1%nat (UsersListPage.mkUser "bob" "b" 2) eq_refl).
  - apply (userUpdate_updates_list users_three
             (UsersListPage.mkUserUpdate (UsersListPage.mkUser "dan" "d" 4) "created"));
      [reflexivity|].
    intros x Hx. unfold users_three in Hx.
    rewrite !elem_of_cons in Hx.
    destruct Hx as [->|[->|[->|Hx]]]; [discriminate..|].
    apply elem_of_nil in Hx. contradiction.
  - destruct (userUpdate_updates_list users_three
                (UsersListPage.mkUserUpdate (UsersListPage.mkUser "bob" "" 0) "deleted"))
      as (_ & _ & H & _).
    destruct H as (l' & Hl & Hsub & Hin); [reflexivity|].
    exists l'. split; [assumption|]. split; [assumption|].
    intros Hb. apply Hin in Hb. destruct Hb as [_ Hb]. apply Hb. reflexivity.
  - apply (userUpdate_updates_list users_three
             (UsersListPage.mkUserUpdate (UsersListPage.mkUser "bob" "" 0) "renamed"));
      discriminate.
Defined.

(** ** Object ids *)
Section ObjectIds.

Lemma toLowerHex_spec (a : ascii) :
  isHexDigit (toLowerHex a) = isHexDigit a /\ toLowerHex (toLowerHex a) = toLowerHex a.
Proof. destruct a as [[] [] [] [] [] [] [] []]; split; reflexivity. Qed.

Lemma lowerHex_length (s : string) : String.length (lowerHex s) = String.length s.
Proof. induction s as [|a s IH]; simpl; congruence. Qed.

Lemma lowerHex_allHex (s : string) : allHex (lowerHex s) = allHex s.
Proof.
  induction s as [|a s IH]; simpl; [reflexivity|].
  rewrite (proj1 (toLowerHex_spec a)), IH. reflexivity.
Qed.

Lemma lowerHex_lowerHex (s : string) : lowerHex (lowerHex s) = lowerHex s.
Proof.
  induction s as [|a s IH]; simpl; [reflexivity|].
  rewrite (proj2 (toLowerHex_spec a)), IH. reflexivity.
Qed.

(** The string of an [ObjectId] casts to that [ObjectId]. *)
Lemma toObjectId_idem (s id : string) : toObjectId s = Some id -> toObjectId id = Some id.
Proof.
  unfold toObjectId.
  destruct (Nat.eqb (String.length s) 24 && allHex s) eqn:E; [|discriminate].
  intros [= <-]. rewrite lowerHex_length, lowerHex_allHex, E, lowerHex_lowerHex.
  reflexivity.
Qed.

Lemma toObjectId_not_empty (s id : string) : toObjectId s = Some id -> truthy id = true.
Proof.
  unfold toObjectId.
  destruct (Nat.eqb (String.length s) 24 && allHex s) eqn:E; [|discriminate].
  intros [= <-]. apply andb_prop in E. destruct E as [E _]. apply Nat.eqb_eq in E.
  destruct s; [discriminate|reflexivity].
Qed.

Lemma hexDigit_spec (m : N) :
  m < 16 -> isHexDigit (hexDigit m) = true /\ toLowerHex (hexDigit m) = hexDigit m.
Proof.
  intros H. rewrite <- (N2Nat.id m).
  assert (Hn : (N.to_nat m < 16)%nat) by lia.
  remember (N.to_nat m) as n eqn:En. clear En H.
  do 16 (destruct n as [|n]; [split; reflexivity|]). lia.
Qed.

Lemma hexDigits_spec (k : nat) (n : N) (acc : string) :
  String.length (hexDigits k n acc) = (k + String.length acc)%nat
  /\ allHex (hexDigits k n acc) = allHex acc
  /\ (lowerHex acc = acc -> lowerHex (hexDigits k n acc) = hexDigits k n acc).
Proof.
  revert n acc. induction k as [|k IH]; intros n acc; simpl; [auto|].
  destruct (IH (n / 16) (String (hexDigit (n mod 16)) acc)) as (Hl & Ha & Hc).
  assert (Hm : n mod 16 < 16) by (apply N.mod_lt; discriminate).
  destruct (hexDigit_spec _ Hm) as [Hd Hlow].
  split; [rewrite Hl; simpl; lia|].
  split; [rewrite Ha; simpl; rewrite Hd; reflexivity|].
  intros Hacc. apply Hc. simpl. rewrite Hlow, Hacc. reflexivity.
Qed.

(** A generated id is an [ObjectId]. *)
Lemma toObjectId_freshId (n : N) : toObjectId (freshId n) = Some (freshId n).
Proof.
  unfold toObjectId, freshId.
  destruct (hexDigits_spec 24 n "") as (Hl & Ha & Hc).
  rewrite Hl, Ha, Hc by reflexivity. reflexivity.
Qed.

Lemma truthy_freshId (n : N) : truthy (freshId n) = true.
Proof. exact (toObjectId_not_empty _ _ (toObjectId_freshId n)). Qed.

End ObjectIds.

(** ** The chat service *)

Section ServiceLemmas.
Import ChatController.

Lemma chat_id_applyPush (u : ChatPush) (c : Chat) :
  chat_id (applyPush u c) = chat_id c.
Proof. destruct u; reflexivity. Qed.

(** What [updateFirst] finds is the first chat with that id, and after the
    update the first chat with that id is the updated one; the collection
    keeps its length. *)
Lemma updateFirst_Some (id : ObjectId) (u : ChatPush) (cs cs' : list Chat) (c' : Chat) :
  updateFirst id u cs = Some (c', cs') ->
  exists c, List.find (fun x => String.eqb (chat_id x) id) cs = Some c
    /\ c' = applyPush u c
    /\ List.find (fun x => String.eqb (chat_id x) id) cs' = Some c'
    /\ length cs' = length cs.
Proof.
  revert cs' c'. induction cs as [|a cs IH]; intros cs' c'; simpl; [discriminate|].
  destruct (String.eqb (chat_id a) id) eqn:E.
  - intros [= <- <-]. exists a. simpl. rewrite chat_id_applyPush, E. auto.
  - destruct (updateFirst id u cs) as [[c1 cs1]|] eqn:E1; [|discriminate].
    intros [= <- <-]. destruct (IH _ _ eq_refl) as (c & Hf & Hc & Hf' & Hl).
    exists c. simpl. rewrite E, Hl. auto.
Qed.

Lemma chat_id_of_updateFirst (id : ObjectId) (u : ChatPush) (cs cs' : list Chat) (c' : Chat) :
  updateFirst id u cs = Some (c', cs') -> chat_id c' = id.
Proof.
  intros H. destruct (updateFirst_Some _ _ _ _ _ H) as (c & Hf & -> & _).
  apply find_some in Hf. destruct Hf as [_ Hf]. apply String.eqb_eq in Hf.
  rewrite chat_id_applyPush. exact Hf.
Qed.

Lemma updateFirst_None (id : ObjectId) (u : ChatPush) (cs : list Chat) :
  updateFirst id u cs = None <->
  List.find (fun x => String.eqb (chat_id x) id) cs = None.
Proof.
  induction cs as [|a cs IH]; simpl; [tauto|].
  destruct (String.eqb (chat_id a) id); [split; discriminate|].
  destruct (updateFirst id u cs) as [[c1 cs1]|]; [|tauto].
  split; [discriminate|]. intros H. apply IH in H. discriminate.
Qed.

Lemma createMessage_spec (m : Message) (d : Db) :
  exists d' r, createMessage m d = (d', inr r)
    /\ users d' = users d /\ chatDocs d' = chatDocs d
    /\ match r with
       | Doc doc =>
           messageDocs d' = messageDocs d ++ [doc]
           /\ is_Some (findUser d (msgFrom m))
           /\ doc = mkMessageDoc (default (freshId (nextId d)) (m_id m))
                                 (msg m) (msgFrom m) (msgDateTime m) (msgType m)
       | ErrorObj _ => messageDocs d' = messageDocs d
       end.
Proof.
  destruct d as [us ms cs n fs].
  unfold createMessage, UserModel_findOne, MessageModel_create, storeCall,
    newObjectId, findUser; unfold_m; simpl.
  repeat case_step; eauto 10.
Qed.

Lemma addMessageToChat_spec (chatId messageId : string) (d : Db) :
  exists d' r, addMessageToChat chatId messageId d = (d', inr r)
    /\ users d' = users d /\ messageDocs d' = messageDocs d /\ nextId d' = nextId d
    /\ match r with
       | Doc c =>
           exists cid mid,
             toObjectId chatId = Some cid /\ toObjectId messageId = Some mid
             /\ updateFirst cid (PushMessage mid) (chatDocs d) = Some (c, chatDocs d')
       | ErrorObj _ => chatDocs d' = chatDocs d
       end.
Proof.
  destruct d as [us ms cs n fs].
  unfold addMessageToChat, ChatModel_findByIdAndUpdate, castObjectId, castUpdate, storeCall;
    unfold_m; simpl.
  repeat case_step; eauto 14.
Qed.

Lemma addParticipantToChat_spec (chatId userId : string) (d : Db) :
  exists d' r, addParticipantToChat chatId userId d = (d', inr r)
    /\ users d' = users d /\ messageDocs d' = messageDocs d /\ nextId d' = nextId d
    /\ match r with
       | Doc c =>
           exists u cid, findUser d userId = Some u
             /\ toObjectId chatId = Some cid
             /\ updateFirst cid (PushParticipant (user_id u)) (chatDocs d)
                = Some (c, chatDocs d')
       | ErrorObj _ => chatDocs d' = chatDocs d
       end.
Proof.
  destruct d as [us ms cs n fs].
  unfold addParticipantToChat, UserModel_findOne, ChatModel_findByIdAndUpdate,
    castObjectId, castUpdate, storeCall, findUser; unfold_m; simpl.
  repeat case_step; eauto 14.
Qed.

Lemma populateMessages_ext (d d' : Db) (ids : list ObjectId) :
  users d' = users d -> messageDocs d' = messageDocs d ->
  populateMessages d' ids = populateMessages d ids.
Proof.
  intros Hu Hm. unfold populateMessages, findMessage, findUser. rewrite Hu, Hm.
  reflexivity.
Qed.

Lemma populateDocument_spec (id : option string) (kind : string) (d : Db) :
  exists d' r, populateDocument id kind d = (d', inr r)
    /\ users d' = users d /\ messageDocs d' = messageDocs d
    /\ chatDocs d' = chatDocs d /\ nextId d' = nextId d
    /\ match r with
       | Doc j =>
           exists i cid c, id = Some i /\ toObjectId i = Some cid
             /\ findChat d cid = Some c
             /\ j = mkChatJson (chat_id c) (participants c)
                               (populateMessages d (messages c))
       | ErrorObj _ => True
       end.
Proof.
  destruct d as [us ms cs n fs].
  unfold populateDocument, ChatModel_findById, castObjectId, storeCall, findChat;
    unfold_m; simpl.
  repeat case_step; eauto 16.
Qed.

(** The messages of a new chat are created one after the other; each one
    that goes through is in the collection afterwards, whatever happens to
    the others. *)
Lemma promiseAll_create (msgs : list Message) (d : Db) :
  exists d' r docs,
    promiseAll (map (fun m => savedMessage ← MessageModel_create m;
                              mret (doc_id savedMessage)) msgs) d = (d', r)
    /\ users d' = users d /\ chatDocs d' = chatDocs d
    /\ messageDocs d' = messageDocs d ++ docs
    /\ match r with
       | inr ids => ids = map doc_id docs /\ length docs = length msgs
       | inl _ => (length docs < length msgs)%nat
       end.
Proof.
  revert d. induction msgs as [|m msgs IH]; intros d; simpl.
  - exists d, (inr []), []. rewrite app_nil_r. auto 10.
  - destruct ((savedMessage ← MessageModel_create m; mret (doc_id savedMessage)) d)
      as [d1 r1] eqn:E1.
    destruct (IH d1) as (d2 & r2 & docs & E2 & Hu & Hc & Hm & Hr).
    rewrite E2.
    assert (H1 : users d1 = users d /\ chatDocs d1 = chatDocs d
                 /\ match r1 with
                    | inr id => exists doc, messageDocs d1 = messageDocs d ++ [doc]
                                            /\ id = doc_id doc
                    | inl _ => messageDocs d1 = messageDocs d
                    end).
    { clear -E1. destruct d as [us ms cs n fs].
      unfold MessageModel_create, storeCall, newObjectId in E1; unfold_m; simpl in E1.
      destruct fs as [|[e|] fs]; simpl in E1; destruct (m_id m); simpl in E1;
        injection E1 as <- <-; simpl; eauto. }
    destruct H1 as (Hu1 & Hc1 & Hr1).
    destruct r1 as [e|id].
    + exists d2, (inl e), docs. rewrite Hu, Hc, Hm, Hu1, Hc1, Hr1.
      repeat split; try reflexivity.
      destruct r2; [lia|]. destruct Hr as [_ Hr]. lia.
    + destruct Hr1 as (doc & Hd1 & ->).
      exists d2, (match r2 with inl e => inl e | inr l => inr (doc_id doc :: l) end),
        (doc :: docs).
      rewrite Hu, Hc, Hm, Hu1, Hc1, Hd1, <- app_assoc. simpl.
      repeat split; try reflexivity.
      destruct r2 as [e|l]; simpl; [lia|]. destruct Hr as [-> Hr]. simpl. auto.
Qed.

Lemma saveChat_spec (p : CreateChatPayload) (d : Db) :
  exists d' r docs, saveChat p d = (d', inr r)
    /\ users d' = users d
    /\ messageDocs d' = messageDocs d ++ docs
    /\ match r with
       | Doc c =>
           chatDocs d' = chatDocs d ++ [c]
           /\ participants c = payload_participants p
           /\ messages c = map doc_id docs
           /\ length docs = length (payload_messages p)
       | ErrorObj _ =>
           chatDocs d' = chatDocs d
           /\ (length docs <= length (payload_messages p))%nat
       end.
Proof.
  destruct (promiseAll_create (payload_messages p) d)
    as (d1 & r1 & docs & E1 & Hu & Hc & Hm & Hr).
  unfold saveChat. unfold try_catch at 1. unfold mbind at 1. unfold M_bind at 1.
  rewrite E1. destruct r1 as [e|ids].
  - exists d1, (ErrorObj (caught "Error occurred while saving chat: " e)), docs.
    simpl. repeat split; try assumption. lia.
  - destruct Hr as [-> Hl].
    destruct d1 as [us ms cs n fs]. simpl in *. subst.
    unfold ChatModel_create, storeCall, newObjectId; unfold_m; simpl.
    destruct fs as [|[e|] fs]; simpl; eexists _, _, docs;
      (split; [reflexivity|]); simpl; repeat split; auto; lia.
Qed.

(** Pushing a message leaves the participants and the ids of the chats. *)
Lemma updateFirst_PushMessage_frame
    (id : ObjectId) (m : string) (cs cs' : list Chat) (c' : Chat) :
  updateFirst id (PushMessage m) cs = Some (c', cs') ->
  map participants cs' = map participants cs /\ map chat_id cs' = map chat_id cs.
Proof.
  revert cs' c'. induction cs as [|a cs IH]; intros cs' c'; simpl; [discriminate|].
  destruct (String.eqb (chat_id a) id).
  - intros [= <- <-]. split; reflexivity.
  - destruct (updateFirst id (PushMessage m) cs) as [[c1 cs1]|]; [|discriminate].
    intros [= <- <-]. destruct (IH _ _ eq_refl) as [Hp Hi]. simpl. split; congruence.
Qed.

(** [createMessage] reports an error only when the user lookup fails or
    finds no user, or the creation fails. *)
Lemma createMessage_error (m : Message) (d d' : Db) (e : string) :
  createMessage m d = (d', inr (ErrorObj e)) ->
  failsAt d 0 \/ findUser d (msgFrom m) = None \/ failsAt d 1.
Proof.
  destruct d as [us ms cs n fs].
  unfold createMessage, UserModel_findOne, MessageModel_create, storeCall,
    newObjectId, findUser, failsAt; unfold_m; simpl.
  destruct fs as [|[e0|] [|[e1|] fs]]; simpl;
    repeat case_step; intros [= <- <-]; simpl; auto.
Qed.

(** The id of a created chat is a generated one. *)
Lemma saveChat_chat_id (p : CreateChatPayload) (d d' : Db) (c : Chat) :
  saveChat p d = (d', inr (Doc c)) -> exists n, chat_id c = freshId n.
Proof.
  unfold saveChat. unfold try_catch at 1. unfold mbind at 1. unfold M_bind at 1.
  destruct (promiseAll _ d) as [d1 [e|ids]]; [intros [= _ H]; discriminate|].
  destruct d1 as [us ms cs n fs].
  unfold ChatModel_create, storeCall, newObjectId; unfold_m; simpl.
  destruct fs as [|[e|] fs]; simpl; intros [= _ <-]; eauto.
Qed.

End ServiceLemmas.

(** ** The routes, step by step *)
Section RouteEquations.
Import ChatController.

Lemma addMessageToChatRoute_invalid (req : AddMessageRequestToChat) (w : World) :
  isAddMessageRequestValid req = false ->
  addMessageToChatRoute req w = (w, inr (send 400 "Invalid request body")).
Proof. intros H. unfold addMessageToChatRoute. rewrite H. reflexivity. Qed.

Lemma addMessageToChatRoute_createMessage_error
    (req : AddMessageRequestToChat) (w : World) (d1 : Db) (e : string) :
  isAddMessageRequestValid req = true ->
  createMessage (requestedMessage req w) (db w) = (d1, inr (ErrorObj e)) ->
  addMessageToChatRoute req w
  = (withDb d1 w,
     inr (send 500 ("Error occurred while adding a message to the chat: " +:+ e))).
Proof.
  intros Hv H1. unfold addMessageToChatRoute, requestedMessage in *. rewrite Hv; simpl.
  unfold liftDb, orThrow; unfold_m; simpl. rewrite H1. reflexivity.
Qed.

Lemma addMessageToChatRoute_addMessage_error
    (req : AddMessageRequestToChat) (w : World) (d1 d2 : Db) (doc : MessageDoc) (e : string) :
  isAddMessageRequestValid req = true ->
  createMessage (requestedMessage req w) (db w) = (d1, inr (Doc doc)) ->
  truthy (doc_id doc) = true ->
  addMessageToChat (am_chatId req) (doc_id doc) d1 = (d2, inr (ErrorObj e)) ->
  addMessageToChatRoute req w
  = (withDb d2 w,
     inr (send 500 ("Error occurred while adding a message to the chat: " +:+ e))).
Proof.
  intros Hv H1 Ht H2. unfold addMessageToChatRoute, requestedMessage in *. rewrite Hv; simpl.
  unfold liftDb, orThrow; unfold_m; simpl. rewrite H1; simpl. rewrite Ht; simpl.
  rewrite H2. reflexivity.
Qed.

Lemma addMessageToChatRoute_no_id
    (req : AddMessageRequestToChat) (w : World) (d1 : Db) (doc : MessageDoc) :
  isAddMessageRequestValid req = true ->
  createMessage (requestedMessage req w) (db w) = (d1, inr (Doc doc)) ->
  truthy (doc_id doc) = false ->
  addMessageToChatRoute req w
  = (withDb d1 w,
     inr (send 500 ("Error occurred while adding a message to the chat: "
                    +:+ "_id missing from new message"))).
Proof.
  intros Hv H1 Ht. unfold addMessageToChatRoute, requestedMessage in *. rewrite Hv; simpl.
  unfold liftDb, orThrow; unfold_m; simpl. rewrite H1; simpl. rewrite Ht. reflexivity.
Qed.

Lemma addMessageToChatRoute_ok
    (req : AddMessageRequestToChat) (w : World) (d1 d2 d3 : Db)
    (doc : MessageDoc) (chat : Chat) (pc : OrError ChatJson) :
  isAddMessageRequestValid req = true ->
  createMessage (requestedMessage req w) (db w) = (d1, inr (Doc doc)) ->
  truthy (doc_id doc) = true ->
  addMessageToChat (am_chatId req) (doc_id doc) d1 = (d2, inr (Doc chat)) ->
  populateDocument (Some (chat_id chat)) "chat" d2 = (d3, inr pc) ->
  addMessageToChatRoute req w
  = (mkWorld d3
       (emit (ToRoom (am_chatId req)) "chatUpdate" (mkChatUpdate pc "newMessage") (io w))
       (now w),
     inr (json pc)).
Proof.
  intros Hv H1 Ht H2 H3. unfold addMessageToChatRoute, requestedMessage in *.
  rewrite Hv; simpl.
  unfold liftDb, orThrow, socket_emit; unfold_m; simpl. rewrite H1; simpl.
  rewrite Ht; simpl. rewrite H2; simpl. rewrite H3. reflexivity.
Qed.

(** The route always answers, in one of these ways. *)
Lemma addMessageToChatRoute_outcome (req : AddMessageRequestToChat) (w : World) :
  exists w' resp, addMessageToChatRoute req w = (w', inr resp)
                  /\ AddMessageOutcome req w w' resp.
Proof.
  destruct (isAddMessageRequestValid req) eqn:Hv.
  2:{ eexists _, _. split; [apply addMessageToChatRoute_invalid; assumption|].
      constructor; assumption. }
  destruct (createMessage_spec (requestedMessage req w) (db w)) as (d1 & r1 & E1 & _).
  destruct r1 as [doc|e].
  2:{ eexists _, _. split; [eapply addMessageToChatRoute_createMessage_error; eassumption|].
      econstructor; eassumption. }
  destruct (truthy (doc_id doc)) eqn:Ht.
  2:{ eexists _, _. split; [eapply addMessageToChatRoute_no_id; eassumption|].
      econstructor; eassumption. }
  destruct (addMessageToChat_spec (am_chatId req) (doc_id doc) d1) as (d2 & r2 & E2 & _).
  destruct r2 as [chat|e].
  2:{ eexists _, _. split; [eapply addMessageToChatRoute_addMessage_error; eassumption|].
      econstructor; eassumption. }
  destruct (populateDocument_spec (Some (chat_id chat)) "chat" d2) as (d3 & pc & E3 & _).
  eexists _, _. split; [eapply addMessageToChatRoute_ok; eassumption|].
  econstructor; eassumption.
Qed.

End RouteEquations.

Section RouteEquations2.
Import ChatController.

Lemma createChatRoute_invalid (req : CreateChatRequest) (w : World) :
  isCreateChatRequestValid req = false ->
  createChatRoute req w = (w, inr (send 400 "Invalid request for creating chat")).
Proof. intros H. unfold createChatRoute. rewrite H. reflexivity. Qed.

Lemma createChatRoute_error (req : CreateChatRequest) (w : World) (d1 : Db) (e : string) :
  isCreateChatRequestValid req = true ->
  saveChat (requestedChat req) (db w) = (d1, inr (ErrorObj e)) ->
  createChatRoute req w
  = (withDb d1 w, inr (send 500 ("Error occurred while creating a chat: " +:+ e))).
Proof.
  intros Hv H1. unfold createChatRoute, requestedChat in *. rewrite Hv; simpl.
  unfold liftDb, orThrow; unfold_m; simpl. rewrite H1. reflexivity.
Qed.

Lemma createChatRoute_ok (req : CreateChatRequest) (w : World) (d1 d2 : Db)
    (c : Chat) (pc : OrError ChatJson) :
  isCreateChatRequestValid req = true ->
  saveChat (requestedChat req) (db w) = (d1, inr (Doc c)) ->
  populateDocument (Some (chat_id c)) "chat" d1 = (d2, inr pc) ->
  createChatRoute req w
  = (mkWorld d2 (emit ToAll "chatUpdate" (mkChatUpdate pc "created") (io w)) (now w),
     inr (json pc)).
Proof.
  intros Hv H1 H2. unfold createChatRoute, requestedChat in *. rewrite Hv; simpl.
  unfold liftDb, orThrow, socket_emit; unfold_m; simpl. rewrite H1; simpl.
  rewrite H2. reflexivity.
Qed.

Lemma addParticipantToChatRoute_invalid (req : AddParticipantRequest) (w : World) :
  isAddParticipantRequestValid req = false ->
  addParticipantToChatRoute req w = (w, inr (send 400 "Invalid request body")).
Proof. intros H. unfold addParticipantToChatRoute. rewrite H. reflexivity. Qed.

Lemma addParticipantToChatRoute_error
    (req : AddParticipantRequest) (w : World) (d1 : Db) (e : string) :
  isAddParticipantRequestValid req = true ->
  addParticipantToChat (ap_chatId req) (default "" (ap_participant req)) (db w)
  = (d1, inr (ErrorObj e)) ->
  addParticipantToChatRoute req w
  = (withDb d1 w,
     inr (send 500 ("Error occurred while adding participant to chat: " +:+ e))).
Proof.
  intros Hv H1. unfold addParticipantToChatRoute. rewrite Hv; simpl.
  unfold liftDb, orThrow; unfold_m; simpl. rewrite H1. reflexivity.
Qed.

Lemma addParticipantToChatRoute_ok
    (req : AddParticipantRequest) (w : World) (d1 : Db) (c : Chat) :
  isAddParticipantRequestValid req = true ->
  addParticipantToChat (ap_chatId req) (default "" (ap_participant req)) (db w)
  = (d1, inr (Doc c)) ->
  addParticipantToChatRoute req w
  = (mkWorld d1
       (emit ToAll "chatUpdate" (mkChatUpdate (Doc (toJson c)) "newParticipant") (io w))
       (now w),
     inr (json (Doc (toJson c)))).
Proof.
  intros Hv H1. unfold addParticipantToChatRoute. rewrite Hv; simpl.
  unfold liftDb, orThrow, socket_emit; unfold_m; simpl. rewrite H1. reflexivity.
Qed.

Lemma populateMessages_full (d : Db) (ids : list ObjectId) :
  forallb isFull (populateMessages d ids) = true.
Proof.
  unfold populateMessages. induction ids as [|i ids IH]; simpl; [reflexivity|].
  destruct (findMessage d i); simpl; assumption.
Qed.

Lemma populateDocument_populated (id : option string) (d d' : Db) (j : ChatJson) :
  populateDocument id "chat" d = (d', inr (Doc j)) ->
  populated j = true /\ exists i, id = Some i /\ toObjectId i = Some (json_id j).
Proof.
  intros H. destruct (populateDocument_spec id "chat" d) as (d1 & r & E & _ & _ & _ & _ & Hr).
  rewrite E in H. injection H as <- ->.
  destruct Hr as (i & cid & c & -> & Hcast & Hf & ->). unfold populated; simpl.
  split; [apply populateMessages_full|].
  apply find_some in Hf. destruct Hf as [_ Hf]. apply String.eqb_eq in Hf.
  exists i. split; [reflexivity|]. congruence.
Qed.

End RouteEquations2.

(** ** Adding a participant *)
Section AddParticipant.
Import ChatController.

(** Whether or not the user is in the chat already, the chat gets the
    user's id once more. *)
Lemma addParticipantToChat_pushes
    (chatId userId : string) (d : Db) (u : User) (cid : ObjectId) (c : Chat) :
  faults d = [] ->
  findUser d userId = Some u ->
  toObjectId chatId = Some cid ->
  findChat d cid = Some c ->
  exists d', addParticipantToChat chatId userId d
             = (d', inr (Doc (applyPush (PushParticipant (user_id u)) c)))
    /\ findChat d' cid = Some (applyPush (PushParticipant (user_id u)) c).
Proof.
  intros Hf Hu Hid Hc.
  destruct (updateFirst cid (PushParticipant (user_id u)) (chatDocs d))
    as [[c' cs']|] eqn:E.
  2:{ apply updateFirst_None in E. unfold findChat in Hc. congruence. }
  destruct (updateFirst_Some _ _ _ _ _ E) as (c0 & Hc0 & -> & Hc' & _).
  unfold findChat in Hc. assert (c0 = c) as -> by congruence.
  destruct d as [us ms cs n fs]. simpl in *. subst fs.
  unfold addParticipantToChat, UserModel_findOne, ChatModel_findByIdAndUpdate,
    castObjectId, castUpdate, storeCall; unfold_m; simpl.
  rewrite Hu; simpl. rewrite Hid; simpl. rewrite E; simpl.
  eexists. split; [reflexivity|]. exact Hc'.
Qed.

End AddParticipant.

(** C1, on the code: carol is a participant of chat [c1]; adding her again
    is no rejection: the service answers with the chat, which now lists her
    twice, and the stored chat is that one.  (The chat also satisfies the
    [participants] condition of the object passed as the id: reading that
    object as a filter would select the same chat.) *)
Theorem addParticipantToChat_duplicate_is_pushed :
  findUser db_sample "carol" = Some (mkUser id_u3 "carol")
  /\ findChat db_sample id_c1 = Some (mkChat id_c1 ["alice"; id_u3] [id_m1])
  /\ Exists (fun p => p ∈ participants (mkChat id_c1 ["alice"; id_u3] [id_m1]))
            (filter_participants_in (mkChatFilter id_c1 [id_u3]))
  /\ exists d',
       addParticipantToChat id_c1 "carol" db_sample
       = (d', inr (Doc (mkChat id_c1 ["alice"; id_u3; id_u3] [id_m1])))
       /\ findChat d' id_c1 = Some (mkChat id_c1 ["alice"; id_u3; id_u3] [id_m1]).
Proof.
  split; [reflexivity|]. split; [reflexivity|]. split.
  { constructor. simpl. apply elem_of_cons. right. apply elem_of_cons. left. reflexivity. }
  eexists. split; reflexivity.
Qed.

(** C4, as the claim has it: the newParticipant event of a successful
    add-participant request reaches only the connections in the room of the
    chat.  It fails: bob is added to chat [c1], and connection 3, which is
    not in the room of [c1], gets the event. *)
Lemma newParticipant_reaches_connection_outside_room :
  ~ (forall (req : ChatController.AddParticipantRequest) (w w' : ChatController.World)
            (resp : ChatController.Response) (e : ChatController.Emission),
        ChatController.addParticipantToChatRoute req w = (w', inr resp) ->
        ChatController.status resp = 200 ->
        ChatController.emitted (ChatController.io w')
        = ChatController.emitted (ChatController.io w) ++ [e] ->
        ChatController.em_to e
          ⊆ ChatController.subscribers (ChatController.ap_chatId req) (ChatController.io w)).
Proof.
  intros H.
  pose (req := ChatController.mkAddParticipantRequest id_c1 (Some "bob")).
  pose (c := mkChat id_c1 ["alice"; id_u3; id_u2] [id_m1]).
  pose (p := ChatController.mkChatUpdate (Doc (ChatController.toJson c)) "newParticipant").
  specialize (H req world_sample
                (ChatController.mkWorld
                   (set_chatDocs (fun _ => [c]) db_sample)
                   (ChatController.emit ChatController.ToAll "chatUpdate" p io_sample) 100)
                (ChatController.json (Doc (ChatController.toJson c)))
                (ChatController.mkEmission "chatUpdate" p ChatController.ToAll {[1; 2; 3]})
                eq_refl eq_refl eq_refl).
  simpl in H. unfold ChatController.subscribers, io_sample in H. simpl in H.
  rewrite lookup_singleton_eq in H. simpl in H.
  assert (H3 : (3 : N) ∈ ({[1; 2]} : gset N)) by (apply H; set_solver).
  set_solver.
Qed.

(** C4 (amended): a successful add-participant request emits exactly one
    event, a chatUpdate of type newParticipant that carries the updated
    chat, with [socket.emit]: it is addressed to all connections and every
    connection receives it, in the room of the chat or not. *)
Theorem newParticipant_emitted_to_all
    (req : ChatController.AddParticipantRequest) (w w' : ChatController.World)
    (resp : ChatController.Response) :
  ChatController.addParticipantToChatRoute req w = (w', inr resp) ->
  ChatController.status resp = 200 ->
  exists chat,
    chatNamed (ChatController.db w') (ChatController.ap_chatId req) = Some chat
    /\ ChatController.emitted (ChatController.io w')
       = ChatController.emitted (ChatController.io w)
         ++ [ChatController.mkEmission "chatUpdate"
               (ChatController.mkChatUpdate (Doc (ChatController.toJson chat)) "newParticipant")
               ChatController.ToAll
               (ChatController.conns (ChatController.io w))]
    /\ forall conn, conn ∈ ChatController.conns (ChatController.io w) ->
         ChatController.inbox conn (ChatController.io w')
         = ChatController.inbox conn (ChatController.io w)
           ++ [ChatController.mkEmission "chatUpdate"
                 (ChatController.mkChatUpdate (Doc (ChatController.toJson chat))
                                              "newParticipant")
                 ChatController.ToAll
                 (ChatController.conns (ChatController.io w))].
Proof.
  intros Hr Hs.
  destruct (ChatController.isAddParticipantRequestValid req) eqn:Hv.
  2:{ rewrite (addParticipantToChatRoute_invalid req w Hv) in Hr.
      injection Hr as <- <-. discriminate. }
  destruct (addParticipantToChat_spec (ChatController.ap_chatId req)
              (default "" (ChatController.ap_participant req)) (ChatController.db w))
    as (d1 & r & E & _ & _ & _ & Hc).
  destruct r as [chat|e].
  2:{ rewrite (addParticipantToChatRoute_error req w d1 e Hv E) in Hr.
      injection Hr as <- <-. discriminate. }
  rewrite (addParticipantToChatRoute_ok req w d1 chat Hv E) in Hr.
  injection Hr as <- <-. simpl.
  destruct Hc as (u & cid & _ & Hid & Hup).
  destruct (updateFirst_Some _ _ _ _ _ Hup) as (c0 & _ & _ & Hf & _).
  exists chat. split; [unfold chatNamed; rewrite Hid; exact Hf|]. split; [reflexivity|].
  intros conn Hconn. unfold ChatController.inbox; simpl.
  rewrite List.filter_app; simpl.
  rewrite bool_decide_eq_true_2 by assumption. reflexivity.
Qed.

Lemma newParticipant_emitted_to_all_witness :
  exists w' resp chat,
    ChatController.addParticipantToChatRoute
      (ChatController.mkAddParticipantRequest id_c1 (Some "bob")) world_sample
    = (w', inr resp)
    /\ ChatController.status resp = 200
    /\ participants chat = ["alice"; id_u3; id_u2]
    /\ findChat (ChatController.db w') id_c1 = Some chat
    /\ length (ChatController.inbox 3 (ChatController.io w')) = 1%nat.
Proof.
  pose (c := mkChat id_c1 ["alice"; id_u3; id_u2] [id_m1]).
  pose (p := ChatController.mkChatUpdate (Doc (ChatController.toJson c)) "newParticipant").
  pose (w' := ChatController.mkWorld
                (set_chatDocs (fun _ => [c]) db_sample)
                (ChatController.emit ChatController.ToAll "chatUpdate" p io_sample) 100).
  pose (resp := ChatController.json (Doc (ChatController.toJson c))).
  exists w', resp.
  destruct (newParticipant_emitted_to_all
              (ChatController.mkAddParticipantRequest id_c1 (Some "bob")) world_sample
              w' resp eq_refl eq_refl) as (chat & Hf & He & Hin).
  exists chat. split; [reflexivity|]. split; [reflexivity|].
  assert (chat = c) as -> by (cbv in Hf; unfold c; congruence).
  split; [reflexivity|]. split; [reflexivity|].
  rewrite (Hin 3) by (simpl; set_solver). simpl. reflexivity.
Defined.

(** ** Adding a message *)

(** C3, as the claim has it: a sender who is not a participant of the chat
    is added to it, or else the request fails, the chat keeps its messages
    and no event is emitted.  It fails: bob is a user but no participant of
    chat [c1]; his message is stored, appended to the chat and announced,
    and he is no participant afterwards either. *)
Lemma addMessage_from_non_participant_accepted :
  ~ (forall (req : ChatController.AddMessageRequestToChat) (w w' : ChatController.World)
            (resp : ChatController.Response) (c : Chat),
        ChatController.addMessageToChatRoute req w = (w', inr resp) ->
        chatNamed (ChatController.db w) (ChatController.am_chatId req) = Some c ->
        ~ isParticipant (ChatController.db w)
            (default "" (ChatController.am_msgFrom req)) c ->
        (exists c', chatNamed (ChatController.db w') (ChatController.am_chatId req) = Some c'
                    /\ isParticipant (ChatController.db w')
                         (default "" (ChatController.am_msgFrom req)) c')
        \/ (ChatController.status resp <> 200
            /\ chatDocs (ChatController.db w') = chatDocs (ChatController.db w)
            /\ ChatController.emitted (ChatController.io w')
               = ChatController.emitted (ChatController.io w))).
Proof.
  intros H.
  pose (req := ChatController.mkAddMessageRequest id_c1 (Some "hi") (Some "bob") None).
  pose (r := ChatController.addMessageToChatRoute req world_sample).
  pose (resp := ChatController.json
                  (Doc (ChatController.mkChatJson id_c1 ["alice"; id_u3]
                          [ChatController.MessageFull
                             (ChatController.mkPopulatedMessage
                                (mkMessageDoc id_m1 "hello" "alice" 10 "direct")
                                (Some (mkUser id_u1 "alice")));
                           ChatController.MessageFull
                             (ChatController.mkPopulatedMessage
                                (mkMessageDoc (freshId 0) "hi" "bob" 100 "direct")
                                (Some (mkUser id_u2 "bob")))]))).
  assert (Hr : r = (fst r, inr resp)) by (vm_compute; reflexivity).
  assert (Hno : forall d, findUser d "bob" = None \/ findUser d "bob" = Some (mkUser id_u2 "bob")
                  -> ~ isParticipant d "bob" (mkChat id_c1 ["alice"; id_u3] [id_m1])).
  { intros d Hd [Hin|(u & Hu & Hin)].
    - simpl in Hin. rewrite !elem_of_cons in Hin.
      destruct Hin as [Hin|[Hin|Hin]]; [discriminate..|]. apply elem_of_nil in Hin. exact Hin.
    - destruct Hd as [Hd|Hd]; rewrite Hd in Hu; [discriminate|].
      injection Hu as <-. simpl in Hin. rewrite !elem_of_cons in Hin.
      destruct Hin as [Hin|[Hin|Hin]]; [discriminate..|]. apply elem_of_nil in Hin. exact Hin. }
  destruct (H req world_sample (fst r) resp (mkChat id_c1 ["alice"; id_u3] [id_m1]) Hr eq_refl)
    as [(c' & Hc' & Hp)|(Hs & _)].
  - apply Hno. right. reflexivity.
  - vm_compute in Hc'. injection Hc' as <-.
    revert Hp. apply Hno. right. reflexivity.
  - apply Hs. reflexivity.
Qed.

(** C3 (amended): the sender of an add-message request is looked up
    among the users, not among the participants of the chat, before the
    message is stored: a valid request is always answered, and whenever a
    message has been stored or the answer is 200 the sender is a user.  The
    sender is never added to a chat: the participants of every chat and the
    users stay as they are, whatever the answer.  When there is no user of
    that name the request is answered with a 500, no message is stored, no
    chat changes and no event is emitted. *)
Theorem addMessage_sender_must_be_user
    (req : ChatController.AddMessageRequestToChat) (w : ChatController.World) :
  ChatController.isAddMessageRequestValid req = true ->
  exists w' resp,
    ChatController.addMessageToChatRoute req w = (w', inr resp)
    /\ users (ChatController.db w') = users (ChatController.db w)
    /\ map participants (chatDocs (ChatController.db w'))
       = map participants (chatDocs (ChatController.db w))
    /\ (messageDocs (ChatController.db w') <> messageDocs (ChatController.db w)
        \/ ChatController.status resp = 200 ->
        is_Some (findUser (ChatController.db w)
                          (default "" (ChatController.am_msgFrom req))))
    /\ (findUser (ChatController.db w) (default "" (ChatController.am_msgFrom req)) = None ->
        (exists e, resp = ChatController.send 500
                            ("Error occurred while adding a message to the chat: " +:+ e))
        /\ messageDocs (ChatController.db w') = messageDocs (ChatController.db w)
        /\ chatDocs (ChatController.db w') = chatDocs (ChatController.db w)
        /\ ChatController.io w' = ChatController.io w).
Proof.
  intros Hv.
  destruct (addMessageToChatRoute_outcome req w) as (w' & resp & E & Ho).
  exists w', resp. split; [exact E|]. clear E.
  destruct Ho as [Hv'|d1 e _ H1|d1 doc _ H1 _|d1 d2 doc e _ H1 _ H2
                 |d1 d2 d3 doc chat pc _ H1 _ H2 H3]; [congruence|..];
    destruct (createMessage_spec (requestedMessage req w) (ChatController.db w))
      as (d' & r & E & Hu1 & Hc1 & Hr1);
    rewrite E in H1; injection H1 as -> ->; clear E; simpl in *.
  - split; [exact Hu1|]. split; [rewrite Hc1; reflexivity|].
    split; [intros [H|H]; [contradiction|discriminate]|].
    intros _. unfold addMessageFailure. eauto.
  - destruct Hr1 as (Hm1 & Hsome & _).
    split; [exact Hu1|]. split; [rewrite Hc1; reflexivity|].
    split; [intros _; exact Hsome|].
    intros Hnone. rewrite Hnone in Hsome. destruct Hsome as [u Hu]. discriminate.
  - destruct Hr1 as (Hm1 & Hsome & _).
    destruct (addMessageToChat_spec (ChatController.am_chatId req) (doc_id doc) d1)
      as (d' & r & E & Hu2 & Hm2 & _ & Hr2).
    rewrite E in H2. injection H2 as -> ->. clear E.
    split; [congruence|]. split; [rewrite Hr2, Hc1; reflexivity|].
    split; [intros _; exact Hsome|].
    intros Hnone. rewrite Hnone in Hsome. destruct Hsome as [u Hu]. discriminate.
  - destruct Hr1 as (Hm1 & Hsome & _).
    destruct (addMessageToChat_spec (ChatController.am_chatId req) (doc_id doc) d1)
      as (d' & r & E & Hu2 & Hm2 & _ & Hr2).
    rewrite E in H2. injection H2 as -> ->. clear E.
    destruct Hr2 as (cid & mid & _ & _ & Hup).
    destruct (populateDocument_spec (Some (chat_id chat)) "chat" d2)
      as (d' & r & E & Hu3 & Hm3 & Hc3 & _).
    rewrite E in H3. injection H3 as -> ->. clear E.
    destruct (updateFirst_PushMessage_frame _ _ _ _ _ Hup) as [Hp _].
    split; [congruence|]. split; [rewrite Hc3, Hp, Hc1; reflexivity|].
    split; [intros _; exact Hsome|].
    intros Hnone. rewrite Hnone in Hsome. destruct Hsome as [u Hu]. discriminate.
Qed.

Lemma addMessage_sender_must_be_user_witness :
  (exists w' resp,
      ChatController.addMessageToChatRoute
        (ChatController.mkAddMessageRequest id_c1 (Some "hi") (Some "mallory") None)
        world_sample = (w', inr resp)
      /\ ChatController.status resp = 500
      /\ messageDocs (ChatController.db w') = messageDocs db_sample
      /\ chatDocs (ChatController.db w') = chatDocs db_sample
      /\ ChatController.emitted (ChatController.io w') = [])
  /\ (exists w' resp,
        ChatController.addMessageToChatRoute
          (ChatController.mkAddMessageRequest id_c1 (Some "hi") (Some "bob") None)
          world_sample = (w', inr resp)
        /\ ChatController.status resp = 200
        /\ map participants (chatDocs (ChatController.db w')) = [["alice"; id_u3]]).
Proof.
  split.
  - destruct (addMessage_sender_must_be_user
                (ChatController.mkAddMessageRequest id_c1 (Some "hi") (Some "mallory") None)
                world_sample eq_refl) as (w' & resp & Hr & _ & _ & _ & Hno).
    destruct (Hno eq_refl) as ((e & ->) & Hm & Hc & Hio).
    eexists _, _. split; [exact Hr|]. split; [reflexivity|]. split; [exact Hm|].
    split; [exact Hc|]. rewrite Hio. reflexivity.
  - destruct (addMessage_sender_must_be_user
                (ChatController.mkAddMessageRequest id_c1 (Some "hi") (Some "bob") None)
                world_sample eq_refl) as (w' & resp & Hr & _ & Hp & _).
    exists w', resp. split; [exact Hr|]. split; [|exact Hp].
    vm_compute in Hr. injection Hr as _ <-. reflexivity.
Defined.

(** ** Status codes *)

(** C6, as the claim has it for the add-participant route: a successful
    request answers 200 with the populated chat.  It fails: bob is added to
    chat [c1] and the answer is the chat as stored, its message still a bare
    id. *)
Lemma addParticipant_answer_not_populated :
  ~ (forall (req : ChatController.AddParticipantRequest) (w w' : ChatController.World)
            (resp : ChatController.Response),
        ChatController.addParticipantToChatRoute req w = (w', inr resp) ->
        ChatController.status resp = 200 ->
        exists j, ChatController.body resp = ChatController.Json (Doc j)
                  /\ ChatController.populated j = true).
Proof.
  intros H.
  pose (c := mkChat id_c1 ["alice"; id_u3; id_u2] [id_m1]).
  pose (p := ChatController.mkChatUpdate (Doc (ChatController.toJson c)) "newParticipant").
  destruct (H (ChatController.mkAddParticipantRequest id_c1 (Some "bob")) world_sample
              (ChatController.mkWorld
                 (set_chatDocs (fun _ => [c]) db_sample)
                 (ChatController.emit ChatController.ToAll "chatUpdate" p io_sample) 100)
              (ChatController.json (Doc (ChatController.toJson c)))
              eq_refl eq_refl) as (j & Hj & Hp).
  simpl in Hj. injection Hj as <-. vm_compute in Hp. discriminate.
Qed.

(** C6 (amended): a create-chat or add-participant request that fails
    validation is answered 400 with the literal message and nothing changes;
    an error reported by the service is answered 500 with the message
    wrapped, the store is left as the service left it and no event is
    emitted; a chat that was created and populated is answered 200 with the
    populated chat, and an added participant is answered 200 with the
    updated chat as stored. *)
Theorem chat_routes_status_codes
    (creq : ChatController.CreateChatRequest) (preq : ChatController.AddParticipantRequest)
    (w : ChatController.World) :
  (ChatController.isCreateChatRequestValid creq = false ->
   ChatController.createChatRoute creq w
   = (w, inr (ChatController.send 400 "Invalid request for creating chat")))
  /\ (ChatController.isAddParticipantRequestValid preq = false ->
      ChatController.addParticipantToChatRoute preq w
      = (w, inr (ChatController.send 400 "Invalid request body")))
  /\ (forall d1 e,
        ChatController.isCreateChatRequestValid creq = true ->
        saveChat (requestedChat creq) (ChatController.db w) = (d1, inr (ErrorObj e)) ->
        ChatController.createChatRoute creq w
        = (withDb d1 w,
           inr (ChatController.send 500 ("Error occurred while creating a chat: " +:+ e))))
  /\ (forall d1 e,
        ChatController.isAddParticipantRequestValid preq = true ->
        addParticipantToChat (ChatController.ap_chatId preq)
          (default "" (ChatController.ap_participant preq)) (ChatController.db w)
        = (d1, inr (ErrorObj e)) ->
        ChatController.addParticipantToChatRoute preq w
        = (withDb d1 w,
           inr (ChatController.send 500
                  ("Error occurred while adding participant to chat: " +:+ e))))
  /\ (forall d1 d2 c j,
        ChatController.isCreateChatRequestValid creq = true ->
        saveChat (requestedChat creq) (ChatController.db w) = (d1, inr (Doc c)) ->
        ChatController.populateDocument (Some (chat_id c)) "chat" d1 = (d2, inr (Doc j)) ->
        ChatController.createChatRoute creq w
        = (ChatController.mkWorld d2
             (ChatController.emit ChatController.ToAll "chatUpdate"
                (ChatController.mkChatUpdate (Doc j) "created") (ChatController.io w))
             (ChatController.now w),
           inr (ChatController.mkResponse 200 (ChatController.Json (Doc j))))
        /\ ChatController.populated j = true
        /\ ChatController.json_id j = chat_id c)
  /\ (forall d1 c,
        ChatController.isAddParticipantRequestValid preq = true ->
        addParticipantToChat (ChatController.ap_chatId preq)
          (default "" (ChatController.ap_participant preq)) (ChatController.db w)
        = (d1, inr (Doc c)) ->
        ChatController.addParticipantToChatRoute preq w
        = (ChatController.mkWorld d1
             (ChatController.emit ChatController.ToAll "chatUpdate"
                (ChatController.mkChatUpdate (Doc (ChatController.toJson c)) "newParticipant")
                (ChatController.io w))
             (ChatController.now w),
           inr (ChatController.mkResponse 200
                  (ChatController.Json (Doc (ChatController.toJson c)))))).
Proof.
  split; [apply createChatRoute_invalid|].
  split; [apply addParticipantToChatRoute_invalid|].
  split; [intros d1 e; apply createChatRoute_error|].
  split; [intros d1 e; apply addParticipantToChatRoute_error|].
  split; [|intros d1 c; apply addParticipantToChatRoute_ok].
  intros d1 d2 c j Hv Hs Hp.
  split; [apply (createChatRoute_ok creq w d1 d2 c (Doc j)); assumption|].
  destruct (populateDocument_populated _ _ _ _ Hp) as (Hpop & i & [= <-] & Hid).
  split; [assumption|].
  destruct (saveChat_chat_id _ _ _ _ Hs) as (n & Hn).
  rewrite Hn, toObjectId_freshId in Hid. congruence.
Qed.

Lemma chat_routes_status_codes_witness :
  (exists w' body,
      ChatController.createChatRoute
        (ChatController.mkCreateChatRequest (Some []) (Some two_messages)) world_sample
      = (w', inr (ChatController.mkResponse 400 body)) /\ w' = world_sample)
  /\ (exists w' body,
        ChatController.addParticipantToChatRoute
          (ChatController.mkAddParticipantRequest id_c1 None) world_sample
        = (w', inr (ChatController.mkResponse 400 body)) /\ w' = world_sample)
  /\ (exists w' body,
        ChatController.createChatRoute
          (ChatController.mkCreateChatRequest (Some ["alice"; "bob"]) (Some two_messages))
          world_failing
        = (w', inr (ChatController.mkResponse 500 body))
        /\ ChatController.io w' = io_sample)
  /\ (exists w' body,
        ChatController.addParticipantToChatRoute
          (ChatController.mkAddParticipantRequest id_c1 (Some "mallory")) world_sample
        = (w', inr (ChatController.mkResponse 500 body))
        /\ ChatController.io w' = io_sample)
  /\ (exists w' j,
        ChatController.createChatRoute
          (ChatController.mkCreateChatRequest (Some ["alice"; "bob"]) (Some two_messages))
          world_sample
        = (w', inr (ChatController.mkResponse 200 (ChatController.Json (Doc j))))
        /\ ChatController.populated j = true)
  /\ (exists w' c,
        ChatController.addParticipantToChatRoute
          (ChatController.mkAddParticipantRequest id_c1 (Some "bob")) world_sample
        = (w', inr (ChatController.mkResponse 200
                      (ChatController.Json (Doc (ChatController.toJson c)))))
        /\ participants c = ["alice"; id_u3; id_u2]).
Proof.
  split; [|split; [|split; [|split; [|split]]]].
  - destruct (chat_routes_status_codes
                (ChatController.mkCreateChatRequest (Some []) (Some two_messages))
                (ChatController.mkAddParticipantRequest id_c1 None) world_sample)
      as (H & _).
    eexists _, _. split; [apply H; reflexivity|reflexivity].
  - destruct (chat_routes_status_codes
                (ChatController.mkCreateChatRequest (Some []) (Some two_messages))
                (ChatController.mkAddParticipantRequest id_c1 None) world_sample)
      as (_ & H & _).
    eexists _, _. split; [apply H; reflexivity|reflexivity].
  - destruct (chat_routes_status_codes
                (ChatController.mkCreateChatRequest (Some ["alice"; "bob"])
                                                    (Some two_messages))
                (ChatController.mkAddParticipantRequest id_c1 None) world_failing)
      as (_ & _ & H & _).
    eexists _, _. split; [eapply H; [reflexivity|vm_compute; reflexivity]|reflexivity].
  - destruct (chat_routes_status_codes
                (ChatController.mkCreateChatRequest (Some []) (Some two_messages))
                (ChatController.mkAddParticipantRequest id_c1 (Some "mallory")) world_sample)
      as (_ & _ & _ & H & _).
    eexists _, _. split; [eapply H; [reflexivity|vm_compute; reflexivity]|reflexivity].
  - destruct (chat_routes_status_codes
                (ChatController.mkCreateChatRequest (Some ["alice"; "bob"])
                                                    (Some two_messages))
                (ChatController.mkAddParticipantRequest id_c1 None) world_sample)
      as (_ & _ & _ & _ & H & _).
    edestruct H as (Hr & Hp & _);
      [reflexivity|vm_compute; reflexivity|vm_compute; reflexivity|].
    eexists _, _. split; [exact Hr|exact Hp].
  - destruct (chat_routes_status_codes
                (ChatController.mkCreateChatRequest (Some []) (Some two_messages))
                (ChatController.mkAddParticipantRequest id_c1 (Some "bob")) world_sample)
      as (_ & _ & _ & _ & _ & H).
    eexists _, _. split; [eapply H; [reflexivity|vm_compute; reflexivity]|reflexivity].
Defined.

(** ** Store failures *)
Section StoreFailures.
Import ChatController.

Lemma failsAt_drop (d d' : Db) (n i : nat) :
  faults d' = drop n (faults d) -> failsAt d' i <-> failsAt d (n + i).
Proof. intros H. unfold failsAt. rewrite H, lookup_drop. reflexivity. Qed.

Lemma createMessage_faults (m : Message) (d d' : Db) (doc : MessageDoc) :
  createMessage m d = (d', inr (Doc doc)) ->
  ~ failsAt d 0 /\ ~ failsAt d 1 /\ faults d' = drop 2 (faults d).
Proof.
  destruct d as [us ms cs n fs].
  unfold createMessage, UserModel_findOne, MessageModel_create, storeCall,
    newObjectId, findUser, failsAt; unfold_m; simpl.
  destruct fs as [|[e0|] [|[e1|] fs]]; simpl;
    repeat case_step; intros [= <- <-]; simpl; auto.
Qed.

Lemma addMessageToChat_faults (chatId messageId : string) (d d' : Db) (c : Chat) :
  addMessageToChat chatId messageId d = (d', inr (Doc c)) -> ~ failsAt d 0.
Proof.
  destruct d as [us ms cs n fs].
  unfold addMessageToChat, ChatModel_findByIdAndUpdate, storeCall, failsAt; unfold_m; simpl.
  destruct fs as [|[e0|] fs]; simpl; repeat case_step; intros [= <- <-]; simpl; auto.
Qed.

Lemma MessageModel_create_faults (m : Message) (d d' : Db) (r : JsError + MessageDoc) :
  MessageModel_create m d = (d', r) ->
  faults d' = drop 1 (faults d)
  /\ match r with inr _ => ~ failsAt d 0 | inl _ => failsAt d 0 end.
Proof.
  destruct d as [us ms cs n fs].
  unfold MessageModel_create, storeCall, newObjectId, failsAt; unfold_m; simpl.
  destruct fs as [|[e0|] fs]; simpl; repeat case_step; intros [= <- <-]; simpl; auto.
Qed.

Lemma promiseAll_create_faults (msgs : list Message) (d d' : Db)
    (r : JsError + list ObjectId) :
  promiseAll (map (fun m => savedMessage ← MessageModel_create m;
                            mret (doc_id savedMessage)) msgs) d = (d', r) ->
  faults d' = drop (length msgs) (faults d)
  /\ match r with
     | inr _ => forall i, (i < length msgs)%nat -> ~ failsAt d i
     | inl _ => exists i, (i < length msgs)%nat /\ failsAt d i
     end.
Proof.
  revert d d' r. induction msgs as [|m msgs IH]; intros d d' r; simpl.
  - intros [= <- <-]. rewrite drop_0. split; [reflexivity|]. intros i Hi. lia.
  - destruct ((savedMessage ← MessageModel_create m; mret (doc_id savedMessage)) d)
      as [d1 r1] eqn:E1.
    destruct (promiseAll _ d1) as [d2 r2] eqn:E2.
    intros [= <- <-].
    destruct (IH _ _ _ E2) as [Hf2 Hr2].
    assert (H1 : faults d1 = drop 1 (faults d)
                 /\ match r1 with inr _ => ~ failsAt d 0 | inl _ => failsAt d 0 end).
    { unfold mbind, M_bind in E1.
      destruct (MessageModel_create m d) as [d0 r0] eqn:E0.
      destruct (MessageModel_create_faults _ _ _ _ E0) as [Hd Hr].
      destruct r0; injection E1 as <- <-; auto. }
    destruct H1 as [Hf1 Hr1].
    split; [rewrite Hf2, Hf1, drop_drop; reflexivity|].
    destruct r1 as [e|id].
    + exists 0%nat. split; [lia|assumption].
    + destruct r2 as [e|l].
      * destruct Hr2 as (i & Hi & Hfail). exists (S i). split; [lia|].
        apply (failsAt_drop d d1 1 i Hf1). assumption.
      * intros [|i] Hi; [assumption|].
        intros Hfail. apply (Hr2 i); [lia|].
        apply (failsAt_drop d d1 1 i Hf1). assumption.
Qed.

Lemma ChatModel_create_faults (ps : list string) (ids : list ObjectId) (d d' : Db)
    (r : JsError + Chat) :
  ChatModel_create ps ids d = (d', r) ->
  match r with inr _ => ~ failsAt d 0 | inl _ => failsAt d 0 end.
Proof.
  destruct d as [us ms cs n fs].
  unfold ChatModel_create, storeCall, newObjectId, failsAt; unfold_m; simpl.
  destruct fs as [|[e0|] fs]; simpl; intros [= <- <-]; simpl; auto.
Qed.

(** [saveChat] answers with a chat only if none of its store calls, one per
    message and one for the chat, has failed. *)
Lemma saveChat_faults (p : CreateChatPayload) (d d' : Db) (c : Chat) :
  saveChat p d = (d', inr (Doc c)) ->
  forall i, (i <= length (payload_messages p))%nat -> ~ failsAt d i.
Proof.
  unfold saveChat. unfold try_catch at 1. unfold mbind at 1. unfold M_bind at 1.
  destruct (promiseAll _ d) as [d1 r1] eqn:E1.
  destruct (promiseAll_create_faults _ _ _ _ E1) as [Hf Hr].
  destruct r1 as [e|ids]; [intros [= _ H]; discriminate|].
  unfold mbind, M_bind.
  destruct (ChatModel_create _ ids d1) as [d2 r2] eqn:E2.
  pose proof (ChatModel_create_faults _ _ _ _ _ E2) as Hc.
  destruct r2 as [e|c2]; [intros [= _ H]; discriminate|].
  intros _ i Hi.
  destruct (decide (i < length (payload_messages p))%nat) as [Hlt|Hge];
    [apply Hr; assumption|].
  assert (i = length (payload_messages p)) as -> by lia.
  intros Hfail. apply Hc.
  apply (failsAt_drop d d1 _ 0%nat Hf). rewrite Nat.add_0_r. assumption.
Qed.

End StoreFailures.

(** C2, as the claim has it: when [saveChat] answers with an error, or an
    add-message request is answered 500, no message has been stored.  Both
    fail with a store whose third call fails: [saveChat] has stored its two
    messages when the creation of the chat fails, and the route has stored
    the message when the update of the chat fails. *)
Lemma failed_operation_leaves_messages_stored :
  ~ (forall (p : CreateChatPayload) (d d' : Db) (e : string),
        saveChat p d = (d', inr (ErrorObj e)) -> messageDocs d' = messageDocs d)
  /\ ~ (forall (req : ChatController.AddMessageRequestToChat) (w w' : ChatController.World)
               (resp : ChatController.Response),
          ChatController.addMessageToChatRoute req w = (w', inr resp) ->
          ChatController.status resp = 500 ->
          messageDocs (ChatController.db w') = messageDocs (ChatController.db w)).
Proof.
  split; intros H.
  - pose (r := saveChat (mkCreateChatPayload ["alice"; "bob"] two_messages)
                        (ChatController.db world_failing)).
    assert (Hr : r = (fst r,
                      inr (ErrorObj ("Error occurred while saving chat: "
                                     +:+ "MongoNetworkError: connection closed"
                                     +:+ ".message"))))
      by (vm_compute; reflexivity).
    specialize (H _ _ _ _ Hr). vm_compute in H. discriminate.
  - pose (r := ChatController.addMessageToChatRoute
                 (ChatController.mkAddMessageRequest id_c1 (Some "hi") (Some "alice") None)
                 world_failing).
    assert (Hr : r = (fst r,
                      inr (ChatController.send 500
                             ("Error occurred while adding a message to the chat: "
                              +:+ "Error occurred while adding the message to chat: "
                              +:+ "MongoNetworkError: connection closed" +:+ ".message"))))
      by (vm_compute; reflexivity).
    specialize (H _ _ _ _ Hr eq_refl). vm_compute in H. discriminate.
Qed.

Section NoRollback.
Import ChatController.

Lemma createdOf_nil (msgs : list Message) : createdOf [] msgs = msgs.
Proof. destruct msgs; reflexivity. Qed.

(** When no creation fails every message is created. *)
Lemma createdOf_all (d : Db) (msgs : list Message) :
  (forall i, (i < length msgs)%nat -> ~ failsAt d i) -> createdOf (faults d) msgs = msgs.
Proof.
  unfold failsAt. generalize (faults d). intros fs. revert fs.
  induction msgs as [|m msgs IH]; intros fs H; [reflexivity|]. simpl.
  destruct fs as [|[e|] fs]; [reflexivity| |].
  - exfalso. apply (H 0%nat); simpl; [lia|exact I].
  - f_equal. apply IH. intros i Hi. apply (H (S i)). simpl. lia.
Qed.

Lemma MessageModel_create_exact (m : Message) (d : Db) :
  exists d' r,
    MessageModel_create m d = (d', r)
    /\ users d' = users d /\ chatDocs d' = chatDocs d
    /\ faults d' = drop 1 (faults d)
    /\ exists docs, messageDocs d' = messageDocs d ++ docs
         /\ Forall2 storedFrom (createdOf (faults d) [m]) docs.
Proof.
  destruct d as [us ms cs n fs].
  unfold MessageModel_create, storeCall, newObjectId, storedFrom; unfold_m; simpl.
  destruct fs as [|[e|] fs]; simpl; destruct (m_id m) as [i|] eqn:Ei; simpl;
    eexists (mkDb _ _ _ _ _), _; (split; [reflexivity|]); simpl;
    repeat (split; [reflexivity|]);
    first [ exists []; split; [symmetry; apply app_nil_r|constructor]
          | eexists [_]; split; [reflexivity|];
            constructor; [|constructor]; simpl; repeat split; intros j; congruence ].
Qed.

Lemma createdOf_cons (fs : list (option JsError)) (m : Message) (msgs : list Message) :
  createdOf fs (m :: msgs) = createdOf fs [m] ++ createdOf (drop 1 fs) msgs.
Proof.
  simpl. destruct fs as [|[e|] fs]; simpl; rewrite ?drop_0; try reflexivity.
  rewrite createdOf_nil. reflexivity.
Qed.

(** The messages [saveChat] has created by the time it answers: those of
    the payload whose store call did not fail, whatever the others did. *)
Lemma promiseAll_create_exact (msgs : list Message) (d : Db) :
  exists d' r docs,
    promiseAll (map (fun m => savedMessage ← MessageModel_create m;
                              mret (doc_id savedMessage)) msgs) d = (d', r)
    /\ messageDocs d' = messageDocs d ++ docs
    /\ Forall2 storedFrom (createdOf (faults d) msgs) docs.
Proof.
  revert d. induction msgs as [|m msgs IH]; intros d.
  - exists d, (inr []), []. simpl. rewrite app_nil_r. repeat split. constructor.
  - cbn [map promiseAll].
    destruct ((savedMessage ← MessageModel_create m; mret (doc_id savedMessage)) d)
      as [d1 r1] eqn:E1.
    destruct (IH d1) as (d2 & r2 & docs2 & E2 & Hm2 & Hs2). rewrite E2.
    assert (H1 : faults d1 = drop 1 (faults d)
                 /\ exists docs1, messageDocs d1 = messageDocs d ++ docs1
                      /\ Forall2 storedFrom (createdOf (faults d) [m]) docs1).
    { unfold mbind, M_bind in E1.
      destruct (MessageModel_create_exact m d) as (d0 & r0 & E0 & _ & _ & Hf & Hdocs).
      rewrite E0 in E1. destruct r0; injection E1 as <- <-; auto. }
    destruct H1 as (Hf1 & docs1 & Hm1 & Hs1).
    eexists d2, _, (docs1 ++ docs2). split; [reflexivity|].
    split; [rewrite Hm2, Hm1, app_assoc; reflexivity|].
    rewrite createdOf_cons. apply Forall2_app; [exact Hs1|]. rewrite <- Hf1. exact Hs2.
Qed.

End NoRollback.

(** C2 (amended): when one of the store calls of [saveChat] fails, the
    caller gets an error; whenever [saveChat] answers with an error no chat
    has been created, and nothing is rolled back: exactly the messages of
    the payload whose own creation did not fail are in the store
    afterwards, all of them when it is the creation of the chat that
    failed.  When, for a valid add-message request, the user lookup, the
    creation of the message or the update of the chat fails, the answer is
    a 500; whenever the answer is a 500 no chat has changed and no event
    has been emitted, and the message stays in the store exactly when it
    was created, that is when the sender was found and the creation went
    through. *)
Theorem store_failure_reported_without_rollback
    (p : CreateChatPayload) (d : Db)
    (req : ChatController.AddMessageRequestToChat) (w : ChatController.World) :
  (forall i, (i <= length (payload_messages p))%nat -> failsAt d i ->
     exists d' e, saveChat p d = (d', inr (ErrorObj e)))
  /\ (forall d' e, saveChat p d = (d', inr (ErrorObj e)) ->
        chatDocs d' = chatDocs d
        /\ exists docs,
             messageDocs d' = messageDocs d ++ docs
             /\ Forall2 storedFrom (createdOf (faults d) (payload_messages p)) docs
             /\ ((forall i, (i < length (payload_messages p))%nat -> ~ failsAt d i) ->
                 Forall2 storedFrom (payload_messages p) docs))
  /\ (forall i, ChatController.isAddMessageRequestValid req = true ->
        (i < 3)%nat -> failsAt (ChatController.db w) i ->
        exists w' body,
          ChatController.addMessageToChatRoute req w
          = (w', inr (ChatController.mkResponse 500 body)))
  /\ (forall w' resp,
        ChatController.addMessageToChatRoute req w = (w', inr resp) ->
        ChatController.status resp = 500 ->
        chatDocs (ChatController.db w') = chatDocs (ChatController.db w)
        /\ ChatController.io w' = ChatController.io w
        /\ (((failsAt (ChatController.db w) 0
              \/ findUser (ChatController.db w)
                          (default "" (ChatController.am_msgFrom req)) = None
              \/ failsAt (ChatController.db w) 1)
             /\ messageDocs (ChatController.db w') = messageDocs (ChatController.db w))
            \/ (~ failsAt (ChatController.db w) 0
                /\ is_Some (findUser (ChatController.db w)
                                     (default "" (ChatController.am_msgFrom req)))
                /\ ~ failsAt (ChatController.db w) 1
                /\ messageDocs (ChatController.db w')
                   = messageDocs (ChatController.db w)
                     ++ [mkMessageDoc (freshId (nextId (ChatController.db w)))
                           (default "" (ChatController.am_msg req))
                           (default "" (ChatController.am_msgFrom req))
                           (default (ChatController.now w)
                                    (ChatController.am_msgDateTime req))
                           "direct"]))).
Proof.
  split; [|split; [|split]].
  - intros i Hi Hfail.
    destruct (saveChat_spec p d) as (d' & r & docs & E & _).
    destruct r as [c|e]; [|eauto].
    exfalso. exact (saveChat_faults p d d' c E i Hi Hfail).
  - intros d' e E.
    destruct (saveChat_spec p d) as (d1 & r & docs & E1 & _ & Hm & Hr).
    rewrite E1 in E. injection E as <- ->. destruct Hr as [Hc Hl].
    split; [assumption|].
    destruct (promiseAll_create_exact (payload_messages p) d)
      as (d2 & r2 & docs2 & E2 & Hm2 & Hs2).
    assert (Hd : messageDocs d1 = messageDocs d2).
    { revert E1. unfold saveChat. unfold try_catch at 1. unfold mbind at 1.
      unfold M_bind at 1. rewrite E2. destruct r2 as [e2|ids].
      - intros [= <- _]. reflexivity.
      - destruct d2 as [us ms cs n fs].
        unfold ChatModel_create, storeCall, newObjectId; unfold_m; simpl.
        destruct fs as [|[e0|] fs]; simpl; intros [= <- _]; reflexivity. }
    exists docs2. split; [congruence|]. split; [exact Hs2|].
    intros Hall. rewrite (createdOf_all d _ Hall) in Hs2. exact Hs2.
  - intros i Hv Hi Hfail.
    destruct (addMessageToChatRoute_outcome req w) as (w' & resp & E & Ho).
    destruct Ho as [Hv'|d1 e _ _|d1 doc _ _ _|d1 d2 doc e _ _ _ _
                   |d1 d2 d3 doc chat pc _ H1 _ H2 _];
      [congruence|rewrite E; unfold addMessageFailure, ChatController.send; eauto..|].
    exfalso.
    destruct (createMessage_faults _ _ _ _ H1) as (Hf0 & Hf1 & Hd).
    pose proof (addMessageToChat_faults _ _ _ _ _ H2) as Hf2.
    rewrite (failsAt_drop (ChatController.db w) d1 2 0 Hd) in Hf2.
    destruct i as [|[|[|i]]]; [contradiction..|lia].
  - intros w' resp E Hs.
    destruct (addMessageToChatRoute_outcome req w) as (w1 & resp1 & E1 & Ho).
    rewrite E1 in E. injection E as <- <-.
    destruct Ho as [_|d1 e _ H1|d1 doc _ H1 _|d1 d2 doc e _ H1 _ H2
                   |d1 d2 d3 doc chat pc _ _ _ _ _]; [discriminate| | | |discriminate].
    + pose proof (createMessage_error _ _ _ _ H1) as Hwhy.
      destruct (createMessage_spec (requestedMessage req w) (ChatController.db w))
        as (d' & r & E & _ & Hc & Hr).
      rewrite E in H1. injection H1 as -> ->. simpl.
      split; [assumption|]. split; [reflexivity|]. left. split; assumption.
    + destruct (createMessage_faults _ _ _ _ H1) as (Hf0 & Hf1 & _).
      destruct (createMessage_spec (requestedMessage req w) (ChatController.db w))
        as (d' & r & E & _ & Hc & Hr).
      rewrite E in H1. injection H1 as -> ->. simpl. destruct Hr as (Hm & Hsome & Hdoc).
      split; [assumption|]. split; [reflexivity|]. right.
      split; [assumption|]. split; [exact Hsome|]. split; [assumption|].
      rewrite Hm, Hdoc. reflexivity.
    + destruct (createMessage_faults _ _ _ _ H1) as (Hf0 & Hf1 & _).
      destruct (createMessage_spec (requestedMessage req w) (ChatController.db w))
        as (d' & r & E & _ & Hc & Hr).
      rewrite E in H1. injection H1 as -> ->. destruct Hr as (Hm & Hsome & Hdoc).
      destruct (addMessageToChat_spec (ChatController.am_chatId req) (doc_id doc) d1)
        as (d' & r & E' & _ & Hm2 & _ & Hr2).
      rewrite E' in H2. injection H2 as -> ->. simpl.
      split; [congruence|]. split; [reflexivity|]. right.
      split; [assumption|]. split; [exact Hsome|]. split; [assumption|].
      rewrite Hm2, Hm, Hdoc. reflexivity.
Qed.

Lemma store_failure_reported_without_rollback_witness :
  failsAt (ChatController.db world_failing) 2
  /\ (exists d' e,
        saveChat (mkCreateChatPayload ["alice"; "bob"] two_messages)
                 (ChatController.db world_failing) = (d', inr (ErrorObj e))
        /\ chatDocs d' = chatDocs db_sample
        /\ messageDocs d'
           = messageDocs db_sample
             ++ [mkMessageDoc (freshId 0) "hi" "alice" 1 "direct";
                 mkMessageDoc (freshId 1) "ho" "bob" 2 "direct"])
  /\ (exists w' body,
        ChatController.addMessageToChatRoute
          (ChatController.mkAddMessageRequest id_c1 (Some "hi") (Some "alice") None)
          world_failing = (w', inr (ChatController.mkResponse 500 body))
        /\ chatDocs (ChatController.db w') = chatDocs db_sample
        /\ ChatController.io w' = io_sample
        /\ messageDocs (ChatController.db w')
           = messageDocs db_sample ++ [mkMessageDoc (freshId 0) "hi" "alice" 100 "direct"]).
Proof.
  assert (Hf : failsAt (ChatController.db world_failing) 2) by exact I.
  destruct (store_failure_reported_without_rollback
              (mkCreateChatPayload ["alice"; "bob"] two_messages)
              (ChatController.db world_failing)
              (ChatController.mkAddMessageRequest id_c1 (Some "hi") (Some "alice") None)
              world_failing) as (H1 & H2 & H3 & H4).
  split; [exact Hf|]. split.
  - destruct (H1 2%nat (le_n 2) Hf) as (d' & e & E).
    destruct (H2 d' e E) as (Hc & kept & Hm & _).
    exists d', e. split; [exact E|]. split; [exact Hc|].
    vm_compute in E. injection E as <- _. reflexivity.
  - destruct (H3 2%nat eq_refl (le_n 3) Hf) as (w' & body & E).
    destruct (H4 w' _ E eq_refl) as (Hc & Hio & [[[Hx|[Hx|Hx]] _]|(_ & _ & _ & Hm)]).
    + destruct Hx.
    + discriminate Hx.
    + destruct Hx.
    + exists w', body. split; [exact E|]. split; [exact Hc|]. split; [exact Hio|exact Hm].
Defined.

(** ** A successful add-message request *)
Section AddMessage.
Import ChatController.

Lemma find_snoc {A} (f : A -> bool) (l : list A) (x : A) :
  List.find f (l ++ [x])
  = match List.find f l with
    | Some y => Some y
    | None => if f x then Some x else None
    end.
Proof.
  induction l as [|a l IH]; simpl; [reflexivity|].
  destruct (f a); [reflexivity|exact IH].
Qed.

Lemma populateMessages_snoc (d : Db) (ids : list ObjectId) (id : ObjectId) (m : MessageDoc) :
  findMessage d id = Some m ->
  populateMessages d (ids ++ [id])
  = populateMessages d ids
    ++ [MessageFull (mkPopulatedMessage m (findUser d (doc_msgFrom m)))].
Proof.
  intros H. unfold populateMessages. rewrite omap_app. simpl. rewrite H. reflexivity.
Qed.

Lemma inbox_emit (conn : N) (sc : Scope) (ev : string) (p : ChatUpdatePayload) (i : Io) :
  inbox conn (emit sc ev p i)
  = inbox conn i
    ++ (if decide (conn ∈ recipients sc i)
        then [mkEmission ev p sc (recipients sc i)] else []).
Proof.
  unfold inbox, emit; simpl. rewrite List.filter_app; simpl.
  destruct (decide (conn ∈ recipients sc i)).
  - rewrite bool_decide_eq_true_2 by assumption. reflexivity.
  - rewrite bool_decide_eq_false_2 by assumption. reflexivity.
Qed.

End AddMessage.

Section AddMessageSteps.
Import ChatController.

Lemma addMessageToChat_drop (chatId messageId : string) (d d' : Db) (c : Chat) :
  addMessageToChat chatId messageId d = (d', inr (Doc c)) -> faults d' = drop 1 (faults d).
Proof.
  destruct d as [us ms cs n fs].
  unfold addMessageToChat, ChatModel_findByIdAndUpdate, castObjectId, castUpdate, storeCall;
    unfold_m; simpl.
  destruct fs as [|[e0|] fs]; simpl; repeat case_step; intros [= <- <-]; reflexivity.
Qed.

Lemma populateDocument_faults (id : option string) (kind : string) (d d' : Db) (j : ChatJson) :
  populateDocument id kind d = (d', inr (Doc j)) -> ~ failsAt d 0.
Proof.
  destruct d as [us ms cs n fs].
  unfold populateDocument, ChatModel_findById, castObjectId, storeCall, findChat, failsAt;
    unfold_m; simpl.
  destruct fs as [|[e|] fs]; simpl; repeat case_step; intros [= <- <-]; simpl; auto.
Qed.

(** The population of a chat that is there succeeds unless its store call
    fails. *)
Lemma populateDocument_ok (i : string) (cid : ObjectId) (c : Chat) (d : Db) :
  toObjectId i = Some cid -> findChat d cid = Some c -> ~ failsAt d 0 ->
  exists d', populateDocument (Some i) "chat" d
             = (d', inr (Doc (mkChatJson (chat_id c) (participants c)
                                         (populateMessages d (messages c))))).
Proof.
  intros Hid Hc Hnf. destruct d as [us ms cs n fs].
  unfold populateDocument, ChatModel_findById, castObjectId, storeCall, findChat, failsAt in *;
    unfold_m; simpl in *.
  rewrite Hid; simpl.
  destruct fs as [|[e|] fs]; simpl in *; [|tauto|]; rewrite Hc; simpl; eauto.
Qed.

Lemma populateDocument_down (id : option string) (kind : string) (d : Db) :
  failsAt d 0 -> exists d' e, populateDocument id kind d = (d', inr (ErrorObj e)).
Proof.
  intros Hf. destruct (populateDocument_spec id kind d) as (d' & r & E & _).
  destruct r as [j|e]; [|eauto].
  exfalso. exact (populateDocument_faults _ _ _ _ _ E Hf).
Qed.

End AddMessageSteps.

(** X30: when an add-message request is answered 200, the message asked
    for was stored under a generated id and that id was appended to the
    chat that the id of the request names; exactly one event was emitted, a
    chatUpdate of type newMessage addressed to the room of the request's
    chat id, carrying what the answer carries, so each connection in that
    room has received exactly that one event and no other connection has.
    If the fourth store call (the population) goes through, the answer and
    the event carry that chat populated from the store as it is then, and,
    the generated id being unused before, its last message is the new one
    with its sender; if that call fails they carry an error object. *)
Theorem addMessage_persists_then_emits_one_newMessage
    (req : ChatController.AddMessageRequestToChat) (w w' : ChatController.World)
    (resp : ChatController.Response) :
  ChatController.addMessageToChatRoute req w = (w', inr resp) ->
  ChatController.status resp = 200 ->
  exists doc cid c0 pc,
    doc = mkMessageDoc (freshId (nextId (ChatController.db w)))
                       (default "" (ChatController.am_msg req))
                       (default "" (ChatController.am_msgFrom req))
                       (default (ChatController.now w) (ChatController.am_msgDateTime req))
                       "direct"
    /\ messageDocs (ChatController.db w') = messageDocs (ChatController.db w) ++ [doc]
    /\ toObjectId (ChatController.am_chatId req) = Some cid
    /\ findChat (ChatController.db w) cid = Some c0
    /\ findChat (ChatController.db w') cid
       = Some (mkChat cid (participants c0) (messages c0 ++ [doc_id doc]))
    /\ ChatController.emitted (ChatController.io w')
       = ChatController.emitted (ChatController.io w)
         ++ [ChatController.mkEmission "chatUpdate"
               (ChatController.mkChatUpdate pc "newMessage")
               (ChatController.ToRoom (ChatController.am_chatId req))
               (ChatController.subscribers (ChatController.am_chatId req)
                                           (ChatController.io w))]
    /\ ChatController.body resp = ChatController.Json pc
    /\ (forall conn,
          ChatController.inbox conn (ChatController.io w')
          = ChatController.inbox conn (ChatController.io w)
            ++ (if decide (conn ∈ ChatController.subscribers (ChatController.am_chatId req)
                                                             (ChatController.io w))
                then [ChatController.mkEmission "chatUpdate"
                        (ChatController.mkChatUpdate pc "newMessage")
                        (ChatController.ToRoom (ChatController.am_chatId req))
                        (ChatController.subscribers (ChatController.am_chatId req)
                                                    (ChatController.io w))]
                else []))
    /\ (~ failsAt (ChatController.db w) 3 ->
        pc = Doc (ChatController.mkChatJson cid (participants c0)
                    (ChatController.populateMessages (ChatController.db w')
                       (messages c0 ++ [doc_id doc])))
        /\ (findMessage (ChatController.db w) (doc_id doc) = None ->
            ChatController.populateMessages (ChatController.db w')
              (messages c0 ++ [doc_id doc])
            = ChatController.populateMessages (ChatController.db w') (messages c0)
              ++ [ChatController.MessageFull
                    (ChatController.mkPopulatedMessage doc
                       (findUser (ChatController.db w) (doc_msgFrom doc)))]))
    /\ (failsAt (ChatController.db w) 3 -> exists e, pc = ErrorObj e).
Proof.
  intros E Hs.
  destruct (addMessageToChatRoute_outcome req w) as (w1 & resp1 & E1 & Ho).
  rewrite E1 in E. injection E as <- <-.
  destruct Ho as [_| | | |d1 d2 d3 doc chat pc Hv H1 Ht H2 H3]; [discriminate..|].
  clear Hs E1.
  destruct (createMessage_faults _ _ _ _ H1) as (_ & _ & Hd1).
  pose proof (addMessageToChat_drop _ _ _ _ _ H2) as Hd2.
  assert (Hfail : failsAt d2 0 <-> failsAt (ChatController.db w) 3).
  { rewrite (failsAt_drop d1 d2 1 0 Hd2), (failsAt_drop (ChatController.db w) d1 2 1 Hd1).
    reflexivity. }
  destruct (createMessage_spec (requestedMessage req w) (ChatController.db w))
    as (d1' & r1 & E & Hu1 & Hc1 & Hr1).
  rewrite E in H1. injection H1 as -> ->. destruct Hr1 as (Hm1 & _ & Hdoc). clear E.
  simpl in Hdoc.
  destruct (addMessageToChat_spec (ChatController.am_chatId req) (doc_id doc) d1)
    as (d2' & r2 & E & Hu2 & Hm2 & _ & Hr2).
  rewrite E in H2. injection H2 as -> ->. clear E.
  destruct Hr2 as (cid & mid & Hcid & Hmid & Hup).
  assert (Hdid : doc_id doc = freshId (nextId (ChatController.db w)))
    by (rewrite Hdoc; reflexivity).
  rewrite Hdid, toObjectId_freshId in Hmid. injection Hmid as <-. rewrite <- Hdid in Hup.
  destruct (populateDocument_spec (Some (chat_id chat)) "chat" d2)
    as (d3' & r3 & E & Hu3 & Hm3 & Hc3 & _ & _).
  rewrite E in H3. injection H3 as -> ->.
  destruct (updateFirst_Some _ _ _ _ _ Hup) as (c0 & Hf0 & Hchat & Hf' & _).
  pose proof (chat_id_of_updateFirst _ _ _ _ _ Hup) as Hcc.
  assert (Hc0 : chat_id c0 = cid) by (rewrite <- Hcc, Hchat; reflexivity).
  assert (Hchat' : chat = mkChat cid (participants c0) (messages c0 ++ [doc_id doc]))
    by (rewrite Hchat, <- Hc0; reflexivity).
  assert (Hpm : forall ids, ChatController.populateMessages d2 ids
                            = ChatController.populateMessages d3 ids)
    by (intros ids; symmetry; apply populateMessages_ext; assumption).
  exists doc, cid, c0, pc. simpl.
  split; [exact Hdoc|].
  split; [congruence|].
  split; [exact Hcid|].
  split; [unfold findChat; rewrite <- Hc1; exact Hf0|].
  split; [unfold findChat; rewrite Hc3, <- Hchat'; exact Hf'|].
  split; [reflexivity|].
  split; [reflexivity|].
  split; [intros conn; apply inbox_emit|].
  split.
  - intros Hnf. rewrite <- Hfail in Hnf.
    destruct (populateDocument_ok (chat_id chat) cid chat d2) as (d' & Ep);
      [rewrite Hcc; exact (toObjectId_idem _ _ Hcid)|exact Hf'|exact Hnf|].
    rewrite Ep in E. injection E as _ <-.
    split; [rewrite Hchat'; simpl; rewrite Hpm; reflexivity|].
    intros Hfresh. rewrite <- !Hpm.
    assert (Hfm : findMessage d2 (doc_id doc) = Some doc).
    { unfold findMessage in *. rewrite Hm2, Hm1, find_snoc, Hfresh.
      rewrite String.eqb_refl. reflexivity. }
    rewrite (populateMessages_snoc d2 _ _ _ Hfm).
    unfold findUser. rewrite Hu2, Hu1. reflexivity.
  - intros Hf. rewrite <- Hfail in Hf.
    destruct (populateDocument_down (Some (chat_id chat)) "chat" d2 Hf) as (d' & e & Ep).
    rewrite Ep in E. injection E as _ <-. eauto.
Qed.

Lemma subscribers_sample :
  ChatController.subscribers id_c1 io_sample = {[1; 2]}.
Proof.
  unfold ChatController.subscribers, io_sample; simpl.
  rewrite lookup_singleton_eq. reflexivity.
Qed.

Lemma addMessage_persists_then_emits_one_newMessage_witness :
  exists w' resp,
    ChatController.addMessageToChatRoute
      (ChatController.mkAddMessageRequest id_c1 (Some "hi") (Some "alice") None)
      world_sample = (w', inr resp)
    /\ ChatController.status resp = 200
    /\ ~ failsAt db_sample 3
    /\ messageDocs (ChatController.db w')
       = messageDocs db_sample ++ [mkMessageDoc (freshId 0) "hi" "alice" 100 "direct"]
    /\ findChat (ChatController.db w') id_c1
       = Some (mkChat id_c1 ["alice"; id_u3] [id_m1; freshId 0])
    /\ ChatController.emitted (ChatController.io w')
       = [ChatController.mkEmission "chatUpdate"
            (ChatController.mkChatUpdate
               (Doc (ChatController.mkChatJson id_c1 ["alice"; id_u3]
                       [ChatController.MessageFull
                          (ChatController.mkPopulatedMessage
                             (mkMessageDoc id_m1 "hello" "alice" 10 "direct")
                             (Some (mkUser id_u1 "alice")));
                        ChatController.MessageFull
                          (ChatController.mkPopulatedMessage
                             (mkMessageDoc (freshId 0) "hi" "alice" 100 "direct")
                             (Some (mkUser id_u1 "alice")))]))
               "newMessage")
            (ChatController.ToRoom id_c1) {[1; 2]}]
    /\ length (ChatController.inbox 1 (ChatController.io w')) = 1%nat
    /\ length (ChatController.inbox 2 (ChatController.io w')) = 1%nat
    /\ ChatController.inbox 3 (ChatController.io w') = [].
Proof.
  pose (req := ChatController.mkAddMessageRequest id_c1 (Some "hi") (Some "alice") None).
  pose (r := ChatController.addMessageToChatRoute req world_sample).
  pose (resp := ChatController.json
                  (Doc (ChatController.mkChatJson id_c1 ["alice"; id_u3]
                          [ChatController.MessageFull
                             (ChatController.mkPopulatedMessage
                                (mkMessageDoc id_m1 "hello" "alice" 10 "direct")
                                (Some (mkUser id_u1 "alice")));
                           ChatController.MessageFull
                             (ChatController.mkPopulatedMessage
                                (mkMessageDoc (freshId 0) "hi" "alice" 100 "direct")
                                (Some (mkUser id_u1 "alice")))]))).
  assert (Hr : r = (fst r, inr resp)) by (vm_compute; reflexivity).
  assert (Hnf : ~ failsAt db_sample 3) by (intros H; exact H).
  exists (fst r), resp.
  destruct (addMessage_persists_then_emits_one_newMessage req world_sample (fst r) resp
              Hr eq_refl)
    as (doc & cid & c0 & pc & Hdoc & Hm & Hcid & Hc0 & Hc & Hem & Hb & Hin & Hok & _).
  assert (cid = id_c1) as -> by (vm_compute in Hcid; congruence).
  assert (c0 = mkChat id_c1 ["alice"; id_u3] [id_m1]) as ->
    by (vm_compute in Hc0; congruence).
  destruct (Hok Hnf) as [Hpc _].
  assert (Hpc' : ChatController.Json pc = ChatController.body resp) by (symmetry; exact Hb).
  injection Hpc' as ->.
  subst doc.
  split; [exact Hr|]. split; [reflexivity|]. split; [exact Hnf|].
  split; [exact Hm|]. split; [exact Hc|].
  split; [rewrite Hem; change (ChatController.am_chatId req) with id_c1;
          change (ChatController.io world_sample) with io_sample;
          rewrite subscribers_sample; reflexivity|].
  rewrite !Hin. change (ChatController.am_chatId req) with id_c1.
  change (ChatController.io world_sample) with io_sample.
  rewrite subscribers_sample.
  split; [rewrite decide_True by set_solver; reflexivity|].
  split; [rewrite decide_True by set_solver; reflexivity|].
  rewrite decide_False by set_solver. reflexivity.
Defined.

(** C5, on the code: alice, a participant of chat [c1], sends a message
    and the store fails at the fourth call, when the updated chat is
    populated.  The message is stored and appended to the chat and the
    request is answered 200; the one event emitted to the room of the chat,
    which connections 1 and 2 receive, carries the error object of the
    population and no message.  (The route that reads a chat checks the
    result of the population: the same failure there is answered 500.) *)
Theorem addMessage_announces_failed_population :
  exists w' w'',
    ChatController.addMessageToChatRoute
      (ChatController.mkAddMessageRequest id_c1 (Some "hi") (Some "alice") None)
      world_failing_late
    = (w', inr (ChatController.mkResponse 200
                  (ChatController.Json
                     (ErrorObj ("Error when fetching and populating a document: "
                                +:+ "connection closed")))))
    /\ messageDocs (ChatController.db w')
       = messageDocs db_sample ++ [mkMessageDoc (freshId 0) "hi" "alice" 100 "direct"]
    /\ findChat (ChatController.db w') id_c1
       = Some (mkChat id_c1 ["alice"; id_u3] [id_m1; freshId 0])
    /\ ChatController.emitted (ChatController.io w')
       = [ChatController.mkEmission "chatUpdate"
            (ChatController.mkChatUpdate
               (ErrorObj ("Error when fetching and populating a document: "
                          +:+ "connection closed"))
               "newMessage")
            (ChatController.ToRoom id_c1) {[1; 2]}]
    /\ ChatController.inbox 1 (ChatController.io w')
       = ChatController.emitted (ChatController.io w')
    /\ ChatController.inbox 2 (ChatController.io w')
       = ChatController.emitted (ChatController.io w')
    /\ ChatReads.getChatRoute id_c1
         (ChatController.mkWorld
            (set_faults [None; Some (mkError "MongoNetworkError" "connection closed")]
                        db_sample)
            io_sample 100)
       = (w'', inr (ChatController.send 500
                      ("Error occurred while retrieving the chat: "
                       +:+ "Error when fetching and populating a document: "
                       +:+ "connection closed"))).
Proof.
  pose (r := ChatController.addMessageToChatRoute
               (ChatController.mkAddMessageRequest id_c1 (Some "hi") (Some "alice") None)
               world_failing_late).
  pose (r' := ChatReads.getChatRoute id_c1
                (ChatController.mkWorld
                   (set_faults [None; Some (mkError "MongoNetworkError" "connection closed")]
                               db_sample)
                   io_sample 100)).
  assert (Hr : r = (fst r,
                    inr (ChatController.mkResponse 200
                           (ChatController.Json
                              (ErrorObj ("Error when fetching and populating a document: "
                                         +:+ "connection closed"))))))
    by (vm_compute; reflexivity).
  assert (Hr' : r' = (fst r',
                      inr (ChatController.send 500
                             ("Error occurred while retrieving the chat: "
                              +:+ "Error when fetching and populating a document: "
                              +:+ "connection closed"))))
    by (vm_compute; reflexivity).
  exists (fst r), (fst r').
  split; [exact Hr|]. split; [vm_compute; reflexivity|]. split; [vm_compute; reflexivity|].
  split; [vm_compute; reflexivity|]. split; [vm_compute; reflexivity|].
  split; [vm_compute; reflexivity|exact Hr'].
Qed.

(** ** Reading chats *)
Section ReadLemmas.
Import ChatController ChatReads.

Lemma matchesAll_spec (p : list string) (c : Chat) :
  matchesAll p c = true <-> p <> [] /\ forall x, x ∈ p -> x ∈ participants c.
Proof.
  assert (H : forallb (fun x => existsb (String.eqb x) (participants c)) p = true
              <-> forall x, x ∈ p -> x ∈ participants c).
  { rewrite forallb_forall. split; intros H x Hx.
    - apply list_elem_of_In in Hx. specialize (H x Hx).
      apply existsb_exists in H. destruct H as (y & Hy & He).
      apply String.eqb_eq in He. subst. apply list_elem_of_In. exact Hy.
    - apply existsb_exists. exists x. split; [|apply String.eqb_refl].
      apply list_elem_of_In, H, list_elem_of_In. exact Hx. }
  unfold matchesAll. destruct p as [|a p]; [split; [discriminate|intros [Hn _]; congruence]|].
  rewrite H. split; [intros Hx; split; [discriminate|exact Hx]|intros [_ Hx]; exact Hx].
Qed.

Lemma filter_sublist {A} (f : A -> bool) (l : list A) : sublist (List.filter f l) l.
Proof.
  induction l as [|a l IH]; simpl; [constructor|].
  destruct (f a); [apply sublist_skip|apply sublist_cons]; assumption.
Qed.

Lemma getChatsByParticipants_eq (p : list string) (d : Db) :
  exists d', getChatsByParticipants p d
             = (d', inr (if decide (failsAt d 0) then []
                         else List.filter (matchesAll p) (chatDocs d)))
    /\ users d' = users d /\ messageDocs d' = messageDocs d
    /\ chatDocs d' = chatDocs d /\ nextId d' = nextId d
    /\ faults d' = drop 1 (faults d).
Proof.
  destruct d as [us ms cs n fs].
  unfold getChatsByParticipants, ChatModel_find_all, storeCall, failsAt; unfold_m; simpl.
  destruct fs as [|[e|] fs]; simpl; eexists; (split; [reflexivity|]); simpl; auto.
Qed.

Lemma getChat_spec (chatId : string) (d : Db) :
  exists d' r, getChat chatId d = (d', inr r)
    /\ users d' = users d /\ messageDocs d' = messageDocs d
    /\ chatDocs d' = chatDocs d /\ nextId d' = nextId d
    /\ match toObjectId chatId with
       | None =>
           d' = d
           /\ exists e, err_name e = "CastError"
                /\ r = ErrorObj (caught "Error occurred while retrieving chat: " e)
       | Some cid =>
           faults d' = drop 1 (faults d)
           /\ match r with
              | Doc c => findChat d cid = Some c /\ ~ failsAt d 0
              | ErrorObj e =>
                  failsAt d 0
                  \/ (findChat d cid = None
                      /\ e = "Error occurred while retrieving chat: Error: Chat not found.message")
              end
       end.
Proof.
  destruct d as [us ms cs n fs].
  unfold getChat, ChatModel_findById, castObjectId, storeCall, findChat, failsAt;
    unfold_m; simpl.
  destruct (toObjectId chatId) as [cid|]; simpl.
  - destruct fs as [|[e|] fs]; simpl; repeat case_step; eauto 12.
  - eexists _, _. split; [reflexivity|]. simpl.
    repeat (split; [reflexivity|]). eexists. split; [|reflexivity]. reflexivity.
Qed.

End ReadLemmas.

(** X1: [getChatsByParticipants] answers with the stored chats that list
    every given participant, in stored order, and with none when no
    participant is given; when the store call fails it answers with the
    empty list instead of an error; it changes no collection. *)
Theorem getChatsByParticipants_result (p : list string) (d : Db) :
  exists d' chats,
    ChatReads.getChatsByParticipants p d = (d', inr chats)
    /\ users d' = users d /\ messageDocs d' = messageDocs d /\ chatDocs d' = chatDocs d
    /\ sublist chats (chatDocs d)
    /\ (failsAt d 0 -> chats = [])
    /\ (~ failsAt d 0 ->
        forall c, c ∈ chats <->
                  c ∈ chatDocs d /\ p <> [] /\ forall x, x ∈ p -> x ∈ participants c).
Proof.
  destruct (getChatsByParticipants_eq p d) as (d' & E & Hu & Hm & Hc & _).
  eexists _, _. split; [exact E|].
  split; [exact Hu|]. split; [exact Hm|]. split; [exact Hc|].
  destruct (decide (failsAt d 0)) as [Hf|Hf].
  - split; [apply sublist_nil_l|]. split; [reflexivity|contradiction].
  - split; [apply filter_sublist|]. split; [contradiction|].
    intros _ c. rewrite !list_elem_of_In, filter_In, matchesAll_spec. reflexivity.
Qed.

Lemma getChatsByParticipants_result_witness :
  ~ failsAt db_sample 0
  /\ failsAt db_down 0
  /\ (exists d', ChatReads.getChatsByParticipants [id_u3; "alice"] db_sample
                 = (d', inr [mkChat id_c1 ["alice"; id_u3] [id_m1]]))
  /\ (exists d', ChatReads.getChatsByParticipants ["bob"] db_sample = (d', inr []))
  /\ (exists d', ChatReads.getChatsByParticipants ["alice"] db_down = (d', inr [])).
Proof.
  assert (H1 : ~ failsAt db_sample 0) by (intros H; exact H).
  assert (H2 : failsAt db_down 0) by exact I.
  split; [exact H1|]. split; [exact H2|]. split; [|split].
  - destruct (getChatsByParticipants_result [id_u3; "alice"] db_sample)
      as (d' & chats & E & _ & _ & _ & _ & _ & Hin).
    exists d'. rewrite E. vm_compute in E. injection E as _ <-. reflexivity.
  - destruct (getChatsByParticipants_result ["bob"] db_sample)
      as (d' & chats & E & _ & _ & _ & _ & _ & Hin).
    exists d'. rewrite E. f_equal. f_equal.
    destruct chats as [|c chats]; [reflexivity|]. exfalso.
    destruct (proj1 (Hin H1 c)) as (Hc & _ & Hp); [apply elem_of_cons; left; reflexivity|].
    specialize (Hp "bob" ltac:(apply elem_of_cons; left; reflexivity)).
    unfold db_sample in Hc; simpl in Hc. apply elem_of_cons in Hc.
    destruct Hc as [->|Hc]; [|apply elem_of_nil in Hc; exact Hc].
    simpl in Hp. rewrite !elem_of_cons in Hp.
    destruct Hp as [Hp|[Hp|Hp]]; [discriminate..|]. apply elem_of_nil in Hp. exact Hp.
  - destruct (getChatsByParticipants_result ["alice"] db_down)
      as (d' & chats & E & _ & _ & _ & _ & Hf & _).
    exists d'. rewrite E, (Hf H2). reflexivity.
Defined.

Section ReadRoutes.
Import ChatController ChatReads.

Lemma getChatRoute_getChat_error (chatId : string) (w : World) (d1 : Db) (e : string) :
  getChat chatId (db w) = (d1, inr (ErrorObj e)) ->
  getChatRoute chatId w
  = (withDb d1 w, inr (send 500 ("Error occurred while retrieving the chat: " +:+ e))).
Proof.
  intros H. unfold getChatRoute, liftDb, orThrow; unfold_m; simpl. rewrite H. reflexivity.
Qed.

Lemma getChatRoute_populate_error
    (chatId : string) (w : World) (d1 d2 : Db) (c : Chat) (e : string) :
  getChat chatId (db w) = (d1, inr (Doc c)) ->
  populateDocument (Some (chat_id c)) "chat" d1 = (d2, inr (ErrorObj e)) ->
  getChatRoute chatId w
  = (withDb d2 w, inr (send 500 ("Error occurred while retrieving the chat: " +:+ e))).
Proof.
  intros H1 H2. unfold getChatRoute, liftDb, orThrow; unfold_m; simpl.
  rewrite H1; simpl. rewrite H2. reflexivity.
Qed.

Lemma getChatRoute_ok (chatId : string) (w : World) (d1 d2 : Db) (c : Chat) (j : ChatJson) :
  getChat chatId (db w) = (d1, inr (Doc c)) ->
  populateDocument (Some (chat_id c)) "chat" d1 = (d2, inr (Doc j)) ->
  getChatRoute chatId w = (withDb d2 w, inr (json (Doc j))).
Proof.
  intros H1 H2. unfold getChatRoute, liftDb, orThrow; unfold_m; simpl.
  rewrite H1; simpl. rewrite H2. reflexivity.
Qed.

Lemma findChat_id (d : Db) (id : string) (c : Chat) :
  findChat d id = Some c -> chat_id c = id.
Proof.
  intros H. apply find_some in H. destruct H as [_ H]. apply String.eqb_eq. exact H.
Qed.

End ReadRoutes.

(** X2: [getChatRoute] only reads: it changes no collection, emits nothing
    and leaves the rooms alone.  It answers 200 or 500; a 200 carries the
    stored chat that the id names, with its messages populated, never an
    error object: a failure of the lookup or of the population is a 500,
    and when the chat is there and both store calls go through the answer
    is a 200.  An id that is no [ObjectId] is a 500 that carries the
    [CastError] of the lookup, and the store is not called; the id of no
    chat is a 500 whose text stacks the two prefixes around
    [Error: Chat not found.message]. *)
Theorem getChatRoute_reads_only (chatId : string) (w : ChatController.World) :
  exists w' resp,
    ChatReads.getChatRoute chatId w = (w', inr resp)
    /\ ChatController.io w' = ChatController.io w
    /\ users (ChatController.db w') = users (ChatController.db w)
    /\ messageDocs (ChatController.db w') = messageDocs (ChatController.db w)
    /\ chatDocs (ChatController.db w') = chatDocs (ChatController.db w)
    /\ (ChatController.status resp = 200 \/ ChatController.status resp = 500)
    /\ (ChatController.status resp = 200 ->
        exists cid c, toObjectId chatId = Some cid
          /\ findChat (ChatController.db w) cid = Some c
          /\ ChatController.body resp
             = ChatController.Json
                 (Doc (ChatController.mkChatJson cid (participants c)
                         (ChatController.populateMessages (ChatController.db w)
                                                          (messages c)))))
    /\ (failsAt (ChatController.db w) 0 \/ failsAt (ChatController.db w) 1 ->
        ChatController.status resp = 500)
    /\ (forall c, chatNamed (ChatController.db w) chatId = Some c ->
        ~ failsAt (ChatController.db w) 0 -> ~ failsAt (ChatController.db w) 1 ->
        ChatController.status resp = 200)
    /\ (toObjectId chatId = None ->
        ChatController.db w' = ChatController.db w
        /\ exists e, err_name e = "CastError"
             /\ resp = ChatController.send 500
                         ("Error occurred while retrieving the chat: "
                          +:+ caught "Error occurred while retrieving chat: " e))
    /\ (forall cid, toObjectId chatId = Some cid ->
        ~ failsAt (ChatController.db w) 0 ->
        findChat (ChatController.db w) cid = None ->
        resp = ChatController.send 500
                 ("Error occurred while retrieving the chat: "
                  +:+ "Error occurred while retrieving chat: "
                  +:+ "Error: Chat not found.message")).
Proof.
  destruct (getChat_spec chatId (ChatController.db w))
    as (d1 & r1 & E1 & Hu1 & Hm1 & Hc1 & _ & Hr1).
  unfold chatNamed.
  destruct (toObjectId chatId) as [cid|] eqn:Hcid.
  2:{ destruct Hr1 as (-> & e & He & ->).
      eexists _, _. split; [eapply getChatRoute_getChat_error; eassumption|]. simpl.
      split; [reflexivity|]. split; [reflexivity|]. split; [reflexivity|].
      split; [reflexivity|]. split; [right; reflexivity|]. split; [discriminate|].
      split; [reflexivity|]. split; [discriminate|].
      split; [|discriminate]. intros _. split; [reflexivity|]. exists e. auto. }
  destruct Hr1 as [Hf1 Hr1].
  destruct r1 as [c|e].
  - destruct Hr1 as [Hfind Hnf].
    pose proof (findChat_id _ _ _ Hfind) as Hid.
    destruct (populateDocument_spec (Some (chat_id c)) "chat" d1)
      as (d2 & r2 & E2 & Hu2 & Hm2 & Hc2 & _ & Hr2).
    assert (Hfind1 : findChat d1 cid = Some c) by (unfold findChat in *; congruence).
    assert (Hpm : ChatController.populateMessages d1 (messages c)
                  = ChatController.populateMessages (ChatController.db w) (messages c))
      by (apply populateMessages_ext; assumption).
    destruct r2 as [j|e].
    + eexists _, _. split; [eapply getChatRoute_ok; eassumption|]. simpl.
      split; [reflexivity|]. split; [congruence|]. split; [congruence|].
      split; [congruence|]. split; [left; reflexivity|]. split; [|split; [|split; [|split]]].
      * intros _. exists cid, c. split; [reflexivity|]. split; [assumption|].
        destruct Hr2 as (i & cid' & c' & [= <-] & Hcast & Hf' & ->).
        rewrite Hid, (toObjectId_idem _ _ Hcid) in Hcast. injection Hcast as <-.
        assert (c' = c) as -> by congruence.
        rewrite Hid, Hpm. reflexivity.
      * intros [Hf|Hf]; [contradiction|]. exfalso.
        apply (populateDocument_faults _ _ _ _ _ E2).
        apply (failsAt_drop (ChatController.db w) d1 1 0 Hf1). exact Hf.
      * reflexivity.
      * discriminate.
      * intros cid' [= <-] _ Hnone. congruence.
    + eexists _, _. split; [eapply getChatRoute_populate_error; eassumption|]. simpl.
      split; [reflexivity|]. split; [congruence|]. split; [congruence|].
      split; [congruence|]. split; [right; reflexivity|]. split; [discriminate|].
      split; [reflexivity|]. split; [|split; [discriminate|]].
      * intros c' Hc' _ Hnf1. exfalso.
        destruct (populateDocument_ok (chat_id c) cid c d1) as (d' & Ep);
          [rewrite Hid; exact (toObjectId_idem _ _ Hcid)|exact Hfind1| |].
        -- intros Hf. apply Hnf1.
           apply (failsAt_drop (ChatController.db w) d1 1 0 Hf1). exact Hf.
        -- rewrite Ep in E2. discriminate.
      * intros cid' [= <-] _ Hnone. congruence.
  - eexists _, _. split; [eapply getChatRoute_getChat_error; eassumption|]. simpl.
    split; [reflexivity|]. split; [congruence|]. split; [congruence|].
    split; [congruence|]. split; [right; reflexivity|]. split; [discriminate|].
    split; [reflexivity|]. split; [|split; [discriminate|]].
    + intros c Hc Hnf0 _. destruct Hr1 as [Hf|[Hnone _]]; [contradiction|congruence].
    + intros cid' [= <-] Hnf Hnone.
      destruct Hr1 as [Hf|[_ ->]]; [contradiction|reflexivity].
Qed.

Lemma getChatRoute_reads_only_witness :
  (exists w' resp,
      ChatReads.getChatRoute id_c1 world_sample = (w', inr resp)
      /\ ChatController.status resp = 200
      /\ ChatController.io w' = io_sample)
  /\ (exists w', ChatReads.getChatRoute id_c9 world_sample
                 = (w', inr (ChatController.send 500
                               ("Error occurred while retrieving the chat: "
                                +:+ "Error occurred while retrieving chat: "
                                +:+ "Error: Chat not found.message"))))
  /\ (exists w' resp,
        ChatReads.getChatRoute "zz" world_down = (w', inr resp)
        /\ ChatController.status resp = 500
        /\ ChatController.db w' = db_down)
  /\ (exists w' resp,
        ChatReads.getChatRoute id_c1 world_down = (w', inr resp)
        /\ ChatController.status resp = 500).
Proof.
  split; [|split; [|split]].
  - destruct (getChatRoute_reads_only id_c1 world_sample)
      as (w' & resp & E & Hio & _ & _ & _ & _ & _ & _ & Hok & _).
    exists w', resp. split; [exact E|]. split; [|exact Hio].
    apply (Hok (mkChat id_c1 ["alice"; id_u3] [id_m1])); [reflexivity|intros H; exact H..].
  - destruct (getChatRoute_reads_only id_c9 world_sample)
      as (w' & resp & E & _ & _ & _ & _ & _ & _ & _ & _ & _ & Hnone).
    exists w'. rewrite E, (Hnone id_c9); [reflexivity|reflexivity|intros H; exact H|reflexivity].
  - destruct (getChatRoute_reads_only "zz" world_down)
      as (w' & resp & E & _ & _ & _ & _ & _ & _ & _ & _ & Hbad & _).
    destruct (Hbad eq_refl) as (Hdb & e & He & ->).
    eexists _, _. split; [exact E|]. split; [reflexivity|exact Hdb].
  - destruct (getChatRoute_reads_only id_c1 world_down)
      as (w' & resp & E & _ & _ & _ & _ & _ & _ & Hf & _).
    exists w', resp. split; [exact E|]. apply Hf. left. exact I.
Defined.

Section ListRoute.
Import ChatController ChatReads.

Lemma promiseAll_populate (chats : list Chat) (d : Db) :
  exists d' rs,
    promiseAll (map (fun chat => populateDocument (Some (chat_id chat)) "chat") chats) d
    = (d', inr rs)
    /\ users d' = users d /\ messageDocs d' = messageDocs d /\ chatDocs d' = chatDocs d
    /\ Forall2 (fun c r => forall j, r = Doc j ->
                              toObjectId (chat_id c) = Some (json_id j) /\ populated j = true)
               chats rs.
Proof.
  revert d. induction chats as [|c chats IH]; intros d; simpl.
  - exists d, []. repeat split; constructor.
  - destruct (populateDocument_spec (Some (chat_id c)) "chat" d)
      as (d1 & r1 & E1 & Hu1 & Hm1 & Hc1 & _ & _).
    rewrite E1.
    destruct (IH d1) as (d2 & rs & E2 & Hu2 & Hm2 & Hc2 & HF).
    rewrite E2. exists d2, (r1 :: rs).
    split; [reflexivity|]. split; [congruence|]. split; [congruence|]. split; [congruence|].
    constructor; [|exact HF].
    intros j ->. destruct (populateDocument_populated _ _ _ _ E1) as (Hp & i & [= <-] & Hid).
    split; [exact Hid|exact Hp].
Qed.

Lemma all_docs {A} (rs : list (OrError A)) :
  existsb isErrorObj rs = false -> exists js, rs = map Doc js.
Proof.
  induction rs as [|[a|e] rs IH]; simpl; intros H.
  - exists []. reflexivity.
  - destruct (IH H) as (js & ->). exists (a :: js). reflexivity.
  - discriminate.
Qed.

Lemma filter_matchesAll_one (u : string) (l : list Chat) :
  List.filter (matchesAll [u]) l = filter (fun c => u ∈ participants c) l.
Proof.
  induction l as [|c l IH]; [reflexivity|]. cbn [List.filter]. rewrite filter_cons, <- IH.
  destruct (matchesAll [u] c) eqn:E.
  - apply matchesAll_spec in E. destruct E as [_ E].
    rewrite decide_True; [reflexivity|]. apply E, elem_of_cons. left. reflexivity.
  - rewrite decide_False; [reflexivity|]. intros Hin.
    assert (matchesAll [u] c = true); [|congruence].
    apply matchesAll_spec. split; [discriminate|].
    intros x Hx. apply elem_of_cons in Hx. destruct Hx as [->|Hx]; [exact Hin|].
    apply elem_of_nil in Hx. contradiction.
Qed.

End ListRoute.

(** X3: [getChatsByUserRoute] only reads.  It answers 200 or 500.  When the
    lookup of the chats fails in the store, the failure is swallowed and the
    answer is 200 with an empty list.  A 200 after a lookup that went
    through lists one populated chat for each stored chat that has the
    user among its participants, in stored order, each under the
    [ObjectId] that the id of the stored chat is cast to (the id itself,
    in a store whose ids are [ObjectId]s); an error object among the
    populated chats makes the answer a 500. *)
Theorem getChatsByUserRoute_lists (username : string) (w : ChatController.World) :
  exists w' resp,
    ChatReads.getChatsByUserRoute username w = (w', inr resp)
    /\ ChatController.io w' = ChatController.io w
    /\ users (ChatController.db w') = users (ChatController.db w)
    /\ messageDocs (ChatController.db w') = messageDocs (ChatController.db w)
    /\ chatDocs (ChatController.db w') = chatDocs (ChatController.db w)
    /\ (ChatReads.list_status resp = 200 \/ ChatReads.list_status resp = 500)
    /\ (failsAt (ChatController.db w) 0 ->
        resp = ChatReads.mkListResponse 200 (ChatReads.JsonList []))
    /\ (ChatReads.list_status resp = 200 -> ~ failsAt (ChatController.db w) 0 ->
        exists js,
          ChatReads.list_body resp = ChatReads.JsonList (map Doc js)
          /\ Forall (fun j => ChatController.populated j = true) js
          /\ map (fun j => Some (ChatController.json_id j)) js
             = map (fun c => toObjectId (chat_id c))
                   (filter (fun c => username ∈ participants c)
                           (chatDocs (ChatController.db w)))
          /\ (Forall (fun c => toObjectId (chat_id c) = Some (chat_id c))
                     (chatDocs (ChatController.db w)) ->
              map ChatController.json_id js
              = map chat_id (filter (fun c => username ∈ participants c)
                                    (chatDocs (ChatController.db w))))).
Proof.
  destruct (getChatsByParticipants_eq [username] (ChatController.db w))
    as (d1 & E1 & Hu1 & Hm1 & Hc1 & _).
  set (chats := if decide (failsAt (ChatController.db w) 0) then []
                else List.filter (ChatReads.matchesAll [username])
                                 (chatDocs (ChatController.db w))) in *.
  destruct (promiseAll_populate chats d1) as (d2 & rs & E2 & Hu2 & Hm2 & Hc2 & HF).
  assert (Hroute : ChatReads.getChatsByUserRoute username w
                   = (withDb d2 w,
                      inr (if existsb ChatReads.isErrorObj rs
                           then ChatReads.mkListResponse 500
                                  (ChatReads.ListText
                                     ("Error occurred while retrieving chats: "
                                      +:+ "Failed to populate all fetched chats"))
                           else ChatReads.mkListResponse 200 (ChatReads.JsonList rs)))).
  { unfold ChatReads.getChatsByUserRoute, ChatController.liftDb; unfold_m; simpl.
    rewrite E1; simpl. rewrite E2; simpl.
    destruct (existsb ChatReads.isErrorObj rs); reflexivity. }
  eexists _, _. split; [exact Hroute|]. simpl.
  split; [reflexivity|]. split; [congruence|]. split; [congruence|]. split; [congruence|].
  split; [destruct (existsb _ rs); auto|].
  split.
  - intros Hf. subst chats. rewrite decide_True in HF by assumption.
    inversion HF; subst. reflexivity.
  - intros Hs Hnf. destruct (existsb ChatReads.isErrorObj rs) eqn:Ee; [discriminate|].
    destruct (all_docs rs Ee) as (js & ->). exists js. split; [reflexivity|].
    subst chats. rewrite decide_False in HF by assumption.
    rewrite filter_matchesAll_one in HF.
    assert (Hsub : forall c, c ∈ filter (fun c => username ∈ participants c)
                                        (chatDocs (ChatController.db w))
                             -> c ∈ chatDocs (ChatController.db w))
      by (intros c Hc; apply list_elem_of_filter in Hc; tauto).
    clear -HF Hsub. revert HF Hsub.
    generalize (filter (fun c => username ∈ participants c) (chatDocs (ChatController.db w))).
    induction js as [|j js IH]; intros l HF Hsub; inversion HF; subst;
      [split; [constructor|split; [reflexivity|intros _; reflexivity]]|].
    match goal with H : Forall2 _ _ (map Doc js) |- _ =>
      destruct (IH _ H) as (Hp & Hi & Hk) end.
    { intros c Hc. apply Hsub. apply elem_of_cons. right. exact Hc. }
    match goal with H : forall j0, Doc j = Doc j0 -> _ |- _ =>
      destruct (H j eq_refl) as [Hid Hpop] end.
    split; [constructor; assumption|]. simpl.
    split; [congruence|]. intros Hcan. rewrite (Hk Hcan). f_equal.
    rewrite Forall_forall in Hcan.
    match goal with |- _ = chat_id ?c =>
      specialize (Hcan c (Hsub c ltac:(apply elem_of_cons; left; reflexivity))) end.
    congruence.
Qed.

Lemma getChatsByUserRoute_lists_witness :
  (exists w', ChatReads.getChatsByUserRoute "alice" world_down
              = (w', inr (ChatReads.mkListResponse 200 (ChatReads.JsonList []))))
  /\ (exists w' resp js,
        ChatReads.getChatsByUserRoute "alice" world_sample = (w', inr resp)
        /\ ChatReads.list_body resp = ChatReads.JsonList (map Doc js)
        /\ map ChatController.json_id js = [id_c1]).
Proof.
  split.
  - destruct (getChatsByUserRoute_lists "alice" world_down)
      as (w' & resp & E & _ & _ & _ & _ & _ & Hf & _).
    exists w'. rewrite E, (Hf I). reflexivity.
  - destruct (getChatsByUserRoute_lists "alice" world_sample)
      as (w' & resp & E & _ & _ & _ & _ & _ & _ & Hok).
    assert (Hs : ChatReads.list_status resp = 200)
      by (vm_compute in E; injection E as _ <-; reflexivity).
    destruct (Hok Hs (fun H => H)) as (js & Hb & _ & _ & Hids).
    exists w', resp, js. split; [exact E|]. split; [exact Hb|]. apply Hids.
    repeat constructor.
Defined.

(** ** Rooms and deliveries *)
Section RoomsMore.
Import ChatController.

Lemma subscribers_leave (c : N) (s r : string) (i : Io) :
  subscribers r (leave c s i)
  = if decide (s = r) then subscribers r i ∖ {[c]} else subscribers r i.
Proof.
  unfold subscribers, leave.
  destruct (rooms i !! s) as [S|] eqn:E; simpl.
  - rewrite lookup_insert. destruct (decide (s = r)); subst; [rewrite E|]; reflexivity.
  - destruct (decide (s = r)); subst; [rewrite E; simpl; set_solver|reflexivity].
Qed.

Lemma subscribers_on_leaveChat (c : N) (o : option string) (r : string) (i : Io) :
  subscribers r (on_leaveChat c o i)
  = if decide (o = Some r /\ r <> "") then subscribers r i ∖ {[c]} else subscribers r i.
Proof.
  unfold on_leaveChat. destruct o as [s|].
  - unfold truthy. destruct (String.eqb_spec s ""); simpl.
    + rewrite decide_False; [reflexivity|]. intros [[= ->] H]. contradiction.
    + rewrite subscribers_leave. destruct (decide (s = r)).
      * subst. rewrite decide_True by auto. reflexivity.
      * rewrite decide_False; [reflexivity|]. intros [[= ->] _]. contradiction.
  - rewrite decide_False; [reflexivity|]. intros [H _]. discriminate.
Qed.

Lemma on_leaveChat_frame (c : N) (o : option string) (i : Io) :
  conns (on_leaveChat c o i) = conns i /\ emitted (on_leaveChat c o i) = emitted i.
Proof.
  unfold on_leaveChat, leave. destruct o as [s|]; [|auto].
  destruct (truthy s); [|auto]. destruct (rooms i !! s); auto.
Qed.

End RoomsMore.

(** X4: [joinChat] and [leaveChat] of a connection touch only that
    connection in only that room: the connections and the emissions stay
    as they are, every other room keeps its subscribers, and every other
    connection keeps its membership of every room.  [joinChat] makes the
    connection a subscriber; [leaveChat] never adds a subscriber. *)
Theorem joinChat_leaveChat_touch_one_membership
    (c : N) (s : string) (o : option string) (i : ChatController.Io) :
  ChatController.conns (ChatController.on_joinChat c s i) = ChatController.conns i
  /\ ChatController.emitted (ChatController.on_joinChat c s i) = ChatController.emitted i
  /\ ChatController.conns (ChatController.on_leaveChat c o i) = ChatController.conns i
  /\ ChatController.emitted (ChatController.on_leaveChat c o i) = ChatController.emitted i
  /\ c ∈ ChatController.subscribers s (ChatController.on_joinChat c s i)
  /\ (forall r, r <> s ->
        ChatController.subscribers r (ChatController.on_joinChat c s i)
        = ChatController.subscribers r i)
  /\ (forall r, o <> Some r ->
        ChatController.subscribers r (ChatController.on_leaveChat c o i)
        = ChatController.subscribers r i)
  /\ (forall r c', c' <> c ->
        (c' ∈ ChatController.subscribers r (ChatController.on_joinChat c s i)
         <-> c' ∈ ChatController.subscribers r i)
        /\ (c' ∈ ChatController.subscribers r (ChatController.on_leaveChat c o i)
            <-> c' ∈ ChatController.subscribers r i))
  /\ (forall r, ChatController.subscribers r (ChatController.on_leaveChat c o i)
                ⊆ ChatController.subscribers r i).
Proof.
  destruct (on_leaveChat_frame c o i) as [Hlc Hle].
  split; [reflexivity|]. split; [reflexivity|]. split; [exact Hlc|]. split; [exact Hle|].
  unfold ChatController.on_joinChat.
  split; [rewrite subscribers_join, decide_True by reflexivity; set_solver|].
  split.
  { intros r Hr. rewrite subscribers_join, decide_False by congruence. reflexivity. }
  split.
  { intros r Hr. rewrite subscribers_on_leaveChat, decide_False; [reflexivity|].
    intros [H _]. contradiction. }
  split.
  - intros r c' Hc. rewrite subscribers_join, subscribers_on_leaveChat.
    destruct (decide (s = r)), (decide (o = Some r /\ r <> "")); subst; set_solver.
  - intros r. rewrite subscribers_on_leaveChat.
    destruct (decide (o = Some r /\ r <> "")); set_solver.
Qed.

Lemma joinChat_leaveChat_touch_one_membership_witness :
  (2 ∈ ChatController.subscribers id_c1 (ChatController.on_joinChat 3 id_c1 io_sample))
  /\ (2 ∈ ChatController.subscribers id_c1 (ChatController.on_leaveChat 1 (Some id_c1) io_sample))
  /\ ChatController.subscribers id_c1 (ChatController.on_joinChat 3 id_c2 io_sample)
     = ChatController.subscribers id_c1 io_sample
  /\ ChatController.subscribers id_c1 (ChatController.on_leaveChat 1 (Some id_c2) io_sample)
     = ChatController.subscribers id_c1 io_sample.
Proof.
  assert (H2 : 2 ∈ ChatController.subscribers id_c1 io_sample)
    by (rewrite subscribers_sample; set_solver).
  pose proof (joinChat_leaveChat_touch_one_membership 3 id_c1 (Some id_c1) io_sample)
    as (_ & _ & _ & _ & _ & _ & _ & Hj & _).
  pose proof (joinChat_leaveChat_touch_one_membership 1 id_c1 (Some id_c1) io_sample)
    as (_ & _ & _ & _ & _ & _ & _ & Hl & _).
  pose proof (joinChat_leaveChat_touch_one_membership 3 id_c2 (Some id_c2) io_sample)
    as (_ & _ & _ & _ & _ & Hjr & _).
  pose proof (joinChat_leaveChat_touch_one_membership 1 id_c2 (Some id_c2) io_sample)
    as (_ & _ & _ & _ & _ & _ & Hlr & _).
  split; [apply (Hj id_c1 2); [discriminate|exact H2]|].
  split; [apply (Hl id_c1 2); [discriminate|exact H2]|].
  split; [apply Hjr; discriminate|apply Hlr; discriminate].
Defined.

(** X5: for a connection that was not in the room of a non-empty chat id,
    [joinChat] followed by [leaveChat] gives every room the subscribers it
    had before. *)
Theorem joinChat_then_leaveChat_restores
    (c : N) (s : string) (i : ChatController.Io) :
  s <> "" ->
  c ∉ ChatController.subscribers s i ->
  forall r,
    ChatController.subscribers r
      (ChatController.on_leaveChat c (Some s) (ChatController.on_joinChat c s i))
    = ChatController.subscribers r i.
Proof.
  intros Hs Hc r. rewrite subscribers_on_leaveChat.
  unfold ChatController.on_joinChat. rewrite subscribers_join.
  destruct (decide (s = r)).
  - subst. rewrite decide_True by auto. set_solver.
  - rewrite decide_False; [reflexivity|]. intros [[= ->] _]. contradiction.
Qed.

Lemma joinChat_then_leaveChat_restores_witness :
  id_c1 <> ""
  /\ (3 ∉ ChatController.subscribers id_c1 io_sample)
  /\ ChatController.subscribers id_c1
       (ChatController.on_leaveChat 3 (Some id_c1) (ChatController.on_joinChat 3 id_c1 io_sample))
     = {[1; 2]}.
Proof.
  assert (H1 : id_c1 <> "") by discriminate.
  assert (H2 : 3 ∉ ChatController.subscribers id_c1 io_sample)
    by (rewrite subscribers_sample; set_solver).
  split; [exact H1|]. split; [exact H2|].
  rewrite (joinChat_then_leaveChat_restores 3 id_c1 io_sample H1 H2 id_c1).
  apply subscribers_sample.
Defined.

Section Deliveries.
Import ChatController.

Lemma inbox_on_joinChat (c c' : N) (s : string) (i : Io) :
  inbox c' (on_joinChat c s i) = inbox c' i.
Proof. reflexivity. Qed.



End Deliveries.



(** ** Writing chats *)
Section WriteLemmas.
Import ChatController.

Lemma updateFirst_split (id : ObjectId) (u : ChatPush) (cs cs' : list Chat) (c' : Chat) :
  updateFirst id u cs = Some (c', cs') ->
  exists pre c post,
    cs = pre ++ c :: post /\ cs' = pre ++ applyPush u c :: post
    /\ c' = applyPush u c /\ chat_id c = id
    /\ Forall (fun x => chat_id x <> id) pre.
Proof.
  revert cs' c'. induction cs as [|a cs IH]; intros cs' c'; simpl; [discriminate|].
  destruct (String.eqb_spec (chat_id a) id) as [He|Hne].
  - intros [= <- <-]. exists [], a, cs. simpl. auto 10.
  - destruct (updateFirst id u cs) as [[c1 cs1]|]; [|discriminate].
    intros [= <- <-]. destruct (IH _ _ eq_refl) as (pre & c & post & -> & -> & -> & Hid & Hpre).
    exists (a :: pre), c, post. simpl. auto 10.
Qed.

Lemma findChat_split (d : Db) (id : ObjectId) (c : Chat) (pre post : list Chat) :
  chatDocs d = pre ++ c :: post ->
  chat_id c = id ->
  Forall (fun x => chat_id x <> id) pre ->
  findChat d id = Some c.
Proof.
  intros Hcs Hid Hpre. unfold findChat. rewrite Hcs. clear Hcs. revert Hpre.
  induction pre as [|a pre IH]; simpl; intros Hpre.
  - rewrite Hid, String.eqb_refl. reflexivity.
  - inversion Hpre; subst.
    destruct (String.eqb_spec (chat_id a) (chat_id c)); [contradiction|auto].
Qed.

Lemma addMessageToChat_cases
    (chatId messageId : string) (cid mid : ObjectId) (d : Db) :
  toObjectId chatId = Some cid -> toObjectId messageId = Some mid ->
  exists d', users d' = users d /\ messageDocs d' = messageDocs d
    /\ nextId d' = nextId d /\ faults d' = drop 1 (faults d)
    /\ ((failsAt d 0 /\ chatDocs d' = chatDocs d
         /\ exists e, addMessageToChat chatId messageId d = (d', inr (ErrorObj e)))
        \/ (~ failsAt d 0 /\ findChat d cid = None /\ chatDocs d' = chatDocs d
            /\ addMessageToChat chatId messageId d
               = (d', inr (ErrorObj ("Error occurred while adding the message to chat: "
                                     +:+ "Error: Chat not found.message"))))
        \/ (~ failsAt d 0
            /\ exists c cs', updateFirst cid (PushMessage mid) (chatDocs d) = Some (c, cs')
                 /\ chatDocs d' = cs'
                 /\ addMessageToChat chatId messageId d = (d', inr (Doc c)))).
Proof.
  intros Hcid Hmid.
  destruct d as [us ms cs n fs].
  unfold addMessageToChat, ChatModel_findByIdAndUpdate, castObjectId, castUpdate, storeCall,
    failsAt, findChat; unfold_m; simpl.
  rewrite Hcid, Hmid; simpl.
  destruct (updateFirst cid (PushMessage mid) cs) as [[c cs']|] eqn:E.
  - destruct fs as [|[e|] fs]; simpl; rewrite ?E; simpl; eexists (mkDb _ _ _ _ _); simpl;
      repeat (split; [reflexivity|]);
      try solve [left; eauto]; right; right; (split; [tauto|]); eauto.
  - pose proof E as E'. apply updateFirst_None in E'.
    destruct fs as [|[e|] fs]; simpl; rewrite ?E; simpl; eexists (mkDb _ _ _ _ _); simpl;
      repeat (split; [reflexivity|]);
      try solve [left; eauto]; right; left; (split; [tauto|]); auto.
Qed.

(** An id that is no [ObjectId] stops [addMessageToChat] before the store
    is called. *)
Lemma addMessageToChat_cast_error (chatId messageId : string) (d : Db) :
  toObjectId chatId = None \/ toObjectId messageId = None ->
  exists e, err_name e = "CastError"
    /\ addMessageToChat chatId messageId d
       = (d, inr (ErrorObj (caught "Error occurred while adding the message to chat: " e))).
Proof.
  intros H.
  unfold addMessageToChat, ChatModel_findByIdAndUpdate, castObjectId, castUpdate;
    unfold_m; simpl.
  destruct (toObjectId chatId) as [cid|]; simpl.
  - destruct H as [H|H]; [discriminate|]. rewrite H; simpl.
    eexists. split; [|reflexivity]. reflexivity.
  - eexists. split; [|reflexivity]. reflexivity.
Qed.

End WriteLemmas.

(** X7: [addMessageToChat] casts both ids before it calls the store: when
    the chat id or the message id is no [ObjectId] it answers with an
    error that carries a [CastError] and the store is untouched, not even
    called.  Otherwise, when its store call goes through, it appends the
    message id to the messages of the first stored chat with the given id
    and changes nothing else: the participants of that chat, every other
    chat, the order of the chats and the other collections stay as they
    are (the id is appended whether or not a message with that id is
    stored); when there is no such chat the answer is the error
    [...Error: Chat not found.message] and no chat changes. *)
Theorem addMessageToChat_appends_to_first_chat
    (chatId messageId : string) (d : Db) :
  (toObjectId chatId = None \/ toObjectId messageId = None ->
   exists e, err_name e = "CastError"
     /\ addMessageToChat chatId messageId d
        = (d, inr (ErrorObj (caught "Error occurred while adding the message to chat: " e))))
  /\ (forall cid mid,
        toObjectId chatId = Some cid -> toObjectId messageId = Some mid ->
        ~ failsAt d 0 ->
        (findChat d cid = None ->
         exists d', addMessageToChat chatId messageId d
                    = (d', inr (ErrorObj ("Error occurred while adding the message to chat: "
                                          +:+ "Error: Chat not found.message")))
           /\ chatDocs d' = chatDocs d /\ messageDocs d' = messageDocs d)
        /\ (forall c, findChat d cid = Some c ->
            exists d' pre post,
              addMessageToChat chatId messageId d
              = (d', inr (Doc (mkChat cid (participants c) (messages c ++ [mid]))))
              /\ chatDocs d = pre ++ c :: post
              /\ chatDocs d' = pre ++ mkChat cid (participants c) (messages c ++ [mid])
                                      :: post
              /\ Forall (fun x => chat_id x <> cid) pre
              /\ messageDocs d' = messageDocs d /\ users d' = users d)).
Proof.
  split; [apply addMessageToChat_cast_error|].
  intros cid mid Hcid Hmid Hnf.
  destruct (addMessageToChat_cases chatId messageId cid mid d Hcid Hmid)
    as (d' & Hu & Hm & _ & _ & [(Hf & _)|[(_ & Hnone & Hc & E)|(_ & c' & cs' & Hup & Hc & E)]]);
    [contradiction| |].
  - split; [intros _; exists d'; auto|]. intros c Hc'. congruence.
  - destruct (updateFirst_split _ _ _ _ _ Hup) as (pre & c & post & Hcs & -> & -> & Hid & Hpre).
    pose proof (findChat_split d cid c pre post Hcs Hid Hpre) as Hfind.
    split; [intros H; congruence|].
    intros c0 Hc0. assert (c0 = c) as -> by congruence.
    exists d', pre, post. simpl in E, Hc. rewrite Hid in E, Hc.
    repeat split; auto.
Qed.

Lemma addMessageToChat_appends_to_first_chat_witness :
  ~ failsAt db_sample 0
  /\ (exists d', addMessageToChat id_c1 id_m7 db_sample
                 = (d', inr (Doc (mkChat id_c1 ["alice"; id_u3] [id_m1; id_m7])))
                 /\ chatDocs d' = [mkChat id_c1 ["alice"; id_u3] [id_m1; id_m7]])
  /\ (exists d', addMessageToChat id_c9 id_m7 db_sample
                 = (d', inr (ErrorObj ("Error occurred while adding the message to chat: "
                                       +:+ "Error: Chat not found.message")))
                 /\ chatDocs d' = chatDocs db_sample)
  /\ (exists e, addMessageToChat "c1" id_m7 db_down = (db_down, inr (ErrorObj e)))
  /\ (exists e, addMessageToChat id_c1 "m7" db_down = (db_down, inr (ErrorObj e))).
Proof.
  assert (Hnf : ~ failsAt db_sample 0) by (intros H; exact H).
  split; [exact Hnf|]. split; [|split; [|split]].
  - destruct (addMessageToChat_appends_to_first_chat id_c1 id_m7 db_sample) as [_ H].
    destruct (H id_c1 id_m7 eq_refl eq_refl Hnf) as [_ H'].
    destruct (H' (mkChat id_c1 ["alice"; id_u3] [id_m1]) eq_refl)
      as (d' & pre & post & E & Hcs & Hcs' & Hpre & _).
    exists d'. split; [exact E|].
    destruct pre as [|a pre]; [|destruct pre; discriminate Hcs].
    injection Hcs as <-. exact Hcs'.
  - destruct (addMessageToChat_appends_to_first_chat id_c9 id_m7 db_sample) as [_ H].
    destruct (H id_c9 id_m7 eq_refl eq_refl Hnf) as [H' _].
    destruct (H' eq_refl) as (d' & E & Hc & _). exists d'. auto.
  - destruct (addMessageToChat_appends_to_first_chat "c1" id_m7 db_down) as [H _].
    destruct (H (or_introl eq_refl)) as (e & _ & E). eexists. exact E.
  - destruct (addMessageToChat_appends_to_first_chat id_c1 "m7" db_down) as [H _].
    destruct (H (or_intror eq_refl)) as (e & _ & E). eexists. exact E.
Defined.

Section SaveChat.
Import ChatController.



End SaveChat.



(** X9: a chat that [saveChat] has just created is what [getChat] answers
    for its id, when no stored chat had that id before and the store call
    of [getChat] goes through. *)
Theorem saveChat_then_getChat (p : CreateChatPayload) (d d' : Db) (c : Chat) :
  saveChat p d = (d', inr (Doc c)) ->
  findChat d (chat_id c) = None ->
  ~ failsAt d' 0 ->
  exists d'', getChat (chat_id c) d' = (d'', inr (Doc c)).
Proof.
  intros E Hfresh Hnf.
  destruct (saveChat_chat_id _ _ _ _ E) as (n & Hn).
  destruct (saveChat_spec p d) as (d1 & r & docs & E1 & _ & _ & Hr).
  rewrite E1 in E. injection E as -> ->. destruct Hr as (Hc & _).
  destruct (getChat_spec (chat_id c) d') as (d'' & r & Eg & _ & _ & _ & _ & Hr).
  rewrite Hn, toObjectId_freshId, <- Hn in Hr. destruct Hr as [_ Hr].
  exists d''. rewrite Eg. do 2 f_equal.
  assert (Hfind : findChat d' (chat_id c) = Some c).
  { unfold findChat in *. rewrite Hc, find_snoc, Hfresh, String.eqb_refl. reflexivity. }
  destruct r as [c'|e].
  - destruct Hr as [Hr _]. congruence.
  - destruct Hr as [Hf|[Hnone _]]; [contradiction|congruence].
Qed.

Lemma saveChat_then_getChat_witness :
  exists d' d'' c,
    saveChat (mkCreateChatPayload ["alice"; "bob"] two_messages) db_sample = (d', inr (Doc c))
    /\ findChat db_sample (chat_id c) = None
    /\ ~ failsAt d' 0
    /\ getChat (chat_id c) d' = (d'', inr (Doc c)).
Proof.
  pose (r := saveChat (mkCreateChatPayload ["alice"; "bob"] two_messages) db_sample).
  pose (c := mkChat (freshId 2) ["alice"; "bob"] [(freshId 0); (freshId 1)]).
  assert (Hr : r = (fst r, inr (Doc c))) by (vm_compute; reflexivity).
  assert (Hfresh : findChat db_sample (chat_id c) = None) by reflexivity.
  assert (Hnf : ~ failsAt (fst r) 0) by (intros H; exact H).
  destruct (saveChat_then_getChat _ _ _ _ Hr Hfresh Hnf) as (d'' & Eg).
  exists (fst r), d'', c. auto.
Defined.

(** X10: each of the three writing routes always answers; it never changes
    the connections or the rooms; it emits exactly one event, a chatUpdate
    carrying what it answers, when it answers 200, and nothing otherwise.
    The event of a created chat and of a new participant is addressed to
    all connections, the event of a new message to the room of the chat. *)
Theorem routes_emit_exactly_when_200
    (creq : ChatController.CreateChatRequest)
    (mreq : ChatController.AddMessageRequestToChat)
    (preq : ChatController.AddParticipantRequest)
    (w : ChatController.World) :
  (exists w' resp,
      ChatController.createChatRoute creq w = (w', inr resp)
      /\ ChatController.conns (ChatController.io w') = ChatController.conns (ChatController.io w)
      /\ ChatController.rooms (ChatController.io w') = ChatController.rooms (ChatController.io w)
      /\ ((exists pc,
             resp = ChatController.json pc
             /\ ChatController.emitted (ChatController.io w')
                = ChatController.emitted (ChatController.io w)
                  ++ [ChatController.mkEmission "chatUpdate"
                        (ChatController.mkChatUpdate pc "created")
                        ChatController.ToAll
                        (ChatController.conns (ChatController.io w))])
          \/ (ChatController.status resp <> 200
              /\ ChatController.emitted (ChatController.io w')
                 = ChatController.emitted (ChatController.io w))))
  /\ (exists w' resp,
        ChatController.addMessageToChatRoute mreq w = (w', inr resp)
        /\ ChatController.conns (ChatController.io w')
           = ChatController.conns (ChatController.io w)
        /\ ChatController.rooms (ChatController.io w')
           = ChatController.rooms (ChatController.io w)
        /\ ((exists pc,
               resp = ChatController.json pc
               /\ ChatController.emitted (ChatController.io w')
                  = ChatController.emitted (ChatController.io w)
                    ++ [ChatController.mkEmission "chatUpdate"
                          (ChatController.mkChatUpdate pc "newMessage")
                          (ChatController.ToRoom (ChatController.am_chatId mreq))
                          (ChatController.subscribers (ChatController.am_chatId mreq)
                                                      (ChatController.io w))])
            \/ (ChatController.status resp <> 200
                /\ ChatController.emitted (ChatController.io w')
                   = ChatController.emitted (ChatController.io w))))
  /\ (exists w' resp,
        ChatController.addParticipantToChatRoute preq w = (w', inr resp)
        /\ ChatController.conns (ChatController.io w')
           = ChatController.conns (ChatController.io w)
        /\ ChatController.rooms (ChatController.io w')
           = ChatController.rooms (ChatController.io w)
        /\ ((exists pc,
               resp = ChatController.json pc
               /\ ChatController.emitted (ChatController.io w')
                  = ChatController.emitted (ChatController.io w)
                    ++ [ChatController.mkEmission "chatUpdate"
                          (ChatController.mkChatUpdate pc "newParticipant")
                          ChatController.ToAll
                          (ChatController.conns (ChatController.io w))])
            \/ (ChatController.status resp <> 200
                /\ ChatController.emitted (ChatController.io w')
                   = ChatController.emitted (ChatController.io w)))).
Proof.
  split; [|split].
  - destruct (ChatController.isCreateChatRequestValid creq) eqn:Hv.
    2:{ eexists _, _. split; [apply createChatRoute_invalid; assumption|].
        split; [reflexivity|]. split; [reflexivity|]. right. split; [discriminate|reflexivity]. }
    destruct (saveChat_spec (requestedChat creq) (ChatController.db w))
      as (d1 & r & docs & E1 & _).
    destruct r as [c|e].
    2:{ eexists _, _. split; [apply createChatRoute_error; eassumption|].
        split; [reflexivity|]. split; [reflexivity|]. right. split; [discriminate|reflexivity]. }
    destruct (populateDocument_spec (Some (chat_id c)) "chat" d1) as (d2 & pc & E2 & _).
    eexists _, _. split; [eapply createChatRoute_ok; eassumption|].
    split; [reflexivity|]. split; [reflexivity|]. left. exists pc. split; reflexivity.
  - destruct (addMessageToChatRoute_outcome mreq w) as (w' & resp & E & Ho).
    exists w', resp. split; [exact E|].
    destruct Ho as [_| | | |d1 d2 d3 doc chat pc _ _ _ _ _];
      try (split; [reflexivity|]; split; [reflexivity|]; right;
           split; [discriminate|reflexivity]).
    split; [reflexivity|]. split; [reflexivity|]. left. exists pc. split; reflexivity.
  - destruct (ChatController.isAddParticipantRequestValid preq) eqn:Hv.
    2:{ eexists _, _. split; [apply addParticipantToChatRoute_invalid; assumption|].
        split; [reflexivity|]. split; [reflexivity|]. right. split; [discriminate|reflexivity]. }
    destruct (addParticipantToChat_spec (ChatController.ap_chatId preq)
                (default "" (ChatController.ap_participant preq)) (ChatController.db w))
      as (d1 & r & E1 & _).
    destruct r as [c|e].
    2:{ eexists _, _. split; [apply addParticipantToChatRoute_error; eassumption|].
        split; [reflexivity|]. split; [reflexivity|]. right. split; [discriminate|reflexivity]. }
    eexists _, _. split; [eapply addParticipantToChatRoute_ok; eassumption|].
    split; [reflexivity|]. split; [reflexivity|]. left. eexists. split; reflexivity.
Qed.

(** X11: [addParticipantToChat] takes its second argument for a username.
    With no user of that name it answers [...Error: User not found.message]
    without looking for the chat, and nothing changes.  With such a user
    and a chat id that is no [ObjectId] it answers with an error that
    carries a [CastError], after the one store call of the user lookup, and
    nothing changes.  With such a user and the id of no chat it answers
    [...Error: Chat not found.message] and nothing changes.  With both, it
    appends the user's id, not the username, to the participants of that
    chat and answers with the updated chat; messages, users and the number
    of chats stay as they are. *)
Theorem addParticipantToChat_outcomes (chatId userId : string) (d : Db) :
  ~ failsAt d 0 ->
  (findUser d userId = None ->
   exists d', addParticipantToChat chatId userId d
              = (d', inr (ErrorObj ("Error occurred while adding participant to chat: "
                                    +:+ "Error: User not found.message")))
     /\ chatDocs d' = chatDocs d /\ faults d' = drop 1 (faults d))
  /\ (forall u, findUser d userId = Some u ->
      (toObjectId chatId = None ->
       exists d' e, err_name e = "CastError"
         /\ addParticipantToChat chatId userId d
            = (d', inr (ErrorObj (caught "Error occurred while adding participant to chat: "
                                         e)))
         /\ chatDocs d' = chatDocs d /\ faults d' = drop 1 (faults d))
      /\ (forall cid, toObjectId chatId = Some cid -> ~ failsAt d 1 ->
          (findChat d cid = None ->
           exists d', addParticipantToChat chatId userId d
                      = (d', inr (ErrorObj ("Error occurred while adding participant to chat: "
                                            +:+ "Error: Chat not found.message")))
             /\ chatDocs d' = chatDocs d)
          /\ (forall c, findChat d cid = Some c ->
              exists d', addParticipantToChat chatId userId d
                         = (d', inr (Doc (mkChat cid (participants c ++ [user_id u])
                                                 (messages c))))
                /\ findChat d' cid
                   = Some (mkChat cid (participants c ++ [user_id u]) (messages c))
                /\ length (chatDocs d') = length (chatDocs d)
                /\ messageDocs d' = messageDocs d /\ users d' = users d))).
Proof.
  intros Hnf0.
  destruct d as [us ms cs n fs].
  unfold failsAt, findUser, findChat in *. simpl in *.
  split.
  - intros Hu.
    unfold addParticipantToChat, UserModel_findOne, storeCall, findUser; unfold_m; simpl.
    destruct fs as [|[e|] fs]; simpl in *; [|tauto|]; rewrite Hu; simpl;
      eexists; (split; [reflexivity|]); simpl; auto.
  - intros u Hu. split.
    + intros Hbad.
      unfold addParticipantToChat, UserModel_findOne, ChatModel_findByIdAndUpdate,
        castObjectId, castUpdate, storeCall, findUser; unfold_m; simpl.
      destruct fs as [|[e|] fs]; simpl in *; [|tauto|]; rewrite Hu; simpl;
        rewrite Hbad; simpl; eexists _, _; (split; [|split; [reflexivity|]]);
        simpl; auto.
    + intros cid Hcid Hnf1. split.
      * intros Hc. apply updateFirst_None with (u := PushParticipant (user_id u)) in Hc.
        unfold addParticipantToChat, UserModel_findOne, ChatModel_findByIdAndUpdate,
          castObjectId, castUpdate, storeCall, findUser; unfold_m; simpl.
        destruct fs as [|[e|] [|[e'|] fs]]; simpl in *; try tauto;
          rewrite Hu; simpl; rewrite Hcid; simpl; rewrite Hc; simpl;
          eexists; (split; [reflexivity|]); reflexivity.
      * intros c Hc.
        destruct (updateFirst cid (PushParticipant (user_id u)) cs) as [[c' cs']|] eqn:E.
        2:{ apply updateFirst_None in E. congruence. }
        destruct (updateFirst_Some _ _ _ _ _ E) as (c0 & Hc0 & -> & Hf' & Hlen).
        assert (c0 = c) as -> by congruence.
        assert (Hid : chat_id c = cid).
        { apply find_some in Hc. destruct Hc as [_ Hc]. apply String.eqb_eq. exact Hc. }
        simpl in *. rewrite Hid in *.
        unfold addParticipantToChat, UserModel_findOne, ChatModel_findByIdAndUpdate,
          castObjectId, castUpdate, storeCall, findUser; unfold_m; simpl.
        destruct fs as [|[e|] [|[e'|] fs]]; simpl in *; try tauto;
          rewrite Hu; simpl; rewrite Hcid; simpl; rewrite E; simpl;
          eexists; (split; [reflexivity|]); simpl; auto.
Qed.

Lemma addParticipantToChat_outcomes_witness :
  ~ failsAt db_sample 0
  /\ ~ failsAt db_sample 1
  /\ (exists d', addParticipantToChat id_c1 "mallory" db_sample
                 = (d', inr (ErrorObj ("Error occurred while adding participant to chat: "
                                       +:+ "Error: User not found.message"))))
  /\ (exists d' e, addParticipantToChat "c1" "bob" db_sample = (d', inr (ErrorObj e))
                   /\ chatDocs d' = chatDocs db_sample)
  /\ (exists d', addParticipantToChat id_c9 "bob" db_sample
                 = (d', inr (ErrorObj ("Error occurred while adding participant to chat: "
                                       +:+ "Error: Chat not found.message"))))
  /\ (exists d', addParticipantToChat id_c1 "bob" db_sample
                 = (d', inr (Doc (mkChat id_c1 ["alice"; id_u3; id_u2] [id_m1])))).
Proof.
  assert (H0 : ~ failsAt db_sample 0) by (intros H; exact H).
  assert (H1 : ~ failsAt db_sample 1) by (intros H; exact H).
  split; [exact H0|]. split; [exact H1|]. split; [|split; [|split]].
  - destruct (addParticipantToChat_outcomes id_c1 "mallory" db_sample H0) as [H _].
    destruct (H eq_refl) as (d' & E & _). exists d'. exact E.
  - destruct (addParticipantToChat_outcomes "c1" "bob" db_sample H0) as [_ H].
    destruct (H (mkUser id_u2 "bob") eq_refl) as [Hbad _].
    destruct (Hbad eq_refl) as (d' & e & _ & E & Hc & _). eexists _, _. split; [exact E|exact Hc].
  - destruct (addParticipantToChat_outcomes id_c9 "bob" db_sample H0) as [_ H].
    destruct (H (mkUser id_u2 "bob") eq_refl) as [_ Hn].
    destruct (Hn id_c9 eq_refl H1) as [Hn' _].
    destruct (Hn' eq_refl) as (d' & E & _). exists d'. exact E.
  - destruct (addParticipantToChat_outcomes id_c1 "bob" db_sample H0) as [_ H].
    destruct (H (mkUser id_u2 "bob") eq_refl) as [_ Hs].
    destruct (Hs id_c1 eq_refl H1) as [_ Hs'].
    destruct (Hs' (mkChat id_c1 ["alice"; id_u3] [id_m1]) eq_refl) as (d' & E & _).
    exists d'. exact E.
Defined.

(** ** The Nim game page, further *)
Section NimPageMore.
Import NimGamePage.
Local Open Scope Z_scope.

Lemma slice_last_None (v : JsString) : slice_last v = None <-> v = [].
Proof.
  induction v as [|c v IH]; simpl; [tauto|].
  destruct v as [|c' v]; [split; discriminate|].
  rewrite IH. split; [discriminate|discriminate].
Qed.

Lemma Number_in_range (c : N) (n : Z) :
  Number (Some c) = Some n -> 1 <= n <= 3 -> c = Z.to_N (48 + n).
Proof.
  unfold Number, isDigit, between.
  destruct (N.leb_spec 48 c); simpl.
  - destruct (N.leb_spec c 57); simpl.
    + intros [= <-] Hn. lia.
    + destruct (isWhiteSpace c); [intros [= <-]; lia|discriminate].
  - destruct (isWhiteSpace c); [intros [= <-]; lia|discriminate].
Qed.

Lemma Number_digit (n : Z) : 1 <= n <= 3 -> Number (Some (Z.to_N (48 + n))) = Some n.
Proof.
  intros Hn. assert (n = 1 \/ n = 2 \/ n = 3) as [-> | [-> | ->]] by lia; reflexivity.
Qed.

End NimPageMore.

(** X12: [handleInputChange] looks at the last code unit of the text only.
    When it is one of the digits 1, 2, 3 the move becomes that number;
    otherwise, also when the text is empty, the page keeps the move it had.
    It never emits. *)
Theorem handleInputChange_by_last_unit
    (value : NimGamePage.JsString) (st : NimGamePage.Page) :
  NimGamePage.sent (NimGamePage.handleInputChange value st) = NimGamePage.sent st
  /\ ((exists n, (1 <= n <= 3)%Z
         /\ NimGamePage.slice_last value = Some (Z.to_N (48 + n))
         /\ NimGamePage.move (NimGamePage.handleInputChange value st) = Some (Some n))
      \/ ((forall n, (1 <= n <= 3)%Z ->
             NimGamePage.slice_last value <> Some (Z.to_N (48 + n)))
          /\ NimGamePage.handleInputChange value st = st)).
Proof.
  unfold NimGamePage.handleInputChange.
  destruct value as [|c0 v0] eqn:Ev.
  { simpl. split; [reflexivity|]. right. split; [discriminate|reflexivity]. }
  rewrite <- Ev. assert (Hne : NimGamePage.isEmpty value = false) by (subst; reflexivity).
  rewrite Hne. simpl.
  destruct (NimGamePage.slice_last value) as [c|] eqn:Es.
  2:{ apply slice_last_None in Es. congruence. }
  destruct (NimGamePage.Number (Some c)) as [n|] eqn:En; simpl.
  - destruct (Z.leb_spec 1 n); simpl; [destruct (Z.leb_spec n 3); simpl|].
    + split; [reflexivity|]. left. exists n. split; [lia|].
      rewrite (Number_in_range c n En) by lia. auto.
    + split; [reflexivity|]. right. split; [|reflexivity].
      intros m Hm [= ->]. rewrite Number_digit in En by assumption. injection En as <-. lia.
    + split; [reflexivity|]. right. split; [|reflexivity].
      intros m Hm [= ->]. rewrite Number_digit in En by assumption. injection En as <-. lia.
  - split; [reflexivity|]. right. split; [|reflexivity].
    intros m Hm [= ->]. rewrite Number_digit in En by assumption. discriminate.
Qed.

Section NimRuns.
Import NimGamePage.
Local Open Scope Z_scope.

Lemma handleMakeMove_stored (p : Props) (n : Z) (s : list MakeMovePayload) :
  1 <= n <= 3 ->
  handleMakeMove p (mkPage (Some (Some n)) s)
  = mkPage (Some (Some n))
           (s ++ [mkMakeMove (gameID p) (mkGameMove (user_username p) (gameID p) (Some n))]).
Proof.
  intros Hn. unfold handleMakeMove; simpl.
  destruct (Z.eqb_spec n 0); [lia|reflexivity].
Qed.

Lemma run_from_stored (p : Props) (acts : list Action) (st : Page) :
  page_ok st -> move st <> None ->
  exists more,
    sent (fold_left (step p) acts st) = sent st ++ more
    /\ length more = clicks acts
    /\ Forall (addressedBy p) more
    /\ move (fold_left (step p) acts st) <> None.
Proof.
  revert st. induction acts as [|a acts IH]; intros st Hok Hm; cbn [fold_left].
  - exists []. rewrite app_nil_r. repeat split; [constructor|assumption].
  - destruct a as [v|]; cbn [step].
    + destruct (IH (handleInputChange v st)) as (more & Hs & Hl & Ha & Hmv).
      * apply handleInputChange_ok; assumption.
      * destruct (handleInputChange_stores v st) as [->|(n & _ & ->)];
          [assumption|discriminate].
      * exists more. split; [|auto].
        rewrite Hs. f_equal.
        destruct (handleInputChange_stores v st) as [->|(n & _ & ->)]; reflexivity.
    + destruct Hok as [[Hnone|(n & Hn & Hr)] Hsent]; [contradiction|].
      destruct st as [m s]. simpl in *. subst m.
      rewrite handleMakeMove_stored by assumption.
      destruct (IH (mkPage (Some (Some n))
                           (s ++ [mkMakeMove (gameID p)
                                    (mkGameMove (user_username p) (gameID p) (Some n))])))
        as (more & Hs & Hl & Ha & Hmv).
      * split; [right; exists n; auto|]. simpl. apply Forall_app. split; [assumption|].
        constructor; [|constructor]. exists n. auto.
      * discriminate.
      * eexists (_ :: more). rewrite Hs. simpl. rewrite <- app_assoc. simpl.
        split; [reflexivity|]. unfold clicks in *. simpl. split; [lia|].
        split; [|assumption]. constructor; [|assumption]. repeat split.
Qed.

End NimRuns.

(** X13: once the page holds a move it always holds one: no input and no
    click clears it.  From then on every click emits exactly one makeMove,
    so the events emitted are as many as the clicks; each of them names the
    game of the page and the user as the player, and the events emitted
    before stay, in order, in front of them. *)
Theorem makeMove_once_per_click
    (p : NimGamePage.Props) (before acts : list NimGamePage.Action) :
  NimGamePage.move (NimGamePage.run p before) <> None ->
  exists more,
    NimGamePage.sent (NimGamePage.run p (before ++ acts))
    = NimGamePage.sent (NimGamePage.run p before) ++ more
    /\ length more = clicks acts
    /\ Forall (addressedBy p) more
    /\ NimGamePage.move (NimGamePage.run p (before ++ acts)) <> None.
Proof.
  intros Hm. unfold NimGamePage.run. rewrite fold_left_app.
  apply run_from_stored; [|exact Hm].
  apply run_ok. split; [left; reflexivity|constructor].
Qed.

Lemma makeMove_once_per_click_witness :
  NimGamePage.move (NimGamePage.run (NimGamePage.mkProps "g1" "alice")
                      [NimGamePage.InputChange (NimGamePage.units "2")]) <> None
  /\ exists more,
       NimGamePage.sent
         (NimGamePage.run (NimGamePage.mkProps "g1" "alice")
            ([NimGamePage.InputChange (NimGamePage.units "2")]
             ++ [NimGamePage.MakeMove; NimGamePage.InputChange []; NimGamePage.MakeMove]))
       = more
       /\ length more = 2%nat.
Proof.
  assert (H : NimGamePage.move (NimGamePage.run (NimGamePage.mkProps "g1" "alice")
                                  [NimGamePage.InputChange (NimGamePage.units "2")]) <> None)
    by discriminate.
  split; [exact H|].
  destruct (makeMove_once_per_click (NimGamePage.mkProps "g1" "alice")
              [NimGamePage.InputChange (NimGamePage.units "2")]
              [NimGamePage.MakeMove; NimGamePage.InputChange []; NimGamePage.MakeMove] H)
    as (more & Hs & Hl & _).
  exists more. split; [exact Hs|exact Hl].
Defined.

(** ** The users list, further *)
Section UsersListMore.
Import UsersListPage UsersListView.

Lemma usernames_addUserToList_present (l : list User) (u : User) :
  map username
      (map (fun currUser => if String.eqb (username currUser) (username u)
                            then u else currUser) l)
  = map username l.
Proof.
  induction l as [|a l IH]; simpl; [reflexivity|]. rewrite IH. f_equal.
  destruct (String.eqb_spec (username a) (username u)); congruence.
Qed.

Lemma removeUserFromList_same_name (l : list User) (u u' : User) :
  username u = username u' -> removeUserFromList l u = removeUserFromList l u'.
Proof. intros H. unfold removeUserFromList. rewrite H. reflexivity. Qed.

Lemma addUserToList_case (l : list User) (u : User) :
  ((exists x, x ∈ l /\ username x = username u)
   /\ addUserToList l u
      = map (fun currUser => if String.eqb (username currUser) (username u)
                             then u else currUser) l)
  \/ ((forall x, x ∈ l -> username x <> username u) /\ addUserToList l u = u :: l).
Proof.
  unfold addUserToList.
  destruct (existsb _ l) eqn:E.
  - left. split; [apply existsb_username; exact E|reflexivity].
  - right. split; [|reflexivity]. intros x Hx He.
    assert (existsb (fun c => String.eqb (username c) (username u)) l = true); [|congruence].
    apply existsb_username. eauto.
Qed.

Lemma removeUserFromList_map_replace (l : list User) (u u' : User) :
  username u = username u' ->
  removeUserFromList
    (map (fun currUser => if String.eqb (username currUser) (username u)
                          then u else currUser) l) u'
  = removeUserFromList l u'.
Proof.
  intros H. unfold removeUserFromList. induction l as [|a l IH]; simpl; [reflexivity|].
  rewrite IH. destruct (String.eqb_spec (username a) (username u)) as [He|Hne].
  - rewrite <- H, <- He, !String.eqb_refl. reflexivity.
  - reflexivity.
Qed.

Lemma removeUserFromList_absent (l : list User) (u : User) :
  (forall x, x ∈ l -> username x <> username u) -> removeUserFromList l u = l.
Proof.
  intros H. unfold removeUserFromList. induction l as [|a l IH]; simpl; [reflexivity|].
  destruct (String.eqb_spec (username u) (username a)) as [He|Hne]; simpl.
  - exfalso. apply (H a); [apply elem_of_cons; left; reflexivity|congruence].
  - f_equal. apply IH. intros x Hx. apply H. apply elem_of_cons. right. exact Hx.
Qed.

End UsersListMore.

(** X14: a list in which no two users share a username stays so through
    every userUpdate that goes through; after a ['created'] update the user
    of the payload is in the list, after a ['deleted'] update no user of
    that username is. *)
Theorem userUpdate_keeps_usernames_distinct
    (l l' : list UsersListPage.User) (upd : UsersListPage.UserUpdatePayload) :
  NoDup (map UsersListPage.username l) ->
  UsersListPage.handleModifiedUserUpdate upd l = (l', inr tt) ->
  NoDup (map UsersListPage.username l')
  /\ (UsersListPage.update_type upd = "created" -> UsersListPage.update_user upd ∈ l')
  /\ (UsersListPage.update_type upd = "deleted" ->
      forall x, x ∈ l' ->
        UsersListPage.username x <> UsersListPage.username (UsersListPage.update_user upd)).
Proof.
  intros Hnd. unfold UsersListPage.handleModifiedUserUpdate, modify, throw.
  destruct (String.eqb_spec (UsersListPage.update_type upd) "created") as [Hc|Hc].
  - intros [= <-]. split; [|split; [|intros Hd; rewrite Hd in Hc; discriminate]].
    + destruct (addUserToList_case l (UsersListPage.update_user upd)) as [[_ ->]|[Ha ->]].
      * rewrite usernames_addUserToList_present. exact Hnd.
      * simpl. apply NoDup_cons. split; [|exact Hnd].
        intros Hin. apply list_elem_of_fmap in Hin. destruct Hin as (x & Hx & Hxl).
        apply (Ha x Hxl). congruence.
    + intros _.
      destruct (addUserToList_case l (UsersListPage.update_user upd))
        as [[(x & Hx & He) ->]|[_ ->]].
      * apply list_elem_of_fmap. exists x. split; [|exact Hx].
        rewrite He, String.eqb_refl. reflexivity.
      * apply elem_of_cons. left. reflexivity.
  - destruct (String.eqb_spec (UsersListPage.update_type upd) "deleted") as [Hd|Hd];
      [|discriminate].
    intros [= <-].
    destruct (removeUserFromList_spec l (UsersListPage.update_user upd)) as [Hsub Hin].
    split; [|split; [intros H; contradiction|]].
    + eapply sublist_NoDup; [exact Hnd|].
      apply (fmap_sublist UsersListPage.username). exact Hsub.
    + intros _ x Hx. apply Hin in Hx. tauto.
Qed.

Lemma userUpdate_keeps_usernames_distinct_witness :
  NoDup (map UsersListPage.username users_three)
  /\ exists l',
       UsersListPage.handleModifiedUserUpdate
         (UsersListPage.mkUserUpdate (UsersListPage.mkUser "bob" "new bio" 7) "created")
         users_three = (l', inr tt)
       /\ NoDup (map UsersListPage.username l')
       /\ UsersListPage.mkUser "bob" "new bio" 7 ∈ l'.
Proof.
  assert (Hnd : NoDup (map UsersListPage.username users_three)).
  { simpl. repeat (apply NoDup_cons_2; [rewrite ?elem_of_cons; intros H;
      repeat (destruct H as [H|H]; [discriminate|]); apply elem_of_nil in H; exact H|]).
    apply NoDup_nil_2. }
  split; [exact Hnd|].
  eexists. split; [reflexivity|].
  destruct (userUpdate_keeps_usernames_distinct users_three _
              (UsersListPage.mkUserUpdate (UsersListPage.mkUser "bob" "new bio" 7) "created")
              Hnd eq_refl) as (H1 & H2 & _).
  split; [exact H1|exact (H2 eq_refl)].
Defined.

(** X15: how the list updates compose, for two versions [u] and [u'] of a
    user (the same username): adding [u] and then [u'] is adding [u'];
    adding [u] and then removing [u'] is removing [u'] from the start;
    removing twice is removing once; adding after removing puts the user
    in front of the others. *)
Theorem userList_updates_compose
    (l : list UsersListPage.User) (u u' : UsersListPage.User) :
  UsersListPage.username u = UsersListPage.username u' ->
  UsersListPage.addUserToList (UsersListPage.addUserToList l u) u'
  = UsersListPage.addUserToList l u'
  /\ UsersListPage.removeUserFromList (UsersListPage.addUserToList l u) u'
     = UsersListPage.removeUserFromList l u'
  /\ UsersListPage.removeUserFromList (UsersListPage.removeUserFromList l u) u'
     = UsersListPage.removeUserFromList l u'
  /\ UsersListPage.addUserToList (UsersListPage.removeUserFromList l u) u'
     = u' :: UsersListPage.removeUserFromList l u'.
Proof.
  intros Hn.
  assert (Hrem : forall x, x ∈ UsersListPage.removeUserFromList l u ->
                           UsersListPage.username x <> UsersListPage.username u').
  { intros x Hx. apply removeUserFromList_spec in Hx. rewrite <- Hn. tauto. }
  split; [|split; [|split]].
  - destruct (addUserToList_case l u) as [[(x & Hx & He) ->]|[Ha ->]].
    + destruct (addUserToList_case l u') as [[_ ->]|[Ha' _]].
      2:{ exfalso. apply (Ha' x Hx). congruence. }
      unfold UsersListPage.addUserToList.
      assert (existsb (fun c => String.eqb (UsersListPage.username c)
                                           (UsersListPage.username u'))
                (map (fun c => if String.eqb (UsersListPage.username c)
                                             (UsersListPage.username u)
                               then u else c) l) = true) as ->.
      { apply existsb_username. exists u. split; [|exact Hn].
        apply list_elem_of_fmap. exists x. split; [|exact Hx].
        rewrite He, String.eqb_refl. reflexivity. }
      rewrite map_map. apply map_ext. intros a. cbv beta. rewrite <- Hn.
      destruct (String.eqb (UsersListPage.username a) (UsersListPage.username u)) eqn:E;
        [rewrite String.eqb_refl; reflexivity|rewrite E; reflexivity].
    + destruct (addUserToList_case l u') as [[(x & Hx & He) _]|[_ ->]].
      { exfalso. apply (Ha x Hx). congruence. }
      unfold UsersListPage.addUserToList. simpl.
      rewrite Hn, String.eqb_refl. simpl.
      f_equal. rewrite <- (map_id l) at 2. apply map_ext_in. intros a Ha'.
      destruct (String.eqb_spec (UsersListPage.username a) (UsersListPage.username u'));
        [|reflexivity].
      exfalso. apply (Ha a); [apply list_elem_of_In; exact Ha'|congruence].
  - destruct (addUserToList_case l u) as [[_ ->]|[_ ->]].
    + apply removeUserFromList_map_replace. exact Hn.
    + unfold UsersListPage.removeUserFromList. simpl.
      rewrite Hn, String.eqb_refl. reflexivity.
  - rewrite (removeUserFromList_same_name l u u' Hn) in *.
    apply removeUserFromList_absent. exact Hrem.
  - rewrite (removeUserFromList_same_name l u u' Hn) in *.
    apply addUserToList_absent. exact Hrem.
Qed.

Lemma userList_updates_compose_witness :
  UsersListPage.addUserToList
    (UsersListPage.addUserToList users_three (UsersListPage.mkUser "bob" "x" 8))
    (UsersListPage.mkUser "bob" "y" 9)
  = [UsersListPage.mkUser "ann" "a" 1; UsersListPage.mkUser "bob" "y" 9;
     UsersListPage.mkUser "cat" "c" 3]
  /\ UsersListPage.removeUserFromList
       (UsersListPage.addUserToList users_three (UsersListPage.mkUser "dan" "x" 8))
       (UsersListPage.mkUser "dan" "y" 9)
     = users_three.
Proof.
  destruct (userList_updates_compose users_three (UsersListPage.mkUser "bob" "x" 8)
              (UsersListPage.mkUser "bob" "y" 9) eq_refl) as (H1 & _).
  destruct (userList_updates_compose users_three (UsersListPage.mkUser "dan" "x" 8)
              (UsersListPage.mkUser "dan" "y" 9) eq_refl) as (_ & H2 & _).
  split; [rewrite H1; reflexivity|rewrite H2; reflexivity].
Defined.

Section UsersListDisplay.
Import UsersListPage UsersListView.

Lemma prefix_append (s1 s2 : string) :
  String.prefix s1 s2 = true <-> exists t, s2 = s1 +:+ t.
Proof.
  revert s2. induction s1 as [|a s1 IH]; intros s2.
  - destruct s2; simpl; split; eauto.
  - destruct s2 as [|b s2]; simpl.
    + split; [discriminate|intros [t H]; discriminate].
    + destruct (Ascii.ascii_dec a b) as [->|Hne].
      * rewrite IH. split; intros [t H]; exists t; [rewrite H; reflexivity|].
        injection H as ->. reflexivity.
      * split; [discriminate|]. intros [t H]. injection H as -> _. contradiction.
Qed.

Lemma index_occurs (sub s : string) :
  (exists m, String.index 0 sub s = Some m) <-> exists pre post, s = pre +:+ sub +:+ post.
Proof.
  induction s as [|b s IH].
  - simpl. destruct sub as [|a sub].
    + split; [intros _; exists "", ""; reflexivity|intros _; eauto].
    + split; [intros [m H]; discriminate|].
      intros (pre & post & H). destruct pre; discriminate.
  - cbn [String.index].
    destruct (String.prefix sub (String b s)) eqn:Ep.
    + split; [|intros _; eauto]. intros _.
      apply prefix_append in Ep. destruct Ep as [t Ht]. exists "", t. exact Ht.
    + destruct (String.index 0 sub s) as [m|] eqn:Ei.
      * split; [|intros _; eauto]. intros _.
        destruct (proj1 IH) as (pre & post & ->); [eauto|].
        exists (String b pre), post. reflexivity.
      * split; [intros [m H]; discriminate|].
        intros (pre & post & H). destruct pre as [|c pre].
        -- simpl in H. assert (String.prefix sub (String b s) = true); [|congruence].
           apply prefix_append. exists post. exact H.
        -- simpl in H. injection H as _ ->.
           destruct (proj2 IH) as [m Hm]; [eauto|discriminate].
Qed.

Lemma includes_occurs (s sub : string) :
  includes s sub = true <-> exists pre post, s = pre +:+ sub +:+ post.
Proof.
  rewrite <- index_occurs. unfold includes.
  destruct (String.index 0 sub s); split; eauto; try discriminate.
  intros [m H]. discriminate.
Qed.

End UsersListDisplay.

(** X16: the page displays, in the order of the list, the users whose
    username contains the filter text somewhere; with the empty filter it
    displays the whole list. *)
Theorem filteredUserlist_shows_matching_users
    (userFilter : string) (l : list UsersListPage.User) :
  UsersListView.filteredUserlist "" l = l
  /\ sublist (UsersListView.filteredUserlist userFilter l) l
  /\ forall x, x ∈ UsersListView.filteredUserlist userFilter l <->
               x ∈ l /\ exists pre post,
                          UsersListPage.username x = pre +:+ userFilter +:+ post.
Proof.
  unfold UsersListView.filteredUserlist. split; [|split].
  - induction l as [|a l IH]; simpl; [reflexivity|].
    assert (UsersListView.includes (UsersListPage.username a) "" = true) as ->.
    { apply includes_occurs. exists "", (UsersListPage.username a). reflexivity. }
    f_equal. exact IH.
  - apply filter_sublist.
  - intros x. rewrite !list_elem_of_In, filter_In, includes_occurs. reflexivity.
Qed.

(** ** The sign-in forms, further *)
Section Trim.
Import JsText.
#[local] Arguments String.append !_ _ / : simpl nomatch.

Lemma trimStart_spec (s : string) :
  exists pre, blank pre = true /\ s = pre +:+ trimStart s
              /\ forall c r, trimStart s = String c r -> isSpace c = false.
Proof.
  induction s as [|a s IH]; simpl.
  - exists "". repeat split. discriminate.
  - destruct (isSpace a) eqn:Ea.
    + destruct IH as (pre & Hb & Hs & Hc). exists (String a pre). simpl.
      rewrite Ea, Hb. split; [reflexivity|]. split; [simpl; f_equal; exact Hs|exact Hc].
    + exists "". split; [reflexivity|]. split; [reflexivity|].
      intros c r [= <- _]. exact Ea.
Qed.

Lemma trimEnd_spec (s : string) :
  exists post, blank post = true /\ s = trimEnd s +:+ post
               /\ (forall r c, trimEnd s = r +:+ String c "" -> isSpace c = false)
               /\ (forall c r, trimEnd s = String c r -> exists r', s = String c r').
Proof.
  induction s as [|a s IH]; simpl.
  - exists "". repeat split; try discriminate. intros [|? ?] c H; discriminate.
  - destruct IH as (post & Hb & Hs & Hend & _).
    destruct (trimEnd s) as [|b t] eqn:Et.
    + destruct (isSpace a) eqn:Ea.
      * exists (String a post). simpl. rewrite Ea, Hb. simpl in Hs.
        split; [reflexivity|]. split; [simpl; f_equal; exact Hs|]. split; [|discriminate].
        intros [|? ?] c H; discriminate.
      * exists post. simpl in *. split; [exact Hb|]. split; [simpl; f_equal; exact Hs|]. split.
        -- intros [|x [|y r]] c H; simpl in H; try discriminate.
           injection H as <-. exact Ea.
        -- intros c r [= <- <-]. eauto.
    + exists post. split; [exact Hb|]. split; [simpl; f_equal; exact Hs|]. split.
      * intros [|x r] c H; simpl in H; [discriminate|].
        injection H as _ H. exact (Hend r c H).
      * intros c r [= <- <-]. eauto.
Qed.

Lemma blank_trimStart (s : string) : blank s = true -> trimStart s = "".
Proof.
  induction s as [|a s IH]; simpl; [reflexivity|].
  destruct (isSpace a); simpl; [exact IH|discriminate].
Qed.

Lemma blank_append (s t : string) : blank (s +:+ t) = blank s && blank t.
Proof.
  induction s as [|a s IH]; simpl; [reflexivity|]. rewrite IH, andb_assoc. reflexivity.
Qed.

Lemma append_empty_r (s : string) : s +:+ "" = s.
Proof. induction s as [|a s IH]; simpl; [reflexivity|]. rewrite IH. reflexivity. Qed.

Lemma append_assoc (s t u : string) : (s +:+ t) +:+ u = s +:+ (t +:+ u).
Proof. induction s as [|a s IH]; simpl; [reflexivity|]. rewrite IH. reflexivity. Qed.

(** [trim] takes a blank text off each end, and what is left has no white
    space at its ends. *)
Lemma trim_spec (s : string) :
  exists pre post,
    blank pre = true /\ blank post = true
    /\ s = pre +:+ trim s +:+ post
    /\ noSpaceAtEnds (trim s).
Proof.
  unfold trim.
  destruct (trimStart_spec s) as (pre & Hpre & Hs & Hstart).
  destruct (trimEnd_spec (trimStart s)) as (post & Hpost & Ht & Hend & Hfirst).
  exists pre, post. split; [exact Hpre|]. split; [exact Hpost|].
  split; [rewrite <- Ht; exact Hs|].
  split; [|exact Hend].
  intros c r H. destruct (Hfirst c r H) as [r' Hr']. exact (Hstart c r' Hr').
Qed.

Lemma trim_blank (s : string) : trim s = "" <-> blank s = true.
Proof.
  split.
  - intros H. destruct (trim_spec s) as (pre & post & Hpre & Hpost & Hs & _).
    rewrite H in Hs. simpl in Hs. rewrite Hs, blank_append, Hpre, Hpost. reflexivity.
  - intros H. unfold trim. rewrite (blank_trimStart s H). reflexivity.
Qed.

Lemma trimStart_fixed (t : string) :
  (forall c r, t = String c r -> isSpace c = false) -> trimStart t = t.
Proof.
  destruct t as [|c r]; simpl; [reflexivity|]. intros H. rewrite (H c r eq_refl). reflexivity.
Qed.

Lemma trimEnd_fixed (t : string) :
  (forall r c, t = r +:+ String c "" -> isSpace c = false) -> trimEnd t = t.
Proof.
  induction t as [|a t IH]; simpl; [reflexivity|]. intros H.
  rewrite IH.
  - destruct t as [|b t]; [|reflexivity].
    rewrite (H "" a eq_refl). reflexivity.
  - intros r c Hr. apply (H (String a r) c). simpl. rewrite Hr. reflexivity.
Qed.

Lemma trim_fixed (t : string) : noSpaceAtEnds t -> trim t = t.
Proof.
  intros [Hs He]. unfold trim. rewrite (trimStart_fixed t Hs). apply trimEnd_fixed, He.
Qed.

End Trim.

(** X17: [handleInputChange] stores the text typed without the white space
    around it: the text is a blank part, the stored value, and a blank
    part, and the stored value has no white space at its ends; it is empty
    exactly when the text is blank; typing the stored value again stores
    the same.  The other fields, the error, the calls made, the user and
    the route stay as they are. *)
Theorem handleInputChange_stores_trimmed
    (value : string) (field : AuthInput.Field) (f : Auth.Form) :
  (exists pre post,
      JsText.blank pre = true /\ JsText.blank post = true
      /\ value = pre +:+ fieldValue field (AuthInput.handleInputChange value field f) +:+ post)
  /\ noSpaceAtEnds (fieldValue field (AuthInput.handleInputChange value field f))
  /\ (fieldValue field (AuthInput.handleInputChange value field f) = ""
      <-> JsText.blank value = true)
  /\ AuthInput.handleInputChange
       (fieldValue field (AuthInput.handleInputChange value field f)) field
       (AuthInput.handleInputChange value field f)
     = AuthInput.handleInputChange value field f
  /\ (forall other, other <> field ->
        fieldValue other (AuthInput.handleInputChange value field f) = fieldValue other f)
  /\ Auth.err (AuthInput.handleInputChange value field f) = Auth.err f
  /\ Auth.calls (AuthInput.handleInputChange value field f) = Auth.calls f
  /\ Auth.user (AuthInput.handleInputChange value field f) = Auth.user f
  /\ Auth.location (AuthInput.handleInputChange value field f) = Auth.location f
  /\ Auth.showPassword (AuthInput.handleInputChange value field f) = Auth.showPassword f.
Proof.
  assert (Hv : fieldValue field (AuthInput.handleInputChange value field f)
               = JsText.trim value) by (destruct field; reflexivity).
  rewrite !Hv.
  destruct (trim_spec value) as (pre & post & Hpre & Hpost & Hs & Hn).
  split; [exists pre, post; auto|]. split; [exact Hn|]. split; [apply trim_blank|].
  split.
  { unfold AuthInput.handleInputChange. rewrite (trim_fixed _ Hn).
    destruct field; reflexivity. }
  split; [intros other Ho; destruct other, field; try reflexivity; contradiction|].
  destruct field; repeat split.
Qed.

(** X18: after a blank text (white space only, or nothing) was typed into
    the username or the password field, submitting the form of either kind
    calls no service, sets no user and goes nowhere: it only sets the error
    [Please enter a valid username and passsword]. *)
Theorem blank_field_is_not_submitted
    (value : string) (field : AuthInput.Field) (authType : Auth.AuthType)
    (api : Auth.ApiCall -> JsError + Store.User) (f : Auth.Form) :
  JsText.blank value = true ->
  field <> AuthInput.confirmPasswordField ->
  Auth.handleSubmit authType api (AuthInput.handleInputChange value field f)
  = Auth.setErr "Please enter a valid username and passsword"
                (AuthInput.handleInputChange value field f)
  /\ Auth.calls (Auth.handleSubmit authType api (AuthInput.handleInputChange value field f))
     = Auth.calls f
  /\ Auth.user (Auth.handleSubmit authType api (AuthInput.handleInputChange value field f))
     = Auth.user f
  /\ Auth.location (Auth.handleSubmit authType api (AuthInput.handleInputChange value field f))
     = Auth.location f.
Proof.
  intros Hb Hf. apply trim_blank in Hb.
  assert (H : Auth.handleSubmit authType api (AuthInput.handleInputChange value field f)
              = Auth.setErr "Please enter a valid username and passsword"
                            (AuthInput.handleInputChange value field f)).
  { unfold Auth.handleSubmit, Auth.validateInputs, AuthInput.handleInputChange.
    rewrite Hb. destruct field; [| |contradiction]; simpl; [reflexivity|].
    rewrite orb_true_r. reflexivity. }
  rewrite H. split; [reflexivity|]. destruct field; repeat split.
Qed.

Lemma blank_field_is_not_submitted_witness :
  JsText.blank "  " = true
  /\ AuthInput.passwordField <> AuthInput.confirmPasswordField
  /\ Auth.calls (Auth.handleSubmit Auth.login api_accepts
                   (AuthInput.handleInputChange "  " AuthInput.passwordField form_mismatch))
     = []
  /\ Auth.err (Auth.handleSubmit Auth.login api_accepts
                 (AuthInput.handleInputChange "  " AuthInput.passwordField form_mismatch))
     = "Please enter a valid username and passsword".
Proof.
  assert (H1 : JsText.blank "  " = true) by reflexivity.
  assert (H2 : AuthInput.passwordField <> AuthInput.confirmPasswordField) by discriminate.
  destruct (blank_field_is_not_submitted "  " AuthInput.passwordField Auth.login api_accepts
              form_mismatch H1 H2) as (He & Hc & _).
  split; [exact H1|]. split; [exact H2|]. split; [exact Hc|]. rewrite He. reflexivity.
Defined.

(** X19: with a username and a password that are not empty, [handleSubmit]
    makes exactly one call, [loginUser] for a login form and [createUser]
    for a signup form, with the username and the password of the form.
    When the call succeeds the user it gave is set and the route is
    [/home]; when it fails the error becomes the message of the failure and
    neither the user nor the route changes. *)
Theorem handleSubmit_outcomes
    (authType : Auth.AuthType) (api : Auth.ApiCall -> JsError + Store.User) (f : Auth.Form) :
  Auth.username f <> "" ->
  Auth.password f <> "" ->
  Auth.calls (Auth.handleSubmit authType api f) = Auth.calls f ++ [submitCall authType f]
  /\ (forall u, api (submitCall authType f) = inr u ->
        Auth.user (Auth.handleSubmit authType api f) = Some u
        /\ Auth.location (Auth.handleSubmit authType api f) = Some "/home")
  /\ (forall e, api (submitCall authType f) = inl e ->
        Auth.err (Auth.handleSubmit authType api f) = err_message e
        /\ Auth.user (Auth.handleSubmit authType api f) = Auth.user f
        /\ Auth.location (Auth.handleSubmit authType api f) = Auth.location f).
Proof.
  intros Hu Hp. unfold Auth.handleSubmit, Auth.validateInputs, submitCall.
  destruct (String.eqb_spec (Auth.username f) ""); [contradiction|].
  destruct (String.eqb_spec (Auth.password f) ""); [contradiction|]. simpl.
  destruct authType; simpl.
  - destruct (api _) as [e|u]; simpl; split; try reflexivity;
      split; intros x [= <-]; auto.
  - destruct (negb (String.eqb (Auth.password f) (Auth.passwordConfirmation f)));
      destruct (api _) as [e|u]; simpl; split; try reflexivity;
        split; intros x [= <-]; auto.
Qed.

Lemma handleSubmit_outcomes_witness :
  Auth.username form_mismatch <> ""
  /\ Auth.password form_mismatch <> ""
  /\ Auth.calls (Auth.handleSubmit Auth.login api_accepts form_mismatch)
     = [Auth.loginUser (Auth.mkCredentials "alice" "secret")]
  /\ Auth.user (Auth.handleSubmit Auth.login api_accepts form_mismatch)
     = Some (Store.mkUser "u1" "alice")
  /\ Auth.location (Auth.handleSubmit Auth.login api_accepts form_mismatch) = Some "/home".
Proof.
  assert (H1 : Auth.username form_mismatch <> "") by discriminate.
  assert (H2 : Auth.password form_mismatch <> "") by discriminate.
  destruct (handleSubmit_outcomes Auth.login api_accepts form_mismatch H1 H2)
    as (Hc & Hok & _).
  destruct (Hok (Store.mkUser "u1" "alice") eq_refl) as [Hu Hl].
  split; [exact H1|]. split; [exact H2|]. split; [exact Hc|]. split; [exact Hu|exact Hl].
Defined.

(** ** The profile settings *)
Section ProfileLemmas.
Import ProfileSettings.

Lemma truthy_opt_Some (o : option string) :
  truthy_opt o = true <-> exists u, o = Some u /\ u <> "".
Proof.
  destruct o as [u|]; simpl; unfold truthy.
  - destruct (String.eqb_spec u ""); simpl; split; try discriminate.
    + intros (u' & [= <-] & H). contradiction.
    + eauto.
    + intros _. reflexivity.
  - split; [discriminate|intros (u & H & _); discriminate].
Qed.

Lemma validatePasswords_true (s : Settings) :
  snd (validatePasswords s) = true
  <-> JsText.blank (newPassword s) = false /\ newPassword s = confirmNewPassword s.
Proof.
  unfold validatePasswords.
  destruct (String.eqb_spec (JsText.trim (newPassword s)) "") as [H1|H1]; simpl.
  - apply trim_blank in H1. rewrite H1. split; [discriminate|intros [H _]; discriminate].
  - assert (Hb : JsText.blank (newPassword s) = false).
    { destruct (JsText.blank (newPassword s)) eqn:E; [|reflexivity].
      apply trim_blank in E. contradiction. }
    destruct (String.eqb_spec (JsText.trim (confirmNewPassword s)) "") as [H2|H2]; simpl.
    + split; [discriminate|]. intros [_ He]. rewrite <- He in H2. contradiction.
    + destruct (String.eqb_spec (newPassword s) (confirmNewPassword s)); simpl;
        split; auto; try discriminate. intros [_ He]. contradiction.
Qed.

End ProfileLemmas.

(** X20: [handleResetPassword] sends a password to the service only when
    it is not blank and is equal, as typed, to its confirmation: every
    [resetPassword] call it adds is for the username of the URL with such a
    password.  With such a password it makes exactly that one call; when
    the call succeeds both fields are emptied, the error is cleared and the
    success message is set; when it fails the fields stay, the error is
    [Password reset failed.] and the success message is cleared.  When the
    two fields differ no call is made and the success message is left as it
    was. *)
Theorem handleResetPassword_sends_confirmed_password
    (ctx : ProfileSettings.Ctx) (api : ProfileSettings.Api) (s : ProfileSettings.Settings) :
  (forall c, c ∈ ProfileSettings.calls (ProfileSettings.handleResetPassword ctx api s) ->
     c ∈ ProfileSettings.calls s
     \/ exists u, ProfileSettings.url_username ctx = Some u /\ u <> ""
          /\ c = ProfileSettings.resetPassword u (ProfileSettings.newPassword s)
          /\ ProfileSettings.newPassword s = ProfileSettings.confirmNewPassword s
          /\ JsText.blank (ProfileSettings.newPassword s) = false)
  /\ (forall u, ProfileSettings.url_username ctx = Some u -> u <> "" ->
      JsText.blank (ProfileSettings.newPassword s) = false ->
      ProfileSettings.newPassword s = ProfileSettings.confirmNewPassword s ->
      ProfileSettings.calls (ProfileSettings.handleResetPassword ctx api s)
      = ProfileSettings.calls s
        ++ [ProfileSettings.resetPassword u (ProfileSettings.newPassword s)]
      /\ (forall r,
            api (ProfileSettings.resetPassword u (ProfileSettings.newPassword s)) = inr r ->
            ProfileSettings.newPassword (ProfileSettings.handleResetPassword ctx api s) = ""
            /\ ProfileSettings.confirmNewPassword
                 (ProfileSettings.handleResetPassword ctx api s) = ""
            /\ ProfileSettings.errorMessage (ProfileSettings.handleResetPassword ctx api s)
               = None
            /\ ProfileSettings.successMessage (ProfileSettings.handleResetPassword ctx api s)
               = Some "The password has been reset successfully!")
      /\ (forall e,
            api (ProfileSettings.resetPassword u (ProfileSettings.newPassword s)) = inl e ->
            ProfileSettings.newPassword (ProfileSettings.handleResetPassword ctx api s)
            = ProfileSettings.newPassword s
            /\ ProfileSettings.confirmNewPassword
                 (ProfileSettings.handleResetPassword ctx api s)
               = ProfileSettings.confirmNewPassword s
            /\ ProfileSettings.errorMessage (ProfileSettings.handleResetPassword ctx api s)
               = Some "Password reset failed."
            /\ ProfileSettings.successMessage (ProfileSettings.handleResetPassword ctx api s)
               = None))
  /\ (ProfileSettings.newPassword s <> ProfileSettings.confirmNewPassword s ->
      ProfileSettings.calls (ProfileSettings.handleResetPassword ctx api s)
      = ProfileSettings.calls s
      /\ ProfileSettings.successMessage (ProfileSettings.handleResetPassword ctx api s)
         = ProfileSettings.successMessage s).
Proof.
  unfold ProfileSettings.handleResetPassword.
  destruct (truthy_opt (ProfileSettings.url_username ctx)) eqn:Hu; simpl.
  2:{ split; [auto|]. split; [|auto].
      intros u Hs Hne. exfalso.
      assert (truthy_opt (ProfileSettings.url_username ctx) = true); [|congruence].
      apply truthy_opt_Some. eauto. }
  apply truthy_opt_Some in Hu. destruct Hu as (u & Hu & Hne). rewrite Hu. simpl.
  pose proof (validatePasswords_true s) as Hv.
  unfold ProfileSettings.validatePasswords in *.
  destruct (String.eqb (JsText.trim (ProfileSettings.newPassword s)) ""
            || String.eqb (JsText.trim (ProfileSettings.confirmNewPassword s)) "");
    [|destruct (String.eqb_spec (ProfileSettings.newPassword s)
                                (ProfileSettings.confirmNewPassword s)) as [He|He]];
    simpl in *.
  - split; [auto|]. split; [|auto].
    intros u' _ _ Hb He. discriminate (proj2 Hv (conj Hb He)).
  - destruct (proj1 Hv eq_refl) as [Hb _].
    split; [|split].
    + intros c Hc.
      assert (Hc' : c ∈ ProfileSettings.calls s
                          ++ [ProfileSettings.resetPassword u (ProfileSettings.newPassword s)])
        by (destruct (api _); exact Hc).
      apply elem_of_app in Hc'. destruct Hc' as [Hc'|Hc']; [left; exact Hc'|].
      right. exists u. apply elem_of_cons in Hc'.
      destruct Hc' as [->|Hc']; [auto 10|apply elem_of_nil in Hc'; contradiction].
    + intros u' [= <-] _ _ _.
      split; [destruct (api _); reflexivity|].
      split; intros x Hx; rewrite Hx; simpl; auto.
    + intros Hd. contradiction.
  - split; [auto|]. split; [|auto].
    intros u' _ _ Hb He'. contradiction.
Qed.

Lemma handleResetPassword_sends_confirmed_password_witness :
  ProfileSettings.url_username ctx_bob = Some "bob"
  /\ JsText.blank (ProfileSettings.newPassword settings_bob) = false
  /\ ProfileSettings.calls
       (ProfileSettings.handleResetPassword ctx_bob profile_api_accepts settings_bob)
     = [ProfileSettings.resetPassword "bob" "hunter2"]
  /\ ProfileSettings.newPassword
       (ProfileSettings.handleResetPassword ctx_bob profile_api_accepts settings_bob) = ""
  /\ ProfileSettings.errorMessage
       (ProfileSettings.handleResetPassword ctx_bob profile_api_down settings_bob)
     = Some "Password reset failed.".
Proof.
  destruct (handleResetPassword_sends_confirmed_password ctx_bob profile_api_accepts
              settings_bob) as (_ & H & _).
  destruct (H "bob" eq_refl ltac:(discriminate) eq_refl eq_refl) as (Hc & Hok & _).
  destruct (Hok _ eq_refl) as (Hn & _).
  destruct (handleResetPassword_sends_confirmed_password ctx_bob profile_api_down
              settings_bob) as (_ & H' & _).
  destruct (H' "bob" eq_refl ltac:(discriminate) eq_refl eq_refl) as (_ & _ & Hko).
  destruct (Hko _ eq_refl) as (_ & _ & He & _).
  split; [reflexivity|]. split; [reflexivity|]. split; [exact Hc|].
  split; [exact Hn|exact He].
Defined.

(** X21: [handleDeleteUser] deletes nothing: it calls no service and goes
    nowhere, it opens the confirmation and stores the action.  Running the
    stored action calls [deleteUser] once, for the username of the URL, and
    closes the confirmation whether the call succeeds or fails; only a
    successful call navigates to [/]; a failed one sets the error
    [Failed to delete user.] and leaves the route and the user data as they
    were. *)
Theorem deleteUser_only_after_confirmation
    (ctx : ProfileSettings.Ctx) (api : ProfileSettings.Api) (s : ProfileSettings.Settings)
    (u : string) :
  ProfileSettings.url_username ctx = Some u ->
  u <> "" ->
  ProfileSettings.calls (ProfileSettings.handleDeleteUser ctx s) = ProfileSettings.calls s
  /\ ProfileSettings.location (ProfileSettings.handleDeleteUser ctx s)
     = ProfileSettings.location s
  /\ ProfileSettings.showConfirmation (ProfileSettings.handleDeleteUser ctx s) = true
  /\ ProfileSettings.calls
       (ProfileSettings.runPendingAction api (ProfileSettings.handleDeleteUser ctx s))
     = ProfileSettings.calls s ++ [ProfileSettings.deleteUser u]
  /\ ProfileSettings.showConfirmation
       (ProfileSettings.runPendingAction api (ProfileSettings.handleDeleteUser ctx s)) = false
  /\ (forall r, api (ProfileSettings.deleteUser u) = inr r ->
        ProfileSettings.location
          (ProfileSettings.runPendingAction api (ProfileSettings.handleDeleteUser ctx s))
        = Some "/"
        /\ ProfileSettings.errorMessage
             (ProfileSettings.runPendingAction api (ProfileSettings.handleDeleteUser ctx s))
           = None
        /\ ProfileSettings.successMessage
             (ProfileSettings.runPendingAction api (ProfileSettings.handleDeleteUser ctx s))
           = Some ("User '" +:+ u +:+ "' deleted successfully!"))
  /\ (forall e, api (ProfileSettings.deleteUser u) = inl e ->
        ProfileSettings.location
          (ProfileSettings.runPendingAction api (ProfileSettings.handleDeleteUser ctx s))
        = ProfileSettings.location s
        /\ ProfileSettings.userData
             (ProfileSettings.runPendingAction api (ProfileSettings.handleDeleteUser ctx s))
           = ProfileSettings.userData s
        /\ ProfileSettings.errorMessage
             (ProfileSettings.runPendingAction api (ProfileSettings.handleDeleteUser ctx s))
           = Some "Failed to delete user."
        /\ ProfileSettings.successMessage
             (ProfileSettings.runPendingAction api (ProfileSettings.handleDeleteUser ctx s))
           = None).
Proof.
  intros Hu Hne.
  assert (Ht : truthy_opt (ProfileSettings.url_username ctx) = true)
    by (apply truthy_opt_Some; eauto).
  unfold ProfileSettings.handleDeleteUser, ProfileSettings.runPendingAction.
  rewrite Ht, Hu. simpl.
  split; [reflexivity|]. split; [reflexivity|]. split; [reflexivity|].
  split; [destruct (api (ProfileSettings.deleteUser u)); reflexivity|].
  split; [destruct (api (ProfileSettings.deleteUser u)); reflexivity|].
  split; intros x Hx; rewrite Hx; simpl; auto.
Qed.

Lemma deleteUser_only_after_confirmation_witness :
  ProfileSettings.url_username ctx_bob = Some "bob"
  /\ "bob" <> ""
  /\ ProfileSettings.calls (ProfileSettings.handleDeleteUser ctx_bob settings_bob) = []
  /\ ProfileSettings.calls
       (ProfileSettings.runPendingAction profile_api_accepts
          (ProfileSettings.handleDeleteUser ctx_bob settings_bob))
     = [ProfileSettings.deleteUser "bob"]
  /\ ProfileSettings.location
       (ProfileSettings.runPendingAction profile_api_accepts
          (ProfileSettings.handleDeleteUser ctx_bob settings_bob)) = Some "/"
  /\ ProfileSettings.location
       (ProfileSettings.runPendingAction profile_api_down
          (ProfileSettings.handleDeleteUser ctx_bob settings_bob)) = None.
Proof.
  assert (H1 : ProfileSettings.url_username ctx_bob = Some "bob") by reflexivity.
  assert (H2 : "bob" <> "") by discriminate.
  destruct (deleteUser_only_after_confirmation ctx_bob profile_api_accepts settings_bob
              "bob" H1 H2) as (Hc & _ & _ & Hr & _ & Hok & _).
  destruct (Hok _ eq_refl) as (Hl & _).
  destruct (deleteUser_only_after_confirmation ctx_bob profile_api_down settings_bob
              "bob" H1 H2) as (_ & _ & _ & _ & _ & _ & Hko).
  destruct (Hko _ eq_refl) as (Hl' & _).
  split; [exact H1|]. split; [exact H2|]. split; [exact Hc|]. split; [exact Hr|].
  split; [exact Hl|exact Hl'].
Defined.

(** X22: after the profile was fetched the page is not loading, one
    [getUserByUsername] call was made for the username of the URL, and the
    profile can be edited exactly when the call gave a user whose username
    is the non-empty username of the user logged in; a failed call leaves
    no user data and sets the error [Error fetching user profile]. *)
Theorem canEditProfile_after_fetch
    (ctx : ProfileSettings.Ctx) (api : ProfileSettings.Api) (s : ProfileSettings.Settings)
    (u : string) :
  ProfileSettings.url_username ctx = Some u ->
  u <> "" ->
  ProfileSettings.loading (ProfileSettings.fetchUserData ctx api s) = false
  /\ ProfileSettings.calls (ProfileSettings.fetchUserData ctx api s)
     = ProfileSettings.calls s ++ [ProfileSettings.getUserByUsername u]
  /\ (ProfileSettings.canEditProfile ctx (ProfileSettings.fetchUserData ctx api s) = true
      <-> exists data, api (ProfileSettings.getUserByUsername u) = inr data
            /\ UsersListPage.username data = ProfileSettings.currentUser ctx
            /\ ProfileSettings.currentUser ctx <> "")
  /\ (forall e, api (ProfileSettings.getUserByUsername u) = inl e ->
        ProfileSettings.userData (ProfileSettings.fetchUserData ctx api s) = None
        /\ ProfileSettings.errorMessage (ProfileSettings.fetchUserData ctx api s)
           = Some "Error fetching user profile").
Proof.
  intros Hu Hne. unfold ProfileSettings.fetchUserData, ProfileSettings.canEditProfile.
  assert (Htu : truthy u = true)
    by (unfold truthy; destruct (String.eqb_spec u ""); [contradiction|reflexivity]).
  rewrite Hu, Htu.
  destruct (api (ProfileSettings.getUserByUsername u)) as [e|data]; simpl.
  - split; [reflexivity|]. split; [reflexivity|]. split; [|auto].
    split; [discriminate|]. intros (d & H & _). discriminate.
  - split; [reflexivity|]. split; [reflexivity|]. split; [|intros e H; discriminate].
    unfold truthy.
    destruct (String.eqb_spec (ProfileSettings.currentUser ctx) "") as [Hc|Hc]; simpl.
    + split; [discriminate|]. intros (d & _ & _ & H). contradiction.
    + destruct (String.eqb_spec (UsersListPage.username data) "") as [Hd|Hd]; simpl.
      * split; [discriminate|]. intros (d & [= <-] & H & _). congruence.
      * rewrite String.eqb_eq. split.
        -- intros H. exists data. auto.
        -- intros (d & [= <-] & H & _). auto.
Qed.

Lemma canEditProfile_after_fetch_witness :
  ProfileSettings.url_username ctx_bob = Some "bob"
  /\ "bob" <> ""
  /\ ProfileSettings.canEditProfile ctx_bob
       (ProfileSettings.fetchUserData ctx_bob profile_api_accepts settings_bob) = true
  /\ ProfileSettings.canEditProfile ctx_bob
       (ProfileSettings.fetchUserData ctx_bob profile_api_down settings_bob) = false.
Proof.
  assert (H1 : ProfileSettings.url_username ctx_bob = Some "bob") by reflexivity.
  assert (H2 : "bob" <> "") by discriminate.
  destruct (canEditProfile_after_fetch ctx_bob profile_api_accepts settings_bob "bob" H1 H2)
    as (_ & _ & Hok & _).
  destruct (canEditProfile_after_fetch ctx_bob profile_api_down settings_bob "bob" H1 H2)
    as (_ & _ & Hko & _).
  split; [exact H1|]. split; [exact H2|]. split.
  - apply Hok. exists (UsersListPage.mkUser "bob" "new bio" 2).
    split; [reflexivity|]. split; [reflexivity|discriminate].
  - destruct (ProfileSettings.canEditProfile ctx_bob
                (ProfileSettings.fetchUserData ctx_bob profile_api_down settings_bob)) eqn:E;
      [|reflexivity].
    destruct (proj1 Hko eq_refl) as (d & Hd & _). discriminate.
Defined.

(** ** The game page *)
Section GamePageLemmas.

Import GamePage.

Lemma last_default_irrelevant {A} (l : list A) (a d d' : A) :
  List.last (a :: l) d = List.last (a :: l) d'.
Proof.
  revert a. induction l as [|b l IH]; intros a; [reflexivity|].
  change (List.last (b :: l) d = List.last (b :: l) d'). apply IH.
Qed.

Lemma last_cons_default {A} (l : list A) (a d : A) :
  List.last (a :: l) d = List.last l a.
Proof.
  destruct l as [|b l]; [reflexivity|].
  change (List.last (b :: l) d = List.last (b :: l) a). apply last_default_irrelevant.
Qed.

Lemma received_cons (username : string) (ev : SocketEvent) (evs : list SocketEvent)
    (p : Page) :
  received username (ev :: evs) p = received username evs (receive username p ev).
Proof. reflexivity. Qed.

Lemma received_spec (username : string) (evs : list SocketEvent) (p : Page) :
  received username evs p
  = mkPage (match gameState p with
            | Some g => Some (List.last (updatesOf evs) g)
            | None => None
            end)
           (joinedGameID p)
           (List.last (map Some (errorsOf username evs)) (error p))
           (calls p) (sent p) (location p).
Proof.
  revert p. induction evs as [|ev evs IH]; intros p.
  - destruct p as [[g|] j e c s l]; reflexivity.
  - rewrite received_cons, IH. destruct ev as [u|e].
    + change (updatesOf (gameUpdate u :: evs)) with (update_gameState u :: updatesOf evs).
      change (errorsOf username (gameUpdate u :: evs)) with (errorsOf username evs).
      destruct p as [[g|] j e c s l]; cbn [receive handleGameUpdate setGameState gameState
        joinedGameID error calls sent location]; [|reflexivity].
      rewrite last_cons_default. reflexivity.
    + change (updatesOf (gameError e :: evs)) with (updatesOf evs).
      cbn [receive]. unfold handleGameError.
      destruct (String.eqb (error_player e) username) eqn:E.
      * replace (errorsOf username (gameError e :: evs))
          with (error_text e :: errorsOf username evs)
          by (unfold errorsOf; cbn [flat_map]; rewrite E; reflexivity).
        cbn [map]. rewrite last_cons_default. reflexivity.
      * replace (errorsOf username (gameError e :: evs)) with (errorsOf username evs)
          by (unfold errorsOf; cbn [flat_map]; rewrite E; reflexivity).
        reflexivity.
Qed.

Lemma handleJoinGame_ok (username : string) (api : Api) (id : string) (p : Page)
    (game : GameInstance) :
  api (joinGame id username) = inr game ->
  handleJoinGame username api id p
  = (mkPage (Some game) (gameID game) (error p) (calls p ++ [joinGame id username])
            (sent p ++ [emit_joinGame (gameID game)]) (location p), inr tt).
Proof.
  intros H. unfold handleJoinGame. unfold_m. simpl. rewrite H. reflexivity.
Qed.

Lemma handleJoinGame_error (username : string) (api : Api) (id : string) (p : Page)
    (e : JsError) :
  api (joinGame id username) = inl e ->
  handleJoinGame username api id p
  = (mkPage (gameState p) (joinedGameID p) (Some (error_toString e +:+ ".message"))
            (calls p ++ [joinGame id username]) (sent p) (location p), inr tt).
Proof.
  intros H. unfold handleJoinGame. unfold_m. simpl. rewrite H. reflexivity.
Qed.

Lemma handleLeaveGame_not_joined (username : string) (api : Api) (p : Page) :
  truthy (joinedGameID p) && notOver (gameState p) = false ->
  handleLeaveGame username api p
  = (mkPage (gameState p) (joinedGameID p) (error p) (calls p)
            (sent p ++ [emit_leaveGame (joinedGameID p)]) (Some "/games"), inr tt).
Proof.
  intros H. unfold handleLeaveGame. unfold_m. simpl. rewrite H. reflexivity.
Qed.

Lemma handleLeaveGame_ok (username : string) (api : Api) (p : Page) (g : GameInstance) :
  truthy (joinedGameID p) && notOver (gameState p) = true ->
  api (leaveGame (joinedGameID p) username) = inr g ->
  handleLeaveGame username api p
  = (mkPage None "" (error p) (calls p ++ [leaveGame (joinedGameID p) username])
            (sent p ++ [emit_leaveGame (joinedGameID p)]) (Some "/games"), inr tt).
Proof.
  intros H Ha. unfold handleLeaveGame. unfold_m. simpl. rewrite H. simpl. rewrite Ha.
  reflexivity.
Qed.

Lemma handleLeaveGame_error (username : string) (api : Api) (p : Page) (e : JsError) :
  truthy (joinedGameID p) && notOver (gameState p) = true ->
  api (leaveGame (joinedGameID p) username) = inl e ->
  handleLeaveGame username api p
  = (mkPage (gameState p) (joinedGameID p) (error p)
            (calls p ++ [leaveGame (joinedGameID p) username]) (sent p) (location p),
     inl e).
Proof.
  intros H Ha. unfold handleLeaveGame. unfold_m. simpl. rewrite H. simpl. rewrite Ha.
  reflexivity.
Qed.

End GamePageLemmas.

(** X23: socket events touch the game and the error of the page only: the
    joined game id, the service calls, the events sent and the route stay.
    While no game is held every [gameUpdate] is dropped; once one is held
    the page shows the game of the last [gameUpdate].  The error shown is
    the one of the last [gameError] caused by the user of the page; the
    errors of other players are dropped. *)
Theorem socket_events_update_game_and_error
    (username : string) (evs : list GamePage.SocketEvent) (p : GamePage.Page) :
  GamePage.gameState (received username evs p)
  = match GamePage.gameState p with
    | Some g => Some (List.last (updatesOf evs) g)
    | None => None
    end
  /\ GamePage.error (received username evs p)
     = List.last (map Some (errorsOf username evs)) (GamePage.error p)
  /\ GamePage.joinedGameID (received username evs p) = GamePage.joinedGameID p
  /\ GamePage.calls (received username evs p) = GamePage.calls p
  /\ GamePage.sent (received username evs p) = GamePage.sent p
  /\ GamePage.location (received username evs p) = GamePage.location p.
Proof.
  rewrite received_spec. simpl. auto 10.
Qed.

(** X24: [handleLeaveGame] calls the [leaveGame] service exactly when a
    game id is held and the game shown is not over.  If that call fails
    the handler rejects with the failure: no [leaveGame] event is sent, the
    route and the game held stay.  If the call succeeds, or is not made,
    the handler resolves, sends one [leaveGame] event carrying the id held
    before the call (the empty id when none is held) and goes to [/games];
    the game and the id are cleared only when the service was called. *)
Theorem handleLeaveGame_outcomes
    (username : string) (api : GamePage.Api) (p : GamePage.Page) :
  let r := GamePage.handleLeaveGame username api p in
  let asked := truthy (GamePage.joinedGameID p) && GamePage.notOver (GamePage.gameState p) in
  GamePage.calls (fst r)
  = GamePage.calls p
    ++ (if asked then [GamePage.leaveGame (GamePage.joinedGameID p) username] else [])
  /\ GamePage.error (fst r) = GamePage.error p
  /\ (forall e, asked = true ->
        api (GamePage.leaveGame (GamePage.joinedGameID p) username) = inl e ->
        snd r = inl e
        /\ GamePage.sent (fst r) = GamePage.sent p
        /\ GamePage.location (fst r) = GamePage.location p
        /\ GamePage.gameState (fst r) = GamePage.gameState p
        /\ GamePage.joinedGameID (fst r) = GamePage.joinedGameID p)
  /\ (asked = false
      \/ (exists g, api (GamePage.leaveGame (GamePage.joinedGameID p) username) = inr g) ->
      snd r = inr tt
      /\ GamePage.sent (fst r)
         = GamePage.sent p ++ [GamePage.emit_leaveGame (GamePage.joinedGameID p)]
      /\ GamePage.location (fst r) = Some "/games"
      /\ GamePage.gameState (fst r) = (if asked then None else GamePage.gameState p)
      /\ GamePage.joinedGameID (fst r) = (if asked then "" else GamePage.joinedGameID p)).
Proof.
  intros r asked. subst r.
  destruct asked eqn:Hasked; subst asked.
  - destruct (api (GamePage.leaveGame (GamePage.joinedGameID p) username)) as [e|g] eqn:Ha.
    + rewrite (handleLeaveGame_error _ _ _ _ Hasked Ha). simpl.
      split; [reflexivity|]. split; [reflexivity|]. split.
      * intros e' _ [= <-]. auto 10.
      * intros [H|(g & H)]; discriminate.
    + rewrite (handleLeaveGame_ok _ _ _ _ Hasked Ha). simpl.
      split; [reflexivity|]. split; [reflexivity|]. split.
      * intros e _ H. discriminate.
      * intros _. auto 10.
  - rewrite (handleLeaveGame_not_joined _ _ _ Hasked). simpl.
    split; [symmetry; apply app_nil_r|]. split; [reflexivity|]. split.
    + intros e H. discriminate.
    + intros _. auto 10.
Qed.

(** X25: a page opened on the URL of a game joins it with one [joinGame]
    call for the id of the URL and sends [joinGame] with the id of the game
    the service answered.  Whatever the socket delivers afterwards, leaving
    (with a [leaveGame] service that answers) sends [leaveGame] with that
    same id and goes to [/games]; the [leaveGame] service is called, with
    that id, exactly when the id is not empty and the last game shown is
    not over. *)
Theorem join_then_leave_same_game
    (username id : string) (api : GamePage.Api) (game left : GamePage.GameInstance)
    (evs : list GamePage.SocketEvent) :
  id <> "" ->
  api (GamePage.joinGame id username) = inr game ->
  api (GamePage.leaveGame (GamePage.gameID game) username) = inr left ->
  let joined := fst (GamePage.onMount username api (Some id) GamePage.initial) in
  let final := fst (GamePage.handleLeaveGame username api (received username evs joined)) in
  GamePage.sent joined = [GamePage.emit_joinGame (GamePage.gameID game)]
  /\ GamePage.gameState joined = Some game
  /\ GamePage.sent final
     = [GamePage.emit_joinGame (GamePage.gameID game);
        GamePage.emit_leaveGame (GamePage.gameID game)]
  /\ GamePage.location final = Some "/games"
  /\ GamePage.calls final
     = GamePage.joinGame id username
       :: (if truthy (GamePage.gameID game)
              && negb (String.eqb (GamePage.status (List.last (updatesOf evs) game)) "OVER")
           then [GamePage.leaveGame (GamePage.gameID game) username] else []).
Proof.
  intros Hid Hjoin Hleave joined final. subst final joined.
  unfold GamePage.onMount.
  assert (Ht : truthy id = true)
    by (unfold truthy; destruct (String.eqb_spec id ""); [contradiction|reflexivity]).
  rewrite Ht, (handleJoinGame_ok _ _ _ _ _ Hjoin). simpl.
  split; [reflexivity|]. split; [reflexivity|].
  rewrite received_spec. simpl.
  set (q := GamePage.mkPage _ _ _ _ _ _).
  destruct (truthy (GamePage.gameID game)
            && negb (String.eqb (GamePage.status (List.last (updatesOf evs) game)) "OVER"))
    eqn:Hasked.
  - rewrite (handleLeaveGame_ok username api q left); [simpl; auto|exact Hasked|exact Hleave].
  - rewrite (handleLeaveGame_not_joined username api q); [simpl; auto|exact Hasked].
Qed.

Lemma join_then_leave_same_game_witness :
  "g1" <> ""
  /\ games_api_accepts (GamePage.joinGame "g1" "bob") = inr game_nim
  /\ games_api_accepts (GamePage.leaveGame (GamePage.gameID game_nim) "bob") = inr game_nim
  /\ GamePage.sent
       (fst (GamePage.handleLeaveGame "bob" games_api_accepts
               (received "bob" events_sample
                  (fst (GamePage.onMount "bob" games_api_accepts (Some "g1")
                          GamePage.initial)))))
     = [GamePage.emit_joinGame "g1"; GamePage.emit_leaveGame "g1"]
  /\ GamePage.calls
       (fst (GamePage.handleLeaveGame "bob" games_api_accepts
               (received "bob" events_sample
                  (fst (GamePage.onMount "bob" games_api_accepts (Some "g1")
                          GamePage.initial)))))
     = [GamePage.joinGame "g1" "bob"].
Proof.
  assert (H1 : "g1" <> "") by discriminate.
  assert (H2 : games_api_accepts (GamePage.joinGame "g1" "bob") = inr game_nim)
    by reflexivity.
  assert (H3 : games_api_accepts (GamePage.leaveGame (GamePage.gameID game_nim) "bob")
               = inr game_nim) by reflexivity.
  destruct (join_then_leave_same_game "bob" "g1" games_api_accepts game_nim game_nim
              events_sample H1 H2 H3) as (_ & _ & Hs & _ & Hc).
  split; [exact H1|]. split; [exact H2|]. split; [exact H3|].
  split; [exact Hs|exact Hc].
Defined.

(** X26: when the [joinGame] service fails the page holds no game and no
    game id, sends nothing, and shows the failure turned into a string
    followed by [.message].  Leaving from there calls no service, sends
    [leaveGame] with the empty id and goes to [/games]. *)
Theorem failed_join_then_leave
    (username id : string) (api : GamePage.Api) (e : JsError) :
  id <> "" ->
  api (GamePage.joinGame id username) = inl e ->
  let joined := GamePage.onMount username api (Some id) GamePage.initial in
  let final := GamePage.handleLeaveGame username api (fst joined) in
  snd joined = inr tt
  /\ GamePage.gameState (fst joined) = None
  /\ GamePage.joinedGameID (fst joined) = ""
  /\ GamePage.sent (fst joined) = []
  /\ GamePage.error (fst joined) = Some (error_toString e +:+ ".message")
  /\ snd final = inr tt
  /\ GamePage.calls (fst final) = [GamePage.joinGame id username]
  /\ GamePage.sent (fst final) = [GamePage.emit_leaveGame ""]
  /\ GamePage.location (fst final) = Some "/games".
Proof.
  intros Hid Hjoin joined final. subst final joined.
  unfold GamePage.onMount.
  assert (Ht : truthy id = true)
    by (unfold truthy; destruct (String.eqb_spec id ""); [contradiction|reflexivity]).
  rewrite Ht, (handleJoinGame_error _ _ _ _ _ Hjoin). cbn [fst snd].
  rewrite handleLeaveGame_not_joined by reflexivity. simpl. auto 10.
Qed.

Lemma failed_join_then_leave_witness :
  "g1" <> ""
  /\ games_api_down (GamePage.joinGame "g1" "bob") = inl (Error "Network Error")
  /\ GamePage.error (fst (GamePage.onMount "bob" games_api_down (Some "g1") GamePage.initial))
     = Some "Error: Network Error.message"
  /\ GamePage.sent
       (fst (GamePage.handleLeaveGame "bob" games_api_down
               (fst (GamePage.onMount "bob" games_api_down (Some "g1") GamePage.initial))))
     = [GamePage.emit_leaveGame ""].
Proof.
  assert (H1 : "g1" <> "") by discriminate.
  assert (H2 : games_api_down (GamePage.joinGame "g1" "bob") = inl (Error "Network Error"))
    by reflexivity.
  destruct (failed_join_then_leave "bob" "g1" games_api_down (Error "Network Error") H1 H2)
    as (_ & _ & _ & _ & He & _ & _ & Hs & _).
  split; [exact H1|]. split; [exact H2|]. split; [exact He|exact Hs].
Defined.

(** X27: choosing a game type always flips the modal and calls
    [createGame] once with that type.  The games are fetched only after
    [createGame] succeeded, and the list shown changes only if that fetch
    succeeded too; the route never changes. *)
Theorem handleSelectGameType_outcomes
    (api : AllGamesPage.Api) (gameType : string) (p : AllGamesPage.Page) :
  let q := AllGamesPage.handleSelectGameType api gameType p in
  AllGamesPage.isModalOpen q = negb (AllGamesPage.isModalOpen p)
  /\ AllGamesPage.location q = AllGamesPage.location p
  /\ AllGamesPage.calls q
     = AllGamesPage.calls p
       ++ AllGamesPage.createGame gameType
          :: (match AllGamesPage.api_createGame api gameType with
              | inr _ => [AllGamesPage.getGames]
              | inl _ => []
              end)
  /\ AllGamesPage.availableGames q
     = match AllGamesPage.api_createGame api gameType, AllGamesPage.api_getGames api with
       | inr _, inr allGames => allGames
       | _, _ => AllGamesPage.availableGames p
       end.
Proof.
  intros q. subst q.
  unfold AllGamesPage.handleSelectGameType, AllGamesPage.handleCreateGame,
    AllGamesPage.fetchGames.
  unfold_m. simpl.
  destruct (AllGamesPage.api_createGame api gameType) as [e|g]; simpl.
  - auto.
  - destruct (AllGamesPage.api_getGames api) as [e|l]; simpl;
      rewrite <- ?app_assoc; auto.
Qed.

(** X28: on a profile page whose URL names no user (none, or the empty
    name) resetting the password, updating the biography and deleting the
    user do nothing at all: no service is called, no message is set, no
    confirmation opens; and nothing is fetched when the page opens. *)
Theorem profile_handlers_need_username
    (ctx : ProfileSettings.Ctx) (api : ProfileSettings.Api) (s : ProfileSettings.Settings) :
  truthy_opt (ProfileSettings.url_username ctx) = false ->
  ProfileSettings.handleResetPassword ctx api s = s
  /\ ProfileSettings.handleUpdateBiography ctx api s = s
  /\ ProfileSettings.handleDeleteUser ctx s = s
  /\ ProfileSettings.fetchUserData ctx api s = s.
Proof.
  intros H.
  unfold ProfileSettings.handleResetPassword, ProfileSettings.handleUpdateBiography,
    ProfileSettings.handleDeleteUser, ProfileSettings.fetchUserData.
  rewrite ?H. simpl.
  destruct (ProfileSettings.url_username ctx) as [u|]; simpl in *; rewrite ?H; auto.
Qed.

Lemma profile_handlers_need_username_witness :
  truthy_opt (ProfileSettings.url_username (ProfileSettings.mkCtx (Some "") "bob")) = false
  /\ ProfileSettings.handleDeleteUser (ProfileSettings.mkCtx (Some "") "bob") settings_bob
     = settings_bob
  /\ ProfileSettings.handleUpdateBiography (ProfileSettings.mkCtx (Some "") "bob")
       profile_api_accepts settings_bob
     = settings_bob.
Proof.
  assert (H : truthy_opt (ProfileSettings.url_username (ProfileSettings.mkCtx (Some "") "bob"))
              = false) by reflexivity.
  destruct (profile_handlers_need_username (ProfileSettings.mkCtx (Some "") "bob")
              profile_api_accepts settings_bob H) as (_ & Hb & Hd & _).
  split; [exact H|]. split; [exact Hd|exact Hb].
Defined.

(** X29: updating the biography calls [updateBiography] once with the
    username of the URL and the biography typed, and never leaves the
    page.  If the service answers, the page shows the user answered,
    leaves the edit mode and sets the success message only; if it fails,
    the user shown and the edit mode stay and the error message only is
    set.  The password fields are untouched either way. *)
Theorem handleUpdateBiography_outcomes
    (ctx : ProfileSettings.Ctx) (api : ProfileSettings.Api) (s : ProfileSettings.Settings)
    (u : string) :
  ProfileSettings.url_username ctx = Some u ->
  u <> "" ->
  let s' := ProfileSettings.handleUpdateBiography ctx api s in
  ProfileSettings.calls s'
  = ProfileSettings.calls s ++ [ProfileSettings.updateBiography u (ProfileSettings.newBio s)]
  /\ ProfileSettings.location s' = ProfileSettings.location s
  /\ ProfileSettings.newPassword s' = ProfileSettings.newPassword s
  /\ ProfileSettings.confirmNewPassword s' = ProfileSettings.confirmNewPassword s
  /\ match api (ProfileSettings.updateBiography u (ProfileSettings.newBio s)) with
     | inr updatedUser =>
         ProfileSettings.userData s' = Some updatedUser
         /\ ProfileSettings.editBioMode s' = false
         /\ ProfileSettings.errorMessage s' = None
         /\ ProfileSettings.successMessage s' = Some "Updated user's biography successfully!"
     | inl _ =>
         ProfileSettings.userData s' = ProfileSettings.userData s
         /\ ProfileSettings.editBioMode s' = ProfileSettings.editBioMode s
         /\ ProfileSettings.errorMessage s' = Some "Failed to update user's biography."
         /\ ProfileSettings.successMessage s' = None
     end.
Proof.
  intros Hu Hne s'. subst s'.
  assert (Ht : truthy_opt (ProfileSettings.url_username ctx) = true)
    by (apply truthy_opt_Some; eauto).
  unfold ProfileSettings.handleUpdateBiography. rewrite Ht, Hu. simpl.
  destruct (api (ProfileSettings.updateBiography u (ProfileSettings.newBio s)));
    simpl; auto 10.
Qed.

Lemma handleUpdateBiography_outcomes_witness :
  ProfileSettings.url_username ctx_bob = Some "bob"
  /\ "bob" <> ""
  /\ ProfileSettings.calls
       (ProfileSettings.handleUpdateBiography ctx_bob profile_api_down settings_bob)
     = [ProfileSettings.updateBiography "bob" "new bio"]
  /\ ProfileSettings.location
       (ProfileSettings.handleUpdateBiography ctx_bob profile_api_down settings_bob)
     = None.
Proof.
  assert (H1 : ProfileSettings.url_username ctx_bob = Some "bob") by reflexivity.
  assert (H2 : "bob" <> "") by discriminate.
  destruct (handleUpdateBiography_outcomes ctx_bob profile_api_down settings_bob "bob" H1 H2)
    as (Hc & Hl & _).
  split; [exact H1|]. split; [exact H2|]. split; [exact Hc|exact Hl].
Defined.
